(** * Sherpa-OS: context extraction, prompt compilation and feedback loop

    A shallow embedding of [src/utils/context.ts] (class [ContextManager]),
    [src/utils/prompts.ts] (class [PromptManager]) and the filter of
    [src/commands/prompt-optimize.ts], with the properties of the
    specification proved or refuted over it.

    Conventions of the embedding.
    - JavaScript strings are [string]s of 8-bit characters; the texts handled
      are ASCII, [toLowerCase] is the ASCII case mapping.
    - Counters are [nat]; the quotient [successCount / totalUses] is kept as
      an exact rational ([Q]).  The double the program stores is the rounding
      of that rational, and comparing it with the literal [0.7] agrees with
      the rational comparison for every count below 2^49.
    - The [.sherpa] directory is an explicit [store]; every operation is a
      function from a store to an outcome and the store it leaves behind
      (a failing operation keeps the writes it made before failing).
    - What the program takes from third parties is a method of the class
      [ThirdParty]: the Babel parser, the Fuse.js search and the rendering of
      dates.
    - The clock is an input: an operation that reads the time takes the
      reading as an argument. *)

From Stdlib Require Import String Ascii List Arith ZArith QArith Lia Bool.
From Stdlib Require Import DecimalString DecimalNat Decimal.
From stdpp Require Import base option list gmap strings sorting.

Import ListNotations.
Set Warnings "-register-all".
Open Scope string_scope.
Open Scope list_scope.

(** ** JavaScript strings *)

Module JsString.

(** [s.includes(sub)] *)
Fixpoint includes (sub s : string) : bool :=
  match s with
  | EmptyString => String.prefix sub EmptyString
  | String _ s' => String.prefix sub s || includes sub s'
  end.

Definition lower_char (c : ascii) : ascii :=
  let n := nat_of_ascii c in
  if (65 <=? n)%nat && (n <=? 90)%nat then ascii_of_nat (n + 32) else c.

(** [s.toLowerCase()] *)
Fixpoint toLowerCase (s : string) : string :=
  match s with
  | EmptyString => EmptyString
  | String c s' => String (lower_char c) (toLowerCase s')
  end.

(** [s.startsWith(p)] and [s.endsWith(p)] *)
Definition startsWith (s p : string) : bool := String.prefix p s.

Definition endsWith (s p : string) : bool :=
  String.prefix (String.rev p) (String.rev s).

(** [l.join(sep)] *)
Definition join (sep : string) (l : list string) : string :=
  String.concat sep l.

(** A JavaScript value in boolean position: the empty string is falsy. *)
Definition truthy (s : string) : bool :=
  match s with EmptyString => false | _ => true end.

(** [a || b] on strings *)
Definition or_else (a b : string) : string := if truthy a then a else b.

(** The members that every object inherits from [Object.prototype], as
    the language defines it.  For these names [o[name]] is a function (for
    [__proto__], the prototype itself), hence truthy, also when [o] has no
    key of that name. *)
Definition objectPrototypeMembers : list string :=
  [ "constructor"; "__defineGetter__"; "__defineSetter__"; "hasOwnProperty";
    "__lookupGetter__"; "__lookupSetter__"; "isPrototypeOf"; "propertyIsEnumerable";
    "toString"; "valueOf"; "__proto__"; "toLocaleString" ].

Definition inherited (name : string) : bool :=
  existsb (String.eqb name) objectPrototypeMembers.

(** Template literal [`${n}`] for a non-negative integer. *)
Definition of_nat (n : nat) : string := NilEmpty.string_of_uint (Nat.to_uint n).
Definition of_N (n : N) : string := NilEmpty.string_of_uint (N.to_uint n).

(** The replacement text of one match: [GetSubstitution] of ECMA-262 for a
    pattern without capture groups.  [$$] is a dollar, [$&] the match,
    [$`] the text before it, [$'] the text after it; every other dollar
    sequence stands for itself. *)
Fixpoint getSubstitution (matched before after repl : string) : string :=
  match repl with
  | EmptyString => EmptyString
  | String "$" (String "$" r) => String "$" (getSubstitution matched before after r)
  | String "$" (String "&" r) => matched +:+ getSubstitution matched before after r
  | String "$" (String "`" r) => before +:+ getSubstitution matched before after r
  | String "$" (String "'" r) => after +:+ getSubstitution matched before after r
  | String c r => String c (getSubstitution matched before after r)
  end.

(** [s.replace(new RegExp(pat, 'g'), repl)] for a pattern [pat] that the
    regular-expression grammar reads as literal text, which is the case
    of every [{{NAME}}] built by [fillTemplate].  The scan goes left to
    right; after a match it resumes behind the matched text, and the
    inserted text is not scanned again.  [skip] counts the characters of
    the current match still to be passed over, [before] is the text
    already passed, reversed. *)
Fixpoint replace_from (pat repl : string) (skip : nat) (before s : string) : string :=
  match s with
  | EmptyString => EmptyString
  | String c s' =>
      match skip with
      | S k => replace_from pat repl k (String c before) s'
      | O =>
          if String.prefix pat s then
            getSubstitution pat (String.rev before)
              (string_of_list_ascii (drop (String.length pat) (list_ascii_of_string s))) repl
            +:+ replace_from pat repl (String.length pat - 1) (String c before) s'
          else String c (replace_from pat repl 0 (String c before) s')
      end
  end.

Definition replaceAll (pat repl s : string) : string :=
  replace_from pat repl 0 EmptyString s.

End JsString.

Import JsString.

(** ** Outcomes of fallible operations *)

Inductive error :=
| Error (message : string)      (* [throw new Error(message)] *)
| SyntaxError (path : string)   (* [JSON.parse] on a malformed file *)
| ENOENT (path : string).       (* a directory that does not exist *)

Inductive result (A : Type) :=
| Ok (a : A)
| Err (e : error).
Arguments Ok {A} a.
Arguments Err {A} e.

(** A persisted JSON file: either the value it parses to, or text that
    [JSON.parse] rejects. *)
Inductive file (A : Type) :=
| Json (a : A)
| Corrupt (raw : string).
Arguments Json {A} a.
Arguments Corrupt {A} raw.

(** ** Insertion-ordered maps

    A JavaScript [Map], the keys of an object and the entries of a directory
    are enumerated in a fixed order; they are association lists with at most
    one entry per key.  Writing an existing key keeps its position, writing
    a new key appends it.  Keys of objects are taken not to be numerals;
    where the program looks a free name up in an object, the members that
    every object inherits are accounted for ([inherited]). *)

Module OMap.

Definition t (V : Type) := list (string * V).

Fixpoint get {V} (k : string) (m : t V) : option V :=
  match m with
  | [] => None
  | (k', v) :: m' => if String.eqb k k' then Some v else get k m'
  end.

Fixpoint set {V} (k : string) (v : V) (m : t V) : t V :=
  match m with
  | [] => [(k, v)]
  | (k', v') :: m' =>
      if String.eqb k k' then (k', v) :: m' else (k', v') :: set k v m'
  end.

Definition has {V} (k : string) (m : t V) : bool :=
  match get k m with Some _ => true | None => false end.

Definition keys {V} (m : t V) : list string := map fst m.
Definition values {V} (m : t V) : list V := map snd m.

End OMap.

(** ** Data model *)

(** [src/types/index.ts] *)
Record TestPlan := {
  tp_unit : list string;
  tp_e2e : list string
}.

Record Telemetry := {
  events : list string;
  alerts : list string
}.

Record Ticket := {
  ticket_id : string;
  title : string;
  outcome : string;
  scope_in : list string;
  scope_out : list string;
  acceptance_criteria : list string;
  apidiff : option (list string);
  dbdiff : option (list string);
  ui_components : option (list string);
  telemetry : Telemetry;
  test_plan : TestPlan;
  timebox_hours : nat;
  owner : string
}.

(** [src/utils/context.ts] *)
Record CodePattern := {
  cp_id : string;
  cp_name : string;
  cp_description : string;
  cp_example : string;
  cp_frequency : nat;
  cp_files : list string;
  cp_lastSeen : string
}.

Record ArchitecturalDecision := {
  ad_id : string;
  ad_title : string;
  ad_decision : string;
  ad_rationale : string;
  ad_consequences : list string;
  ad_date : string;
  ad_files : list string
}.

Record CommonPitfall := {
  pf_id : string;
  pf_pattern : string;
  pf_description : string;
  pf_solution : string;
  pf_frequency : nat;
  pf_examples : list string
}.

Record CompressedContext := {
  patterns : list CodePattern;
  decisions : list ArchitecturalDecision;
  pitfalls : list CommonPitfall;
  summary : string;
  lastUpdated : string;
  codebaseFingerprint : string
}.

(** [src/utils/prompts.ts] *)
Inductive Category := feature | bugfix | refactor | test | docs.

Definition Category_eqb (a b : Category) : bool :=
  match a, b with
  | feature, feature | bugfix, bugfix | refactor, refactor
  | test, test | docs, docs => true
  | _, _ => false
  end.

Record PromptTemplate := {
  pt_id : string;
  pt_name : string;
  category : Category;
  pt_template : string;
  variables : list string;
  successRate : Q;
  usageCount : nat;
  lastUsed : string;
  aiModel : option string
}.

Inductive Outcome := success | failure | partial.

Record VersionMetadata := {
  createdAt : string;
  usedFor : string;
  vm_outcome : Outcome;
  feedback : string
}.

Record PromptVersion := {
  pv_id : string;
  pv_templateId : string;
  pv_version : string;
  pv_content : string;
  metadata : VersionMetadata
}.

Record PromptPerformance := {
  pp_templateId : string;
  totalUses : nat;
  successCount : nat;
  failureCount : nat;
  averageRating : Q;
  commonIssues : list string;
  lastAnalyzed : string
}.

(** ** The [.sherpa] directory *)

Record store := {
  (* context/compressed.json *)
  compressed : option (file CompressedContext);
  (* prompts/templates: absent, or file name to content in [readdir] order *)
  templates : option (OMap.t (file PromptTemplate));
  (* prompts/versions: file name to content *)
  versions : gmap string (file PromptVersion);
  (* prompts/performance.json: an object keyed by template id *)
  performance : option (file (OMap.t PromptPerformance));
  (* standards: file name to what reading the file gives, its text or the
     error thrown *)
  standards : gmap string (result string)
}.

Definition set_compressed (c : option (file CompressedContext)) (st : store) : store :=
  {| compressed := c; templates := templates st; versions := versions st;
     performance := performance st; standards := standards st |}.

Definition set_templates (t : option (OMap.t (file PromptTemplate))) (st : store) : store :=
  {| compressed := compressed st; templates := t; versions := versions st;
     performance := performance st; standards := standards st |}.

Definition set_versions (v : gmap string (file PromptVersion)) (st : store) : store :=
  {| compressed := compressed st; templates := templates st; versions := v;
     performance := performance st; standards := standards st |}.

Definition set_performance (p : option (file (OMap.t PromptPerformance))) (st : store) : store :=
  {| compressed := compressed st; templates := templates st; versions := versions st;
     performance := p; standards := standards st |}.

(** ** Operations on the store: state and errors *)

Definition M (A : Type) : Type := store -> result A * store.

Definition ret {A} (a : A) : M A := fun st => (Ok a, st).
Definition throw {A} (e : error) : M A := fun st => (Err e, st).
Definition bind {A B} (m : M A) (k : A -> M B) : M B :=
  fun st =>
    match m st with
    | (Ok a, st') => k a st'
    | (Err e, st') => (Err e, st')
    end.
Definition gets {A} (f : store -> A) : M A := fun st => (Ok (f st), st).
Definition modify (f : store -> store) : M unit := fun st => (Ok tt, f st).

Notation "'let*' x ':=' m 'in' k" := (bind m (fun x => k))
  (at level 10, x name, m at level 100, k at level 200, only parsing).
Notation "'run' m 'then' k" := (bind m (fun _ => k))
  (at level 10, m at level 100, k at level 200, only parsing).

(** [readJson] on the content of the file at [path] *)
Definition readJson {A} (path : string) (f : file A) : result A :=
  match f with
  | Json a => Ok a
  | Corrupt _ => Err (SyntaxError path)
  end.

Definition lift {A} (r : result A) : M A := fun st => (r, st).

Fixpoint for_each {A} (l : list A) (body : A -> M unit) : M unit :=
  match l with
  | [] => ret tt
  | x :: l' => run body x then for_each l' body
  end.

Definition LF : string := String (ascii_of_nat 10) EmptyString.

(** ** Syntax trees, as far as the visitors look at them *)

Inductive Param :=
| Identifier (name : string) (typeAnnotation : bool)
| OtherPattern (typeAnnotation : bool).

Definition hasTypeAnnotation (p : Param) : bool :=
  match p with Identifier _ a => a | OtherPattern a => a end.

Record FunctionDeclaration := {
  fd_id : option string;
  fd_params : list Param;
  fd_async : bool
}.

Inductive MethodKind := kind_constructor | kind_method | kind_get | kind_set.

Inductive ClassMember :=
| ClassMethod (kind : MethodKind)
| OtherMember.

Record ClassDeclaration := {
  cd_id : option string;
  cd_body : list ClassMember
}.

Inductive Specifier :=
| ImportDefaultSpecifier
| ImportSpecifier
| ImportNamespaceSpecifier.

Record ImportDeclaration := {
  id_source : string;
  id_specifiers : list Specifier
}.

Inductive Node :=
| FunctionDeclarationNode (n : FunctionDeclaration)
| ClassDeclarationNode (n : ClassDeclaration)
| ImportDeclarationNode (n : ImportDeclaration).

(** A directory entry of the project tree, under the name that [readdir]
    gives it: one path segment, never [.] or [..].  A directory that cannot
    be read contributes what an empty one does. *)
Inductive Entry :=
| File (name content : string)
| Directory (name : string) (entries : list Entry)
| Special (name : string).

(** [package.json], as far as it is read *)
Record PackageJson := {
  dependencies : option (OMap.t string);
  devDependencies : option (OMap.t string)
}.

(** [a.sort()] on strings: ascending in the order of the code units. *)
Definition sort (l : list string) : list string := merge_sort String.le l.

(** [path.join(dir, name)] for a directory path that is normalised and is
    not the root ([normalRoot] below) and a name that is one path segment:
    nothing is normalised away and the result is the concatenation. *)
Definition path_join (dir name : string) : string := dir +:+ "/" +:+ name.

(** ** Third-party functions

    [parse]: [parse] followed by [traverse] of [@babel]: the function, class
    and import declarations of a source text in visiting order, [None] when
    the text does not parse.
    [fuse_search]: [new Fuse(collection, {keys, threshold}).search(query)]
    mapped to its items, best match first.
    [toISOString]: [new Date(ms).toISOString()]. *)
Class ThirdParty := {
  parse : string -> option (list Node);
  fuse_search : forall A : Type, list (A -> string) -> Q -> list A -> string -> list A;
  toISOString : N -> string
}.

Section Sherpa.

Context `{TP : ThirdParty}.

(** ** ContextManager *)

(** The system clock during one extraction: the instant of its n-th reading. *)
Definition Clock := nat -> N.

(** The three visitors end in the same statement: an existing entry is
    counted once more, gets the file appended and its last-seen date
    renewed; otherwise the new entry is inserted. *)
Definition recordPattern (now : N) (file patternId : string) (fresh : CodePattern)
    (patterns : OMap.t CodePattern) : OMap.t CodePattern :=
  match OMap.get patternId patterns with
  | Some existing =>
      OMap.set patternId
        {| cp_id := cp_id existing; cp_name := cp_name existing;
           cp_description := cp_description existing;
           cp_example := cp_example existing;
           cp_frequency := S (cp_frequency existing);
           cp_files := cp_files existing ++ [file];
           cp_lastSeen := toISOString now |} patterns
  | None => OMap.set patternId fresh patterns
  end.

Definition extractFunctionPattern (now : N) (node : FunctionDeclaration) (file : string)
    (patterns : OMap.t CodePattern) : OMap.t CodePattern :=
  match fd_id node with
  | None => patterns
  | Some functionName =>
      let params := length (fd_params node) in
      let isAsync := fd_async node in
      let hasTypeAnnotations := existsb hasTypeAnnotation (fd_params node) in
      let patternId :=
        "function-" +:+ of_nat params +:+ "-params-" +:+ (if isAsync then "async" else "sync") in
      recordPattern now file patternId
        {| cp_id := patternId;
           cp_name := (if isAsync then "Async" else "Sync") +:+ " function with "
                      +:+ of_nat params +:+ " parameters";
           cp_description := "Functions with " +:+ of_nat params +:+ " parameters, "
                      +:+ (if hasTypeAnnotations then "with" else "without")
                      +:+ " type annotations";
           cp_example := "function " +:+ functionName +:+ "("
                      +:+ join ", " (map (fun p => match p with
                                                  | Identifier name _ => name
                                                  | OtherPattern _ => "..."
                                                  end) (fd_params node))
                      +:+ ") { ... }";
           cp_frequency := 1;
           cp_files := [file];
           cp_lastSeen := toISOString now |} patterns
  end.

Definition isMethodOfKind (k : MethodKind) (member : ClassMember) : bool :=
  match member, k with
  | ClassMethod kind_constructor, kind_constructor => true
  | ClassMethod kind_method, kind_method => true
  | ClassMethod kind_get, kind_get => true
  | ClassMethod kind_set, kind_set => true
  | _, _ => false
  end.

Definition extractClassPattern (now : N) (node : ClassDeclaration) (file : string)
    (patterns : OMap.t CodePattern) : OMap.t CodePattern :=
  match cd_id node with
  | None => patterns
  | Some className =>
      let hasConstructor := existsb (isMethodOfKind kind_constructor) (cd_body node) in
      let methodCount := length (List.filter (isMethodOfKind kind_method) (cd_body node)) in
      let patternId := "class-" +:+ of_nat methodCount +:+ "-methods" in
      recordPattern now file patternId
        {| cp_id := patternId;
           cp_name := "Class with " +:+ of_nat methodCount +:+ " methods";
           cp_description := "Classes with " +:+ of_nat methodCount +:+ " methods, "
                      +:+ (if hasConstructor then "with" else "without")
                      +:+ " constructor";
           cp_example := "class " +:+ className +:+ " { ... }";
           cp_frequency := 1;
           cp_files := [file];
           cp_lastSeen := toISOString now |} patterns
  end.

Definition isImportDefaultSpecifier (spec : Specifier) : bool :=
  match spec with ImportDefaultSpecifier => true | _ => false end.

Definition extractImportPattern (now : N) (node : ImportDeclaration) (file : string)
    (patterns : OMap.t CodePattern) : OMap.t CodePattern :=
  let source := id_source node in
  let isRelative := startsWith source "./" || startsWith source "../" in
  let specifierCount := length (id_specifiers node) in
  let hasDefaultImport := existsb isImportDefaultSpecifier (id_specifiers node) in
  let patternId :=
    "import-" +:+ (if isRelative then "relative" else "package") +:+ "-" +:+ of_nat specifierCount in
  recordPattern now file patternId
    {| cp_id := patternId;
       cp_name := (if isRelative then "Relative" else "Package") +:+ " import with "
                  +:+ of_nat specifierCount +:+ " specifiers";
       cp_description := "Import from "
                  +:+ (if isRelative then "relative path" else "npm package")
                  +:+ " with " +:+ of_nat specifierCount +:+ " specifiers, "
                  +:+ (if hasDefaultImport then "with" else "without")
                  +:+ " default import";
       cp_example := "import { ... } from '" +:+ source +:+ "';";
       cp_frequency := 1;
       cp_files := [file];
       cp_lastSeen := toISOString now |} patterns.

(** One visitor call of [traverse]. *)
Definition visit (now : N) (file : string) (node : Node)
    (patterns : OMap.t CodePattern) : OMap.t CodePattern :=
  match node with
  | FunctionDeclarationNode n => extractFunctionPattern now n file patterns
  | ClassDeclarationNode n => extractClassPattern now n file patterns
  | ImportDeclarationNode n => extractImportPattern now n file patterns
  end.

(** A visitor reads the clock once, in either branch of its update; the
    visitors of functions and classes return before that when the
    declaration has no name. *)
Definition readsClock (node : Node) : bool :=
  match node with
  | FunctionDeclarationNode n => match fd_id n with Some _ => true | None => false end
  | ClassDeclarationNode n => match cd_id n with Some _ => true | None => false end
  | ImportDeclarationNode _ => true
  end.

(** [traverse(ast, ...)]: the registry and the number of clock readings
    so far are threaded through the visits. *)
Fixpoint traverse (clock : Clock) (file : string) (ast : list Node)
    (acc : OMap.t CodePattern * nat) : OMap.t CodePattern * nat :=
  match ast with
  | [] => acc
  | node :: ast' =>
      traverse clock file ast'
        (visit (clock (snd acc)) file node (fst acc),
         if readsClock node then S (snd acc) else snd acc)
  end.

Definition extensions : list string := [".ts"; ".tsx"; ".js"; ".jsx"].

(** [getSourceFiles]: paths and texts of the source files under [dir],
    hidden directories and [node_modules] left out. *)
Fixpoint walkEntry (dir : string) (entry : Entry) : list (string * string) :=
  match entry with
  | Directory name sub =>
      if negb (startsWith name ".") && negb (String.eqb name "node_modules")
      then flat_map (walkEntry (path_join dir name)) sub
      else []
  | File name content =>
      if existsb (fun ext => endsWith name ext) extensions
      then [(path_join dir name, content)]
      else []
  | Special _ => []
  end.

Definition walkDir (dir : string) (entries : list Entry) : list (string * string) :=
  flat_map (walkEntry dir) entries.

Definition getSourceFiles (projectRoot : string) (tree : list Entry) : list (string * string) :=
  walkDir projectRoot tree.

(** [extractPatterns]: a file that does not parse is skipped. *)
Fixpoint extractFiles (clock : Clock) (files : list (string * string))
    (acc : OMap.t CodePattern * nat) : OMap.t CodePattern * nat :=
  match files with
  | [] => acc
  | (file, content) :: files' =>
      match parse content with
      | Some ast => extractFiles clock files' (traverse clock file ast acc)
      | None => extractFiles clock files' acc
      end
  end.

Definition extractPatterns (clock : Clock) (projectRoot : string) (tree : list Entry)
    : list CodePattern :=
  OMap.values (fst (extractFiles clock (getSourceFiles projectRoot tree) ([], 0))).

(** The signature under which a visited declaration is counted, if any. *)
Definition functionPatternId (params : nat) (isAsync : bool) : string :=
  "function-" +:+ of_nat params +:+ "-params-" +:+ (if isAsync then "async" else "sync").

Definition patternIdOf (node : Node) : option string :=
  match node with
  | FunctionDeclarationNode n =>
      match fd_id n with
      | Some _ => Some (functionPatternId (length (fd_params n)) (fd_async n))
      | None => None
      end
  | ClassDeclarationNode n =>
      match cd_id n with
      | Some _ =>
          Some ("class-"
                +:+ of_nat (length (List.filter (isMethodOfKind kind_method) (cd_body n)))
                +:+ "-methods")
      | None => None
      end
  | ImportDeclarationNode n =>
      Some ("import-"
            +:+ (if startsWith (id_source n) "./" || startsWith (id_source n) "../"
                 then "relative" else "package")
            +:+ "-" +:+ of_nat (length (id_specifiers n)))
  end.

(** The declarations visited in the files that parse. *)
Definition declarationsOf (files : list (string * string)) : list Node :=
  flat_map (fun entry => default [] (parse (snd entry))) files.

(** A function declaration with the given number of parameters and
    synchrony; [isNamedFunction] also asks for a name. *)
Definition isFunction (params : nat) (isAsync : bool) (node : Node) : bool :=
  match node with
  | FunctionDeclarationNode n =>
      Nat.eqb (length (fd_params n)) params && Bool.eqb (fd_async n) isAsync
  | _ => false
  end.

Definition isNamedFunction (params : nat) (isAsync : bool) (node : Node) : bool :=
  match node with
  | FunctionDeclarationNode n =>
      match fd_id n with
      | Some _ => Nat.eqb (length (fd_params n)) params && Bool.eqb (fd_async n) isAsync
      | None => false
      end
  | _ => false
  end.

(** The frequency a list of patterns records for a signature, 0 when the
    signature has no entry. *)
Definition frequencyOf (patternId : string) (patterns : list CodePattern) : nat :=
  match find (fun p => String.eqb (cp_id p) patternId) patterns with
  | Some p => cp_frequency p
  | None => 0
  end.

Definition setLastSeen (t : string) (p : CodePattern) : CodePattern :=
  {| cp_id := cp_id p; cp_name := cp_name p; cp_description := cp_description p;
     cp_example := cp_example p; cp_frequency := cp_frequency p;
     cp_files := cp_files p; cp_lastSeen := t |}.

(** A pattern with its timestamp blanked, to compare builds. *)
Definition withoutLastSeen (p : CodePattern) : CodePattern := setLastSeen "" p.

(** A registry with all timestamps blanked. *)
Definition eraseTimes (m : OMap.t CodePattern) : OMap.t CodePattern :=
  map (fun entry => (fst entry, withoutLastSeen (snd entry))) m.

(** The signatures of a build with their frequencies. *)
Definition signatureFrequencies (patterns : list CodePattern) : list (string * nat) :=
  map (fun p => (cp_id p, cp_frequency p)) patterns.

(** The frequency a registry holds for a signature. *)
Definition registryFrequency (patternId : string) (m : OMap.t CodePattern) : nat :=
  from_option cp_frequency 0 (OMap.get patternId m).

(** The declaration is counted under the signature. *)
Definition countsAs (patternId : string) (node : Node) : bool :=
  match patternIdOf node with
  | Some k => String.eqb k patternId
  | None => false
  end.

(** Every entry of the registry is stored under its own id. *)
Definition wellKeyed (m : OMap.t CodePattern) : Prop :=
  Forall (fun entry => cp_id (snd entry) = fst entry) m.

(** [Object.keys(o || {})] *)
Definition objectKeys (o : option (OMap.t string)) : list string :=
  match o with Some m => OMap.keys m | None => [] end.

(** [generateCodebaseFingerprint], from the content of [package.json] if
    the file exists *)
Definition generateCodebaseFingerprint (packageJson : option (file PackageJson))
    : result string :=
  match packageJson with
  | Some f =>
      match readJson "package.json" f with
      | Ok packageJson =>
          let deps := sort (objectKeys (dependencies packageJson)) in
          let devDeps := sort (objectKeys (devDependencies packageJson)) in
          Ok (join "," deps +:+ "|" +:+ join "," devDeps)
      | Err e => Err e
      end
  | None => Ok "unknown"
  end.

Definition compressedPath : string := ".sherpa/context/compressed.json".

Definition getCompressedContext : M (option CompressedContext) :=
  fun st =>
    match compressed st with
    | Some f =>
        match readJson compressedPath f with
        | Ok c => (Ok (Some c), st)
        | Err e => (Err e, st)
        end
    | None => (Ok None, st)
    end.

Record SearchResult := {
  sr_patterns : list CodePattern;
  sr_decisions : list ArchitecturalDecision
}.

Definition searchSimilarContext (query : string) : M SearchResult :=
  let* context := getCompressedContext in
  match context with
  | None => ret {| sr_patterns := []; sr_decisions := [] |}
  | Some context =>
      let patterns :=
        fuse_search CodePattern [cp_name; cp_description] (6 # 10)
          (patterns context) query in
      let decisions :=
        fuse_search ArchitecturalDecision [ad_title; ad_decision; ad_rationale] (6 # 10)
          (decisions context) query in
      ret {| sr_patterns := patterns; sr_decisions := decisions |}
  end.

(** ** PromptManager *)

Definition templatesPath : string := ".sherpa/prompts/templates".
Definition versionsPath : string := ".sherpa/prompts/versions".
Definition performancePath : string := ".sherpa/prompts/performance.json".

Definition getDefaultTemplates : list PromptTemplate :=
  [ {| pt_id := "feature-implementation";
       pt_name := "Feature Implementation";
       category := feature;
       pt_template := "# Feature Implementation Task

## Context
{{CONTEXT_SUMMARY}}

## Development Standards
{{DEVELOPMENT_STANDARDS}}

## Tech Stack
{{TECH_STACK}}

## Testing Standards
{{TESTING_STANDARDS}}

## Patterns to Follow
{{CODE_PATTERNS}}

## Architectural Constraints
{{ARCHITECTURAL_DECISIONS}}

## Task Requirements
**Feature**: {{FEATURE_NAME}}
**Outcome**: {{EXPECTED_OUTCOME}}

**Acceptance Criteria**:
{{ACCEPTANCE_CRITERIA}}

**API Changes**:
{{API_DIFF}}

**UI Components**:
{{UI_COMPONENTS}}

## Test Requirements
{{TEST_PLAN}}

## Important Reminders
- Follow the development standards and tech stack specified above
- Use only the technologies listed in the tech stack
- Follow established code patterns shown above
- Include comprehensive error handling (common AI oversight)
- Add proper TypeScript types for all new code
- Write tests that match the acceptance criteria
- Avoid over-abstraction - keep it concrete initially

## Files to Reference
{{RELEVANT_FILES}}

## Common Pitfalls to Avoid
{{PITFALLS}}

## AI-Specific Guidelines
- Don't introduce new dependencies without checking the tech stack first
- Follow the exact naming conventions specified in standards
- Implement error handling patterns consistently
- Write tests alongside implementation, not as an afterthought";
       variables := ["CONTEXT_SUMMARY"; "DEVELOPMENT_STANDARDS"; "TECH_STACK";
                     "TESTING_STANDARDS"; "CODE_PATTERNS"; "ARCHITECTURAL_DECISIONS";
                     "FEATURE_NAME"; "EXPECTED_OUTCOME"; "ACCEPTANCE_CRITERIA";
                     "API_DIFF"; "UI_COMPONENTS"; "TEST_PLAN"; "RELEVANT_FILES";
                     "PITFALLS"];
       successRate := 0;
       usageCount := 0;
       lastUsed := "";
       aiModel := Some "any" |};
    {| pt_id := "bug-fix";
       pt_name := "Bug Fix";
       category := bugfix;
       pt_template := "# Bug Fix Task

## Context
{{CONTEXT_SUMMARY}}

## Current Patterns
{{CODE_PATTERNS}}

## Bug Report
**Issue**: {{BUG_DESCRIPTION}}
**Expected**: {{EXPECTED_BEHAVIOR}}
**Actual**: {{ACTUAL_BEHAVIOR}}
**Steps to Reproduce**: {{REPRODUCTION_STEPS}}

## Files Involved
{{RELEVANT_FILES}}

## Fix Requirements
- Maintain existing patterns and architecture
- Add tests to prevent regression
- Update documentation if necessary
- Consider edge cases that might have similar issues

## Test Strategy
{{TEST_PLAN}}

## Avoid These Common Mistakes
{{PITFALLS}}";
       variables := ["CONTEXT_SUMMARY"; "CODE_PATTERNS"; "BUG_DESCRIPTION";
                     "EXPECTED_BEHAVIOR"; "ACTUAL_BEHAVIOR"; "REPRODUCTION_STEPS";
                     "RELEVANT_FILES"; "TEST_PLAN"; "PITFALLS"];
       successRate := 0;
       usageCount := 0;
       lastUsed := "";
       aiModel := Some "any" |};
    {| pt_id := "refactor";
       pt_name := "Code Refactoring";
       category := refactor;
       pt_template := "# Refactoring Task

## Context
{{CONTEXT_SUMMARY}}

## Current Patterns
{{CODE_PATTERNS}}

## Refactoring Goal
**Target**: {{REFACTOR_TARGET}}
**Reason**: {{REFACTOR_REASON}}
**Success Criteria**: {{SUCCESS_CRITERIA}}

## Constraints
- Must maintain existing functionality (no behavior changes)
- Keep existing tests passing
- Follow established patterns
- Improve code quality metrics

## Architectural Decisions to Respect
{{ARCHITECTURAL_DECISIONS}}

## Files to Modify
{{RELEVANT_FILES}}

## Testing Strategy
- All existing tests must pass
- Add tests for new internal structure if needed
- Consider integration test coverage

## Common Refactoring Pitfalls
{{PITFALLS}}";
       variables := ["CONTEXT_SUMMARY"; "CODE_PATTERNS"; "REFACTOR_TARGET";
                     "REFACTOR_REASON"; "SUCCESS_CRITERIA"; "ARCHITECTURAL_DECISIONS";
                     "RELEVANT_FILES"; "PITFALLS"];
       successRate := 0;
       usageCount := 0;
       lastUsed := "";
       aiModel := Some "any" |} ].

(** [ensureDir(templatesPath)]; the versions directory is a map that is
    empty when the directory is absent, so [ensureDir(versionsPath)]
    changes nothing. *)
Definition ensureTemplatesDir : M unit :=
  modify (fun st =>
    match templates st with
    | Some _ => st
    | None => set_templates (Some []) st
    end).

Definition templateFileExists (fileName : string) : M bool :=
  gets (fun st =>
    match templates st with
    | Some dir => OMap.has fileName dir
    | None => false
    end).

(** [writeJson] of a template file.  A new file is put at the end of the
    listing; where [readdir] lists it is up to the file system.  The
    properties below do not rest on that place: they look files up by name,
    or select among templates of different categories
    ([firstOf_Permutation]). *)
Definition writeTemplateJson (fileName : string) (t : PromptTemplate) : M unit :=
  modify (fun st =>
    set_templates (Some (OMap.set fileName (Json t) (default [] (templates st)))) st).

(** The body of the loop of [initializePrompts]. *)
Definition seedTemplate (template : PromptTemplate) : M unit :=
  let templatePath := pt_id template +:+ ".json" in
  let* present := templateFileExists templatePath in
  if negb present then writeTemplateJson templatePath template else ret tt.

Definition initializePrompts : M unit :=
  run ensureTemplatesDir then
  let defaultTemplates := getDefaultTemplates in
  for_each defaultTemplates seedTemplate.

(** What one turn of the seeding loop does to the directory. *)
Definition seedStep (dir : OMap.t (file PromptTemplate)) (t : PromptTemplate)
    : OMap.t (file PromptTemplate) :=
  if OMap.has (pt_id t +:+ ".json") dir then dir
  else OMap.set (pt_id t +:+ ".json") (Json t) dir.

(** The content of a file of the templates directory, if it exists. *)
Definition templateFile (st : store) (fileName : string) : option (file PromptTemplate) :=
  match templates st with
  | Some dir => OMap.get fileName dir
  | None => None
  end.

(** The seed template stored under a file name, if there is one. *)
Definition seedFor (fileName : string) : option PromptTemplate :=
  find (fun t => String.eqb (pt_id t +:+ ".json") fileName) getDefaultTemplates.

(** [getTemplates] *)
Fixpoint readTemplates (files : OMap.t (file PromptTemplate)) : result (list PromptTemplate) :=
  match files with
  | [] => Ok []
  | (fileName, f) :: files' =>
      if endsWith fileName ".json" then
        match readJson (path_join templatesPath fileName) f with
        | Ok t =>
            match readTemplates files' with
            | Ok ts => Ok (t :: ts)
            | Err e => Err e
            end
        | Err e => Err e
        end
      else readTemplates files'
  end.

Definition getTemplates : M (list PromptTemplate) :=
  fun st =>
    match templates st with
    | Some files => (readTemplates files, st)
    | None => (Err (ENOENT templatesPath), st)
    end.

Definition selectBestTemplate (ticket : Ticket) : M PromptTemplate :=
  let* templates := getTemplates in
  let feature_rule :=
    match find (fun t => Category_eqb (category t) feature) templates with
    | Some featureTemplate => ret featureTemplate
    | None => throw (Error "No prompt template found")
    end in
  let refactor_rule :=
    if includes "refactor" (toLowerCase (title ticket)) || includes "improve" (outcome ticket)
    then
      match find (fun t => Category_eqb (category t) refactor) templates with
      | Some template => ret template
      | None => feature_rule
      end
    else feature_rule in
  if includes "fix" (toLowerCase (title ticket)) || includes "bug" (toLowerCase (title ticket))
  then
    match find (fun t => Category_eqb (category t) bugfix) templates with
    | Some template => ret template
    | None => refactor_rule
    end
  else refactor_rule.

(** The first template of a category, in directory order. *)
Definition firstOf (c : Category) (templates : list PromptTemplate) : option PromptTemplate :=
  find (fun t => Category_eqb (category t) c) templates.

Definition titleMentions (word : string) (ticket : Ticket) : bool :=
  includes word (toLowerCase (title ticket)).

(** The selection as the specification words it: both texts are compared
    in lower case, the first rule that matches names the category, and the
    feature template stands in when that category has no template. *)
Definition spec_selectTemplate (templates : list PromptTemplate) (ticket : Ticket)
    : option PromptTemplate :=
  let wanted :=
    if titleMentions "fix" ticket || titleMentions "bug" ticket then bugfix
    else if titleMentions "refactor" ticket
            || includes "improve" (toLowerCase (outcome ticket)) then refactor
    else feature in
  match firstOf wanted templates with
  | Some t => Some t
  | None => firstOf feature templates
  end.

Record Standards := {
  coding : string;
  testing : string;
  techstack : string
}.

Record TemplateData := {
  td_ticket : Ticket;
  td_context : CompressedContext;
  td_relevantContext : SearchResult;
  td_standards : option Standards
}.

Definition formatPatterns (patterns : list CodePattern) : string :=
  join (LF +:+ LF)
    (map (fun pattern =>
            "### " +:+ cp_name pattern +:+ LF
            +:+ "- Used " +:+ of_nat (cp_frequency pattern) +:+ "x across "
            +:+ of_nat (length (cp_files pattern)) +:+ " files" +:+ LF
            +:+ "- " +:+ cp_description pattern +:+ LF
            +:+ "- Example: `" +:+ cp_example pattern +:+ "`")
         (take 5 patterns)).

Definition formatDecisions (decisions : list ArchitecturalDecision) : string :=
  join (LF +:+ LF)
    (map (fun decision =>
            "### " +:+ ad_title decision +:+ LF
            +:+ "- **Decision**: " +:+ ad_decision decision +:+ LF
            +:+ "- **Rationale**: " +:+ ad_rationale decision)
         decisions).

Definition formatTestPlan (testPlan : TestPlan) : string :=
  let unit := join LF (map (fun test => "- **Unit**: " +:+ test) (tp_unit testPlan)) in
  let e2e := join LF (map (fun test => "- **E2E**: " +:+ test) (tp_e2e testPlan)) in
  unit +:+ LF +:+ e2e.

(** [arr.indexOf(x)] and [arr.filter((x, index) => ...)] *)
Fixpoint indexOf (x : string) (arr : list string) : option nat :=
  match arr with
  | [] => None
  | y :: arr' => if String.eqb x y then Some 0 else option_map S (indexOf x arr')
  end.

Fixpoint filter_index {A} (f : A -> nat -> bool) (index : nat) (arr : list A) : list A :=
  match arr with
  | [] => []
  | x :: arr' =>
      if f x index then x :: filter_index f (S index) arr'
      else filter_index f (S index) arr'
  end.

Definition getRelevantFiles (patterns : list CodePattern) : string :=
  let arr := flat_map cp_files patterns in
  let files :=
    filter_index (fun file index =>
                    match indexOf file arr with
                    | Some i => Nat.eqb i index
                    | None => false
                    end) 0 arr in
  join LF (map (fun file => "- " +:+ file) (take 10 files)).

Definition formatPitfalls (pitfalls : list CommonPitfall) : string :=
  join (LF +:+ LF)
    (map (fun pitfall =>
            "### " +:+ pf_pattern pitfall +:+ LF
            +:+ "- **Problem**: " +:+ pf_description pitfall +:+ LF
            +:+ "- **Solution**: " +:+ pf_solution pitfall)
         pitfalls).

(** [list?.map(x => `- ${x}`).join('\n') || 'None specified'] *)
Definition bulletsOrNone (l : option (list string)) : string :=
  match l with
  | Some l => or_else (join LF (map (fun x => "- " +:+ x) l)) "None specified"
  | None => "None specified"
  end.

(** The table of [fillTemplate], in the order of its keys. *)
Definition replacements (data : TemplateData) : list (string * string) :=
  let ticket := td_ticket data in
  let relevant := td_relevantContext data in
  [ ("CONTEXT_SUMMARY", summary (td_context data));
    ("CODE_PATTERNS", formatPatterns (sr_patterns relevant));
    ("ARCHITECTURAL_DECISIONS", formatDecisions (sr_decisions relevant));
    ("DEVELOPMENT_STANDARDS",
      or_else (from_option coding "" (td_standards data)) "No coding standards found");
    ("TESTING_STANDARDS",
      or_else (from_option testing "" (td_standards data)) "No testing standards found");
    ("TECH_STACK",
      or_else (from_option techstack "" (td_standards data)) "No tech stack documented");
    ("FEATURE_NAME", title ticket);
    ("EXPECTED_OUTCOME", outcome ticket);
    ("ACCEPTANCE_CRITERIA",
      join LF (map (fun ac => "- " +:+ ac) (acceptance_criteria ticket)));
    ("API_DIFF", bulletsOrNone (apidiff ticket));
    ("UI_COMPONENTS", bulletsOrNone (ui_components ticket));
    ("TEST_PLAN", formatTestPlan (test_plan ticket));
    ("RELEVANT_FILES", getRelevantFiles (sr_patterns relevant));
    ("PITFALLS", formatPitfalls (pitfalls (td_context data)));
    ("BUG_DESCRIPTION", outcome ticket);
    ("EXPECTED_BEHAVIOR", "As described in acceptance criteria");
    ("ACTUAL_BEHAVIOR", "Current behavior differs from expected");
    ("REPRODUCTION_STEPS", "Steps to reproduce the issue");
    ("REFACTOR_TARGET", title ticket);
    ("REFACTOR_REASON", outcome ticket);
    ("SUCCESS_CRITERIA", join ", " (acceptance_criteria ticket)) ].

(** The text of the regular expression [`{{${variable}}}`]. *)
Definition placeholder (variable : string) : string := "{{" +:+ variable +:+ "}}".

(** One turn of the replacement loop. *)
Definition replaceVariable (content : string) (entry : string * string) : string :=
  let '(variable, value) := entry in
  replaceAll (placeholder variable) (or_else value "Not specified") content.

Definition fillWith (table : list (string * string)) (content : string) : string :=
  fold_left replaceVariable table content.

Definition fillTemplate (template : PromptTemplate) (data : TemplateData) : string :=
  fillWith (replacements data) (pt_template template).

(** *** Templates as text and placeholders *)

(** The character does not occur in the string. *)
Fixpoint lacks (c : ascii) (s : string) : bool :=
  match s with
  | EmptyString => true
  | String d s' => negb (Ascii.eqb d c) && lacks c s'
  end.

(** *** Names and paths

    The store keeps the files of a directory under their names, and
    [path_join] is the concatenation: this is what [path.join] does for a
    name that is a single path segment and a directory path that is
    already normalised.  A name with a separator, or a directory such as
    [.], [/] or one with a trailing slash, is resolved by [path.join] to
    another place; the properties that depend on where a file lies are
    stated for names and directories of the first kind. *)


(** [s.split('/')] *)
Fixpoint segmentsOf (s : string) : list string :=
  match s with
  | EmptyString => [EmptyString]
  | String c s' =>
      match segmentsOf s' with
      | segment :: segments =>
          if Ascii.eqb c "/" then EmptyString :: segment :: segments
          else String c segment :: segments
      | [] => [String c EmptyString]
      end
  end.

Definition plainSegment (segment : string) : bool :=
  truthy segment && negb (String.eqb segment ".") && negb (String.eqb segment "..").

(** A POSIX directory path that [path.join] leaves as it is, so that
    joining an entry name to it appends a slash and the name: the path is
    relative or absolute, is not the root, has no empty segment (no doubled
    or trailing slash) and no segment [.] or [..]. *)
Definition normalRoot (dir : string) : bool :=
  match segmentsOf dir with
  | [] => false
  | first :: rest =>
      forallb plainSegment rest
      && (plainSegment first || (String.eqb first "" && negb (Nat.eqb (length rest) 0)))
  end.

(** Every opening brace of the string is followed by a character that is
    not an opening brace: the string has no [{{] and does not end in [{]. *)
Fixpoint calm (s : string) : bool :=
  match s with
  | EmptyString => true
  | String c s' =>
      (if Ascii.eqb c "{"
       then match s' with
            | EmptyString => false
            | String d _ => negb (Ascii.eqb d "{")
            end
       else true)
      && calm s'
  end.

(** A template body cut into plain text and [{{NAME}}] tokens. *)
Inductive Segment :=
| Text (t : string)
| Hole (name : string).

Fixpoint render (segments : list Segment) : string :=
  match segments with
  | [] => EmptyString
  | Text t :: rest => t +:+ render rest
  | Hole name :: rest => "{{" +:+ name +:+ "}}" +:+ render rest
  end.

(** Plain text has no doubled opening brace, a placeholder name has no brace. *)
Definition wellFormed (segment : Segment) : bool :=
  match segment with
  | Text t => calm t
  | Hole name => lacks "{" name && lacks "}" name
  end.

(** What a table of replacements makes of a segment: a placeholder whose
    name is a key of the table becomes the value of the first such key, or
    the sentinel when that value is empty; any other segment stays. *)
Definition resolve (table : list (string * string)) (segment : Segment) : Segment :=
  match segment with
  | Text t => Text t
  | Hole name =>
      match OMap.get name table with
      | Some value => Text (or_else value "Not specified")
      | None => Hole name
      end
  end.

(** One turn of the loop, on segments. *)
Definition resolveOne (variable value : string) (segment : Segment) : Segment :=
  match segment with
  | Text t => Text t
  | Hole name => if String.eqb name variable then Text value else Hole name
  end.

(** The string holds none of the replacement patterns [$$], [$&], [$`]
    and [$']: as the replacement text of [replace] it stands for itself.
    A dollar before any other character, or at the end, is an ordinary
    character. *)
Fixpoint literal (repl : string) : bool :=
  match repl with
  | EmptyString => true
  | String c r =>
      (if Ascii.eqb c "$"
       then match r with
            | EmptyString => true
            | String d _ =>
                negb (Ascii.eqb d "$" || Ascii.eqb d "&" || Ascii.eqb d "`"
                      || Ascii.eqb d "'")
            end
       else true)
      && literal r
  end.

(** A value that can stand in a text: no opening brace of it is followed
    by another or ends it, and it holds no replacement pattern. *)
Definition plainValue (value : string) : bool := calm value && literal value.

Definition plainValues (table : list (string * string)) : bool :=
  forallb (fun entry => plainValue (snd entry)) table.

(** The values that the table gives to the placeholders of the body are
    plain; the values of the other keys are not looked at. *)
Definition plainTokens (table : list (string * string)) (segments : list Segment) : bool :=
  forallb (fun segment =>
             match segment with
             | Text _ => true
             | Hole name => from_option plainValue true (OMap.get name table)
             end)
          segments.

(** The body has a placeholder of that name. *)
Definition mentions (variable : string) (segments : list Segment) : bool :=
  existsb (fun segment =>
             match segment with
             | Text _ => false
             | Hole name => String.eqb name variable
             end)
          segments.

Definition isKnownHole (table : list (string * string)) (segment : Segment) : bool :=
  match segment with
  | Text _ => true
  | Hole name => OMap.has name table
  end.

(** Cuts a text at its [{{] and [}}] marks; [acc] is the text read since
    the last mark, reversed. *)
Fixpoint tokenize_from (inHole : bool) (acc : string) (s : string) : list Segment :=
  match s with
  | EmptyString =>
      if inHole then [Text ("{{" +:+ String.rev acc)] else [Text (String.rev acc)]
  | String c s' =>
      if inHole then
        match c, s' with
        | "}"%char, String "}" s'' => Hole (String.rev acc) :: tokenize_from false EmptyString s''
        | _, _ => tokenize_from true (String c acc) s'
        end
      else
        match c, s' with
        | "{"%char, String "{" s'' => Text (String.rev acc) :: tokenize_from true EmptyString s''
        | _, _ => tokenize_from false (String c acc) s'
        end
  end.

Definition tokenize (s : string) : list Segment := tokenize_from false EmptyString s.

(** A file of the standards directory, as [fileExists] and [fs.readFile]
    find it: absent, or there with the text that reading gives or the error
    that reading throws. *)
Definition contentOf (found : option (result string)) : result (option string) :=
  match found with
  | None => Ok None
  | Some (Ok content) => Ok (Some content)
  | Some (Err e) => Err e
  end.

(** The body of [loadStandards].  The three fields start empty and are
    assigned one after the other inside a [try]; a read that throws is
    caught, and the fields not assigned by then stay empty. *)
Definition loadStandardsFrom (file : string -> option (result string)) : Standards :=
  let initial := {| coding := ""; testing := ""; techstack := "" |} in
  match contentOf (file "development-best-practices.md") with
  | Err _ => initial
  | Ok practices =>
  match contentOf (file "code-style-guide.md") with
  | Err _ => initial
  | Ok style =>
  let codingContent :=
    from_option (fun content => content +:+ LF +:+ LF) "" practices
    +:+ from_option (fun content => content +:+ LF +:+ LF) "" style in
  match (if truthy codingContent then Ok None
         else contentOf (file "coding-standards.md")) with
  | Err _ => initial
  | Ok fallback =>
  let codingContent := from_option (fun content => content) codingContent fallback in
  let codingSet :=
    {| coding :=
         or_else codingContent
           "No coding standards found. Run `sherpa add:standard` to create.";
       testing := ""; techstack := "" |} in
  match contentOf (file "testing-standards.md") with
  | Err _ => codingSet
  | Ok testingFile =>
  let testingSet :=
    {| coding := coding codingSet;
       testing :=
         default
           "No testing standards found. Run `sherpa add:standard --type testing` to create."
           testingFile;
       techstack := "" |} in
  match contentOf (file "tech-stack.md") with
  | Err _ => testingSet
  | Ok techStackFile =>
    {| coding := coding codingSet;
       testing := testing testingSet;
       techstack :=
         default
           "No tech stack documented. Run `sherpa add:standard --type techstack` to create."
           techStackFile |}
  end end end end end.

(** [loadStandards]: it reads the standards directory and never throws. *)
Definition loadStandards : M Standards :=
  gets (fun st => loadStandardsFrom (fun fileName => standards st !! fileName)).

(** [savePromptVersion]; [now] is the reading of the clock, in
    milliseconds.  The file written is the entry [<id>.json] of the versions
    directory, which is where [path.join] puts it when the template id is a
    plain file name ([plainName]); an id with a path separator would name a
    file elsewhere, which the store does not follow. *)
Definition savePromptVersion (templateId content : string) (ticket : Ticket) (now : N)
    : M unit :=
  let version :=
    {| pv_id := templateId +:+ "-" +:+ of_N now;
       pv_templateId := templateId;
       pv_version := "1.0.0";
       pv_content := content;
       metadata := {| createdAt := toISOString now;
                      usedFor := ticket_id ticket;
                      vm_outcome := success;
                      feedback := "" |} |} in
  let versionPath := pv_id version +:+ ".json" in
  modify (fun st => set_versions (<[versionPath := Json version]> (versions st)) st).

Definition generatePrompt (ticket : Ticket) (now : N) : M string :=
  let* context := getCompressedContext in
  match context with
  | None => throw (Error "No context found. Run `sherpa context:build` first.")
  | Some context =>
      let* template := selectBestTemplate ticket in
      let* relevantContext := searchSimilarContext (title ticket +:+ " " +:+ outcome ticket) in
      let* standards := loadStandards in
      let promptContent :=
        fillTemplate template
          {| td_ticket := ticket; td_context := context;
             td_relevantContext := relevantContext; td_standards := Some standards |} in
      run savePromptVersion (pt_id template) promptContent ticket now then
      ret promptContent
  end.

(** [updateTemplatePerformance].  [performance[templateId]] finds the
    record stored under the id or, for an id that is the name of an
    inherited member and has no record, that member: being truthy it
    keeps the record from being created, the counters are then set on the
    member, and the object is written with the keys it had. *)
Definition updateTemplatePerformance (templateId : string) (outcome : Outcome) (now : N)
    : M unit :=
  let* performance :=
    (fun st =>
       match performance st with
       | Some f => (readJson performancePath f, st)
       | None => (Ok [], st)
       end) in
  if negb (OMap.has templateId performance) && inherited templateId then
    modify (set_performance (Some (Json performance)))
  else
  let perf :=
    match OMap.get templateId performance with
    | Some perf => perf
    | None =>
        {| pp_templateId := templateId; totalUses := 0; successCount := 0;
           failureCount := 0; averageRating := 0; commonIssues := [];
           lastAnalyzed := toISOString now |}
    end in
  let totalUses' := S (totalUses perf) in
  let successCount' :=
    match outcome with success => S (successCount perf) | _ => successCount perf end in
  let failureCount' :=
    match outcome with failure => S (failureCount perf) | _ => failureCount perf end in
  let perf' :=
    {| pp_templateId := pp_templateId perf;
       totalUses := totalUses';
       successCount := successCount';
       failureCount := failureCount';
       averageRating :=
         (inject_Z (Z.of_nat successCount') / inject_Z (Z.of_nat totalUses'))%Q;
       commonIssues := commonIssues perf;
       lastAnalyzed := toISOString now |} in
  modify (set_performance (Some (Json (OMap.set templateId perf' performance)))).

(** [recordPromptOutcome].  The version path is the entry
    [<versionId>.json] of the versions directory, which is what [path.join]
    gives for a version id that is a plain file name ([plainName]); an id
    with a path separator would name a file elsewhere, which the store does
    not follow. *)
Definition recordPromptOutcome (versionId : string) (outcome : Outcome) (feedback : string)
    (now : N) : M unit :=
  let versionPath := versionId +:+ ".json" in
  let* found := gets (fun st => versions st !! versionPath) in
  match found with
  | Some f =>
      let* version := lift (readJson (path_join versionsPath versionPath) f) in
      let version :=
        {| pv_id := pv_id version; pv_templateId := pv_templateId version;
           pv_version := pv_version version; pv_content := pv_content version;
           metadata := {| createdAt := createdAt (metadata version);
                          usedFor := usedFor (metadata version);
                          vm_outcome := outcome;
                          feedback := feedback |} |} in
      run modify (fun st => set_versions (<[versionPath := Json version]> (versions st)) st) then
      updateTemplatePerformance (pv_templateId version) outcome now
  | None => ret tt
  end.

Definition analyzePromptPerformance : M (list PromptPerformance) :=
  fun st =>
    match performance st with
    | Some f =>
        match readJson performancePath f with
        | Ok performance => (Ok (OMap.values performance), st)
        | Err e => (Err e, st)
        end
    | None => (Ok [], st)
    end.

Definition Qltb (a b : Q) : bool := negb (Qle_bool b a).

(** [optimizePrompts] returns nothing; its result here is the list of the
    records it reports on the console, in order. *)
Definition optimizePrompts : M (list PromptPerformance) :=
  let* performance := analyzePromptPerformance in
  let* templates := getTemplates in
  ret (List.filter (fun perf => Qltb (averageRating perf) (7 # 10) && (5 <? totalUses perf)%nat)
         performance).

(** ** The [prompt:optimize] command *)

Definition underPerforming (performance : list PromptPerformance) : list PromptPerformance :=
  List.filter (fun p => Qltb (averageRating p) (7 # 10) && (3 <? totalUses p)%nat) performance.

(** The records the command prints optimization suggestions for. *)
Definition promptOptimizeCommand : M (list PromptPerformance) :=
  let* performance := analyzePromptPerformance in
  ret (underPerforming performance).

(** ** Sequences of reported outcomes *)

(** One call of [recordPromptOutcome], with the reading of the clock at
    the time of the call. *)
Record OutcomeReport := {
  or_versionId : string;
  or_outcome : Outcome;
  or_feedback : string;
  or_now : N
}.

Fixpoint recordOutcomes (reports : list OutcomeReport) : M unit :=
  match reports with
  | [] => ret tt
  | r :: reports' =>
      run recordPromptOutcome (or_versionId r) (or_outcome r) (or_feedback r) (or_now r) then
      recordOutcomes reports'
  end.

Definition Outcome_eqb (a b : Outcome) : bool :=
  match a, b with
  | success, success | failure, failure | partial, partial => true
  | _, _ => false
  end.

Definition countOutcome (o : Outcome) (reports : list OutcomeReport) : nat :=
  length (List.filter (fun r => Outcome_eqb (or_outcome r) o) reports).

(** The performance record of a template, if the performance file is
    readable and has one. *)
Definition performanceOf (st : store) (templateId : string) : option PromptPerformance :=
  match performance st with
  | Some (Json perf) => OMap.get templateId perf
  | _ => None
  end.

(** The performance file is absent or parses. *)
Definition performanceReadable (st : store) : Prop :=
  match performance st with
  | Some (Corrupt _) => False
  | _ => True
  end.

(** [versionId] names a stored version of the template [templateId]. *)
Definition refersTo (st : store) (templateId versionId : string) : Prop :=
  exists v, versions st !! (versionId +:+ ".json") = Some (Json v)
            /\ pv_templateId v = templateId.

(** ** Further notions about the registry of patterns *)

(** A class declaration with a name and the given number of plain methods. *)
Definition isNamedClass (methods : nat) (node : Node) : bool :=
  match node with
  | ClassDeclarationNode n =>
      match cd_id n with
      | Some _ =>
          Nat.eqb (length (List.filter (isMethodOfKind kind_method) (cd_body n))) methods
      | None => false
      end
  | _ => false
  end.

(** An import declaration from a relative path or from a package, with
    the given number of specifiers. *)
Definition isImport (relative : bool) (specifiers : nat) (node : Node) : bool :=
  match node with
  | ImportDeclarationNode n =>
      Bool.eqb (startsWith (id_source n) "./" || startsWith (id_source n) "../") relative
      && Nat.eqb (length (id_specifiers n)) specifiers
  | _ => false
  end.

(** The file list of an entry is as long as its frequency, which is positive. *)
Definition filesMatchFrequency (p : CodePattern) : Prop :=
  length (cp_files p) = cp_frequency p /\ 1 <= cp_frequency p.

(** A source file whose text parses. *)
Definition parses (entry : string * string) : bool :=
  match parse (snd entry) with Some _ => true | None => false end.

(** The visits of a build in order: each declaration with the file it is in. *)
Definition visitsOf (files : list (string * string)) : list (string * Node) :=
  flat_map (fun entry => map (pair (fst entry)) (default [] (parse (snd entry)))) files.

(** What an entry keeps from the declaration that created it. *)
Definition sameDescription (p q : CodePattern) : Prop :=
  cp_id p = cp_id q /\ cp_name p = cp_name q
  /\ cp_description p = cp_description q /\ cp_example p = cp_example q.

(** The entry [p] was created by the visit of [node] in [file]: it has the
    id, name, description and example that this visit gives a new entry, and
    [file] is the first of its files. *)
Definition createdBy (k file : string) (node : Node) (p : CodePattern) : Prop :=
  (forall now, exists q, visit now file node [] = [(k, q)] /\ sameDescription p q)
  /\ exists rest, cp_files p = file :: rest.

(** The entry [e'] is [e] after further visits. *)
Definition keeps (e e' : CodePattern) : Prop :=
  sameDescription e' e /\ exists rest, cp_files e' = cp_files e ++ rest.

(** How the entry of a signature changes over a run of visits: an entry
    that exists is kept, otherwise the first visit counted under the
    signature creates it. *)
Definition firstVisitSpec (k : string) (before : option CodePattern)
    (visits : list (string * Node)) (after : option CodePattern) : Prop :=
  match before with
  | Some e => exists e', after = Some e' /\ keeps e e'
  | None =>
      match find (fun v => countsAs k (snd v)) visits with
      | Some (file, node) => exists p, after = Some p /\ createdBy k file node p
      | None => after = None
      end
  end.

(** ** Further notions about the prompt manager *)

(** The version record that [savePromptVersion] writes. *)
Definition newVersion (templateId content : string) (ticket : Ticket) (now : N)
    : PromptVersion :=
  {| pv_id := templateId +:+ "-" +:+ of_N now;
     pv_templateId := templateId;
     pv_version := "1.0.0";
     pv_content := content;
     metadata := {| createdAt := toISOString now;
                    usedFor := ticket_id ticket;
                    vm_outcome := success;
                    feedback := "" |} |}.

(** A version record with the outcome and the feedback of a report. *)
Definition withOutcome (outcome : Outcome) (feedback : string) (v : PromptVersion)
    : PromptVersion :=
  {| pv_id := pv_id v; pv_templateId := pv_templateId v;
     pv_version := pv_version v; pv_content := pv_content v;
     metadata := {| createdAt := createdAt (metadata v);
                    usedFor := usedFor (metadata v);
                    vm_outcome := outcome;
                    feedback := feedback |} |}.

(** [(file, index) => arr.indexOf(file) === index] *)
Definition firstAt (arr : list string) (file : string) (index : nat) : bool :=
  match indexOf file arr with
  | Some i => Nat.eqb i index
  | None => false
  end.

(** [patterns.flatMap(p => p.files).filter((file, index, arr) =>
    arr.indexOf(file) === index)], the list that [getRelevantFiles] cuts to
    ten and prints. *)
Definition relevantFiles (patterns : list CodePattern) : list string :=
  let arr := flat_map cp_files patterns in
  filter_index (fun file index =>
                  match indexOf file arr with
                  | Some i => Nat.eqb i index
                  | None => false
                  end) 0 arr.


(** ** Building the snapshot: [buildContext] and what it calls *)

(** [s.split('\n')] *)
Fixpoint splitLines (s : string) : list string :=
  match s with
  | EmptyString => [EmptyString]
  | String c s' =>
      match splitLines s' with
      | line :: lines =>
          if Ascii.eqb c (ascii_of_nat 10) then EmptyString :: line :: lines
          else String c line :: lines
      | [] => [String c EmptyString]
      end
  end.

(** [s.substring(0, n)] and [s.substring(n)] *)
Fixpoint substringTo (n : nat) (s : string) : string :=
  match n, s with
  | S n', String c s' => String c (substringTo n' s')
  | _, _ => EmptyString
  end.

Fixpoint substringFrom (n : nat) (s : string) : string :=
  match n, s with
  | S n', String _ s' => substringFrom n' s'
  | _, _ => s
  end.

(** [s.replace(pat, repl)] for a string [pat]: the first occurrence only.
    [before] is the text already passed, reversed. *)
Fixpoint replace_first (pat repl before s : string) : string :=
  if String.prefix pat s then
    getSubstitution pat (String.rev before) (substringFrom (String.length pat) s) repl
    +:+ substringFrom (String.length pat) s
  else
    match s with
    | EmptyString => EmptyString
    | String c s' => String c (replace_first pat repl (String c before) s')
    end.

Definition replace (pat repl s : string) : string := replace_first pat repl EmptyString s.

(** [parseArchitecturalDecision]; it never returns [null].  A missing
    heading gives [undefined], which is falsy like the empty title. *)
Definition parseArchitecturalDecision (content filename : string) (now : N)
    : option ArchitecturalDecision :=
  let lines := splitLines content in
  let title :=
    or_else
      (match find (fun line => startsWith line "# ") lines with
       | Some line => substringFrom 2 line
       | None => EmptyString
       end)
      filename in
  Some {| ad_id := replace ".md" "" filename;
          ad_title := title;
          ad_decision := substringTo 200 content +:+ "...";
          ad_rationale := "Extracted from documentation";
          ad_consequences := [];
          ad_date := toISOString now;
          ad_files := [filename] |}.

(** One of the places where [extractDecisions] looks for decision records,
    if something exists there: either [fs.readdir] throws (as on a regular
    file), or it lists names, each with what [readMarkdown] gives for it. *)
Inductive AdrDir :=
| Unlistable (thrown : error)
| Listing (files : list (string * result string)).

(** What [buildContext] reads of the project: the entries of the project
    root, [package.json], and the four places of decision records, namely
    [docs/adr], [docs/decisions] and [.adr-dir] under the project root and
    [.sherpa/decisions]. *)
Record Project := {
  pj_entries : list Entry;
  pj_packageJson : option (file PackageJson);
  pj_docs_adr : option AdrDir;
  pj_docs_decisions : option AdrDir;
  pj_adr_dir : option AdrDir;
  pj_sherpa_decisions : option AdrDir
}.

Definition adrPaths (project : Project) : list (option AdrDir) :=
  [pj_docs_adr project; pj_docs_decisions project; pj_adr_dir project;
   pj_sherpa_decisions project].

(** The inner loop of [extractDecisions], over the names of one directory;
    [acc] is the array [decisions] and the number of clock readings so far. *)
Fixpoint readDecisionFiles (clock : Clock) (files : list (string * result string))
    (acc : list ArchitecturalDecision * nat) : result (list ArchitecturalDecision * nat) :=
  match files with
  | [] => Ok acc
  | (file, read) :: files' =>
      if endsWith file ".md" then
        match read with
        | Ok content =>
            match parseArchitecturalDecision content file (clock (snd acc)) with
            | Some decision =>
                readDecisionFiles clock files' (fst acc ++ [decision], S (snd acc))
            | None => readDecisionFiles clock files' (fst acc, S (snd acc))
            end
        | Err e => Err e
        end
      else readDecisionFiles clock files' acc
  end.

(** The outer loop of [extractDecisions] *)
Fixpoint readAdrPaths (clock : Clock) (paths : list (option AdrDir))
    (acc : list ArchitecturalDecision * nat) : result (list ArchitecturalDecision * nat) :=
  match paths with
  | [] => Ok acc
  | None :: paths' => readAdrPaths clock paths' acc
  | Some (Unlistable e) :: _ => Err e
  | Some (Listing files) :: paths' =>
      match readDecisionFiles clock files acc with
      | Ok acc' => readAdrPaths clock paths' acc'
      | Err e => Err e
      end
  end.

(** [packageJson.dependencies?.react] in boolean position *)
Definition dependsOn (name : string) (deps : option (OMap.t string)) : bool :=
  match deps with
  | Some deps => from_option truthy false (OMap.get name deps)
  | None => false
  end.

(** [extractImplicitDecisions]; [n] counts the clock readings so far. *)
Definition extractImplicitDecisions (clock : Clock) (n : nat)
    (packageJson : option (file PackageJson))
    : result (list ArchitecturalDecision * nat) :=
  match packageJson with
  | Some f =>
      match readJson "package.json" f with
      | Ok packageJson =>
          let acc :=
            if dependsOn "react" (dependencies packageJson) then
              ([ {| ad_id := "tech-stack-react";
                    ad_title := "Use React for UI";
                    ad_decision := "Chosen React as the UI framework";
                    ad_rationale :=
                      "React provides component-based architecture and strong ecosystem";
                    ad_consequences :=
                      ["Need to manage component lifecycle"; "JSX syntax required"];
                    ad_date := toISOString (clock n);
                    ad_files := ["package.json"] |} ], S n)
            else ([], n) in
          let acc :=
            if dependsOn "typescript" (devDependencies packageJson) then
              (fst acc ++
               [ {| ad_id := "tech-stack-typescript";
                    ad_title := "Use TypeScript";
                    ad_decision := "Chosen TypeScript for type safety";
                    ad_rationale :=
                      "TypeScript provides static type checking and better IDE support";
                    ad_consequences :=
                      ["Compilation step required"; "Learning curve for team"];
                    ad_date := toISOString (clock (snd acc));
                    ad_files := ["package.json"; "tsconfig.json"] |} ], S (snd acc))
            else acc in
          Ok acc
      | Err e => Err e
      end
  | None => Ok ([], n)
  end.

Definition extractDecisions (clock : Clock) (n : nat) (project : Project)
    : result (list ArchitecturalDecision * nat) :=
  match readAdrPaths clock (adrPaths project) ([], n) with
  | Ok (decisions, n) =>
      match extractImplicitDecisions clock n (pj_packageJson project) with
      | Ok (implicitDecisions, n) => Ok (decisions ++ implicitDecisions, n)
      | Err e => Err e
      end
  | Err e => Err e
  end.

(** [loadPitfalls]: whether [pitfalls.md] exists or not, the two built-in
    pitfalls. *)
Definition loadPitfalls (pitfallsFile : option string) : list CommonPitfall :=
  let defaultPitfalls :=
    [ {| pf_id := "over-abstraction";
         pf_pattern := "Creating interfaces for single implementations";
         pf_description := "AI tends to create unnecessary abstractions";
         pf_solution := "Start concrete, abstract when you have 2+ implementations";
         pf_frequency := 0;
         pf_examples := [] |};
      {| pf_id := "missing-error-handling";
         pf_pattern := "Functions without proper error handling";
         pf_description := "AI often skips comprehensive error handling";
         pf_solution := "Always handle edge cases and provide meaningful error messages";
         pf_frequency := 0;
         pf_examples := [] |} ] in
  match pitfallsFile with
  | Some _ => defaultPitfalls
  | None => defaultPitfalls
  end.

(** [patterns.sort((a, b) => b.frequency - a.frequency)]: by descending
    frequency.  The sort of ECMAScript is stable, so that patterns of equal
    frequency keep their order: each pattern, from the last to the first,
    is put before the sorted rest of the array as far left as the order
    allows. *)
Fixpoint insertByFrequency (p : CodePattern) (sorted : list CodePattern) : list CodePattern :=
  match sorted with
  | [] => [p]
  | q :: sorted' =>
      if (cp_frequency p <? cp_frequency q)%nat then q :: insertByFrequency p sorted'
      else p :: q :: sorted'
  end.

Definition sortByFrequency (patterns : list CodePattern) : list CodePattern :=
  fold_right insertByFrequency [] patterns.

(** [generateSummary].  [sort] works in place: besides the summary, the
    function leaves the array of its caller sorted, which is the second
    component here. *)
Definition generateSummary (patterns : list CodePattern)
    (decisions : list ArchitecturalDecision) (pitfalls : list CommonPitfall)
    : string * list CodePattern :=
  let patterns := sortByFrequency patterns in
  let topPatterns :=
    join ", "
      (map (fun p => cp_name p +:+ " (used " +:+ of_nat (cp_frequency p) +:+ " times)")
           (take 5 patterns)) in
  let keyDecisions := join ", " (map ad_title (take 3 decisions)) in
  ("This codebase primarily uses: " +:+ topPatterns
   +:+ ". Key architectural decisions: " +:+ keyDecisions
   +:+ ". Watch out for common pitfalls in AI-generated code.",
   patterns).

(** The text that [savePatternsToMarkdown] writes to [patterns.md] *)
Definition patternsMarkdown (patterns : list CodePattern) : string :=
  "# Code Patterns" +:+ LF +:+ LF +:+
  join LF
    (map (fun pattern =>
            LF +:+ "## " +:+ cp_name pattern +:+ LF +:+ LF
            +:+ "**Description:** " +:+ cp_description pattern +:+ "  " +:+ LF
            +:+ "**Frequency:** " +:+ of_nat (cp_frequency pattern) +:+ " occurrences  " +:+ LF
            +:+ "**Files:** " +:+ of_nat (length (cp_files pattern)) +:+ " files  " +:+ LF
            +:+ "**Last Seen:** " +:+ cp_lastSeen pattern +:+ LF +:+ LF
            +:+ "```" +:+ LF
            +:+ cp_example pattern +:+ LF
            +:+ "```" +:+ LF)
         patterns).

(** The text that [saveDecisionsToMarkdown] writes to [decisions.md] *)
Definition decisionsMarkdown (decisions : list ArchitecturalDecision) : string :=
  "# Architectural Decisions" +:+ LF +:+ LF +:+
  join LF
    (map (fun decision =>
            LF +:+ "## " +:+ ad_title decision +:+ LF +:+ LF
            +:+ "**Decision:** " +:+ ad_decision decision +:+ "  " +:+ LF
            +:+ "**Rationale:** " +:+ ad_rationale decision +:+ "  " +:+ LF
            +:+ "**Date:** " +:+ ad_date decision +:+ "  " +:+ LF
            +:+ "**Files:** " +:+ join ", " (ad_files decision) +:+ LF +:+ LF
            +:+ "**Consequences:**" +:+ LF
            +:+ join LF (map (fun c => "- " +:+ c) (ad_consequences decision)) +:+ LF)
         decisions).

(** The [.sherpa] directory with the three Markdown files of
    [.sherpa/context], which are not part of the [store]. *)
Record Workspace := {
  sherpa : store;
  patternsMd : option string;
  decisionsMd : option string;
  pitfallsMd : option string
}.

Definition writeCompressed (context : CompressedContext) (ws : Workspace) : Workspace :=
  {| sherpa := set_compressed (Some (Json context)) (sherpa ws);
     patternsMd := patternsMd ws; decisionsMd := decisionsMd ws;
     pitfallsMd := pitfallsMd ws |}.

Definition savePatternsToMarkdown (patterns : list CodePattern) (ws : Workspace) : Workspace :=
  {| sherpa := sherpa ws;
     patternsMd := Some (patternsMarkdown patterns); decisionsMd := decisionsMd ws;
     pitfallsMd := pitfallsMd ws |}.

Definition saveDecisionsToMarkdown (decisions : list ArchitecturalDecision) (ws : Workspace)
    : Workspace :=
  {| sherpa := sherpa ws;
     patternsMd := patternsMd ws; decisionsMd := Some (decisionsMarkdown decisions);
     pitfallsMd := pitfallsMd ws |}.

(** The number of clock readings of [extractPatterns] *)
Definition readingsOfExtractPatterns (clock : Clock) (projectRoot : string)
    (tree : list Entry) : nat :=
  snd (extractFiles clock (getSourceFiles projectRoot tree) ([], 0)).

(** [buildContext].  [ensureDir] creates [.sherpa/context], which as an
    empty directory holds none of the files of the workspace.  The array
    that [extractPatterns] returns is the one [generateSummary] sorts and
    the one stored in the context.  Everything is read before anything is
    written. *)
Definition buildContext (clock : Clock) (projectRoot : string) (project : Project)
    (ws : Workspace) : result CompressedContext * Workspace :=
  let patterns := extractPatterns clock projectRoot (pj_entries project) in
  let n := readingsOfExtractPatterns clock projectRoot (pj_entries project) in
  match extractDecisions clock n project with
  | Ok (decisions, n) =>
      let pitfalls := loadPitfalls (pitfallsMd ws) in
      let (summary, patterns) := generateSummary patterns decisions pitfalls in
      match generateCodebaseFingerprint (pj_packageJson project) with
      | Ok fingerprint =>
          let context :=
            {| patterns := patterns;
               decisions := decisions;
               pitfalls := pitfalls;
               summary := summary;
               lastUpdated := toISOString (clock n);
               codebaseFingerprint := fingerprint |} in
          (Ok context,
           saveDecisionsToMarkdown decisions
             (savePatternsToMarkdown patterns (writeCompressed context ws)))
      | Err e => (Err e, ws)
      end
  | Err e => (Err e, ws)
  end.

(** Sorted by descending frequency *)
Definition byFrequency (l : list CodePattern) : Prop :=
  StronglySorted (fun p q => cp_frequency q <= cp_frequency p) l.

(** The patterns of a given frequency, in their order *)
Definition ofFrequency (k : nat) (l : list CodePattern) : list CodePattern :=
  List.filter (fun p => Nat.eqb (cp_frequency p) k) l.


(** The Markdown files of a place of decision records, in listing order *)
Definition markdownFiles (found : option AdrDir) : list string :=
  match found with
  | Some (Listing files) => List.filter (fun file => endsWith file ".md") (map fst files)
  | _ => []
  end.

(** The ids of the decisions that [package.json] stands for *)
Definition implicitIds (packageJson : option (file PackageJson)) : list string :=
  match packageJson with
  | Some (Json packageJson) =>
      (if dependsOn "react" (dependencies packageJson) then ["tech-stack-react"] else [])
      ++ (if dependsOn "typescript" (devDependencies packageJson)
          then ["tech-stack-typescript"] else [])
  | _ => []
  end.


(** A decision with its date blanked, and a context with all its
    timestamps blanked, to compare builds. *)
Definition withoutDate (d : ArchitecturalDecision) : ArchitecturalDecision :=
  {| ad_id := ad_id d; ad_title := ad_title d; ad_decision := ad_decision d;
     ad_rationale := ad_rationale d; ad_consequences := ad_consequences d;
     ad_date := ""; ad_files := ad_files d |}.

Definition withoutTimes (c : CompressedContext) : CompressedContext :=
  {| patterns := map withoutLastSeen (patterns c);
     decisions := map withoutDate (decisions c);
     pitfalls := pitfalls c;
     summary := summary c;
     lastUpdated := "";
     codebaseFingerprint := codebaseFingerprint c |}.

(** Two outcomes that agree: the same error, or values related by [R]. *)
Definition agree {A} (R : A -> A -> Prop) (r1 r2 : result A) : Prop :=
  match r1, r2 with
  | Ok a1, Ok a2 => R a1 a2
  | Err e1, Err e2 => e1 = e2
  | _, _ => False
  end.

(** The same decisions but for their dates *)
Definition sameDecisions (r1 r2 : list ArchitecturalDecision * nat) : Prop :=
  map withoutDate (fst r1) = map withoutDate (fst r2).

End Sherpa.

(** ** Concrete inputs used by the examples below *)

Definition demo_ticket (title outcome : string) : Ticket :=
  {| ticket_id := "T-001"; title := title; outcome := outcome;
     scope_in := []; scope_out := [];
     acceptance_criteria := ["Works as described"];
     apidiff := None; dbdiff := None; ui_components := Some ["LoginForm"];
     telemetry := {| events := []; alerts := [] |};
     test_plan := {| tp_unit := ["covers the change"]; tp_e2e := [] |};
     timebox_hours := 4; owner := "dev" |}.

Definition demo_pattern : CodePattern :=
  {| cp_id := "function-2-params-sync";
     cp_name := "Sync function with 2 parameters";
     cp_description := "Functions with 2 parameters, without type annotations";
     cp_example := "function add(a, b) { ... }";
     cp_frequency := 3;
     cp_files := ["src/math.ts"; "src/math.ts"; "src/math.ts"];
     cp_lastSeen := "2024-01-01T00:00:00.000Z" |}.

Definition demo_decision : ArchitecturalDecision :=
  {| ad_id := "tech-stack-typescript";
     ad_title := "Use TypeScript";
     ad_decision := "Chosen TypeScript for type safety";
     ad_rationale := "TypeScript provides static type checking and better IDE support";
     ad_consequences := ["Compilation step required"; "Learning curve for team"];
     ad_date := "2024-01-01T00:00:00.000Z";
     ad_files := ["package.json"; "tsconfig.json"] |}.

Definition demo_context : CompressedContext :=
  {| patterns := [demo_pattern];
     decisions := [demo_decision];
     pitfalls := [];
     summary := "This codebase primarily uses: Sync function with 2 parameters (used 3 times).";
     lastUpdated := "2024-01-01T00:00:00.000Z";
     codebaseFingerprint := "react|typescript" |}.

Definition empty_store : store :=
  {| compressed := None; templates := None; versions := ∅;
     performance := None; standards := ∅ |}.

(** A project that has run [initializePrompts] and built its context. *)
Definition demo_store : store :=
  set_compressed (Some (Json demo_context)) (snd (initializePrompts empty_store)).

(** Stand-ins for the third-party functions: a search that keeps the
    items one of whose keys contains the query, decimal dates, and a parser
    that knows the texts of the example project. *)
Definition demo_search (A : Type) (keys : list (A -> string)) (threshold : Q)
    (items : list A) (query : string) : list A :=
  List.filter
    (fun item => existsb (fun key => includes (toLowerCase query) (toLowerCase (key item))) keys)
    items.

Definition demo_iso (ms : N) : string := of_N ms.

Definition math_ts : string :=
  "export function add(a, b) { return a + b } export function sub(a, b) { return a - b } export function mul(a, b) { return a * b }".
Definition load_ts : string :=
  "export async function load(url) { return fetch(url) }".
Definition anonymous_ts : string :=
  "export default function (a, b) { return a + b }".

Definition named_function (name : string) (params : list string) (async : bool) : Node :=
  FunctionDeclarationNode
    {| fd_id := Some name;
       fd_params := map (fun p => Identifier p false) params;
       fd_async := async |}.

Definition demo_parse (content : string) : option (list Node) :=
  if String.eqb content math_ts then
    Some [named_function "add" ["a"; "b"] false;
          named_function "sub" ["a"; "b"] false;
          named_function "mul" ["a"; "b"] false]
  else if String.eqb content load_ts then
    Some [named_function "load" ["url"] true]
  else if String.eqb content anonymous_ts then
    Some [FunctionDeclarationNode
            {| fd_id := None;
               fd_params := [Identifier "a" false; Identifier "b" false];
               fd_async := false |}]
  else None.

Definition demo_env : ThirdParty :=
  {| parse := demo_parse; fuse_search := demo_search; toISOString := demo_iso |}.

(** The project of scenario A, with a file that does not parse and a
    dependency directory. *)
Definition demo_tree : list Entry :=
  [ Directory "src" [File "math.ts" math_ts; File "load.ts" load_ts; File "broken.ts" "function ("];
    Directory "node_modules" [File "index.js" math_ts];
    File "README.md" "A project" ].

(** A module whose only declaration is an unnamed default export. *)
Definition anonymous_tree : list Entry := [File "handler.ts" anonymous_ts].

Definition demo_clock : Clock := fun n => N.of_nat (1700 + n).
Definition late_clock : Clock := fun n => (9000 + 2 * N.of_nat n)%N.

(** [demo_store] after one prompt has been generated for a bug ticket, and
    after four outcomes have been reported for it. *)
Definition prompted_store : store :=
  snd (generatePrompt (TP := demo_env) (demo_ticket "Fix login bug" "Users can log in") 1700%N
         demo_store).

Definition demo_reports : list OutcomeReport :=
  [ {| or_versionId := "bug-fix-1700"; or_outcome := success;
       or_feedback := "worked"; or_now := 1800%N |};
    {| or_versionId := "bug-fix-1700"; or_outcome := failure;
       or_feedback := "missed a case"; or_now := 1801%N |};
    {| or_versionId := "bug-fix-1700"; or_outcome := partial;
       or_feedback := "needed edits"; or_now := 1802%N |};
    {| or_versionId := "bug-fix-1700"; or_outcome := failure;
       or_feedback := "wrong file"; or_now := 1803%N |} ].

Definition reported_store : store :=
  snd (recordOutcomes (TP := demo_env) demo_reports prompted_store).

(** A project whose operator has put an own template in the place of a seed. *)
Definition custom_template : PromptTemplate :=
  {| pt_id := "feature-implementation";
     pt_name := "Custom Feature Template";
     category := feature;
     pt_template := "Custom template content";
     variables := ["CUSTOM_VAR"];
     successRate := 0; usageCount := 0; lastUsed := ""; aiModel := None |}.

Definition custom_store : store :=
  set_templates (Some [("feature-implementation.json", Json custom_template)]) empty_store.

(** A project whose operator has removed the bug-fix template. *)
Definition no_bugfix_store : store :=
  set_templates
    (Some (List.filter (fun entry => negb (String.eqb (fst entry) "bug-fix.json"))
             (default [] (templates demo_store))))
    demo_store.

(** A project whose operator has written an own feature template with a
    placeholder of their own. *)
Definition annotated_template : PromptTemplate :=
  {| pt_id := "feature-implementation";
     pt_name := "Feature with reviewer note";
     category := feature;
     pt_template := "Task: {{FEATURE_NAME}}. Reviewer: {{REVIEWER_NOTE}}";
     variables := ["FEATURE_NAME"; "REVIEWER_NOTE"];
     successRate := 0; usageCount := 0; lastUsed := ""; aiModel := None |}.

Definition annotated_store : store :=
  set_templates (Some [("feature-implementation.json", Json annotated_template)]) demo_store.

Definition feature_seed : PromptTemplate := nth 0 getDefaultTemplates custom_template.
Definition bugfix_seed : PromptTemplate := nth 1 getDefaultTemplates custom_template.

Definition demo_data (title : string) : TemplateData :=
  {| td_ticket := demo_ticket title "Users can log in";
     td_context := demo_context;
     td_relevantContext := {| sr_patterns := [demo_pattern]; sr_decisions := [demo_decision] |};
     td_standards := None |}.

(** The entry that the build of the example project records for its three
    synchronous functions of two parameters. *)
Definition demo_pattern_at (file : string) : CodePattern :=
  {| cp_id := "function-2-params-sync";
     cp_name := "Sync function with 2 parameters";
     cp_description := "Functions with 2 parameters, without type annotations";
     cp_example := "function add(a, b) { ... }";
     cp_frequency := 3;
     cp_files := [file; file; file];
     cp_lastSeen := "" |}.

(** The example project without the file that does not parse. *)
Definition clean_tree : list Entry :=
  [ Directory "src" [File "math.ts" math_ts; File "load.ts" load_ts];
    Directory "node_modules" [File "index.js" math_ts];
    File "README.md" "A project" ].

(** The example project with its two source files under other names and
    in the other order. *)
Definition renamed_tree : list Entry :=
  [ File "io.ts" load_ts; Directory "lib" [File "arithmetic.js" math_ts] ].


(** A project with a decision record, a note beside it, and a
    [package.json] that names React and TypeScript; its sources are those of
    [renamed_tree], where the less frequent signature is met first. *)
Definition demo_adr : AdrDir :=
  Listing [ ("0001-use-postgres.md",
             Ok ("# Use Postgres" +:+ LF +:+ "We store the data in Postgres."));
            ("notes.txt", Ok "scratch") ].

Definition demo_package : PackageJson :=
  {| dependencies := Some [("react", "^18.0.0")];
     devDependencies := Some [("typescript", "^5.0.0")] |}.

Definition demo_project : Project :=
  {| pj_entries := renamed_tree;
     pj_packageJson := Some (Json demo_package);
     pj_docs_adr := Some demo_adr;
     pj_docs_decisions := None;
     pj_adr_dir := None;
     pj_sherpa_decisions := None |}.

(** The same project after [adr init] of adr-tools, which records the
    directory of the decision records in a regular file [.adr-dir]. *)
Definition adr_tools_project : Project :=
  {| pj_entries := renamed_tree;
     pj_packageJson := Some (Json demo_package);
     pj_docs_adr := Some demo_adr;
     pj_docs_decisions := None;
     pj_adr_dir := Some (Unlistable (Error "ENOTDIR: not a directory, scandir '.adr-dir'"));
     pj_sherpa_decisions := None |}.

Definition empty_workspace : Workspace :=
  {| sherpa := empty_store; patternsMd := None; decisionsMd := None; pitfallsMd := None |}.


(** [demo_store] with a template file that does not parse. *)
Definition broken_templates : OMap.t (file PromptTemplate) :=
  OMap.set "bug-fix.json" (Corrupt "{ not json") (fold_left seedStep getDefaultTemplates []).

Definition broken_store : store := set_templates (Some broken_templates) demo_store.


(** A template without placeholders. *)
Definition notes_template : PromptTemplate :=
  {| pt_id := "release-notes"; pt_name := "Release notes"; category := docs;
     pt_template := "Write the release notes for this sprint.";
     variables := []; successRate := 0; usageCount := 0; lastUsed := "";
     aiModel := None |}.


(** A seeded project whose operator has edited the file of the feature
    template: a body of their own, and the id [constructor]. *)
Definition constructor_template : PromptTemplate :=
  {| pt_id := "constructor"; pt_name := "Constructor"; category := feature;
     pt_template := "Implement {{FEATURE_NAME}}."; variables := ["FEATURE_NAME"];
     successRate := 0; usageCount := 0; lastUsed := ""; aiModel := None |}.

Definition constructor_store : store :=
  set_templates
    (option_map (OMap.set "feature-implementation.json" (Json constructor_template))
       (templates demo_store))
    demo_store.

(** A template whose second placeholder has lost an opening brace. *)
Definition brace_template : PromptTemplate :=
  {| pt_id := "feature-implementation"; pt_name := "Feature"; category := feature;
     pt_template := "{{FEATURE_NAME}}{EXPECTED_OUTCOME}}";
     variables := ["FEATURE_NAME"];
     successRate := 0; usageCount := 0; lastUsed := ""; aiModel := None |}.

Section Properties.

Context `{TP : ThirdParty}.

(** * Properties *)

(** ** Error handling *)


(** C7. [generatePrompt] without a persisted snapshot fails with the
    message that tells the operator to build the context; no prompt text
    is returned and the store, hence the set of persisted versions, is
    unchanged. *)
Theorem generatePrompt_missing_context :
  forall (st : store) (ticket : Ticket) (now : N),
    compressed st = None ->
    generatePrompt ticket now st
    = (Err (Error "No context found. Run `sherpa context:build` first."), st).
Proof.
  intros st ticket now Hnone.
  unfold generatePrompt, bind, getCompressedContext.
  now rewrite Hnone.
Qed.

(** C9. [searchSimilarContext] returns two empty lists and no error when
    no snapshot is persisted, and when the search finds nothing above the
    threshold among the stored patterns and decisions; so it does for the
    query [zzz-no-match-qqq] on a populated context that has no match for it. *)
Theorem searchSimilarContext_empty_is_ok :
  forall (st : store) (query : string),
    compressed st = None \/
    (exists context,
        compressed st = Some (Json context) /\
        fuse_search CodePattern [cp_name; cp_description] (6 # 10)
          (patterns context) query = [] /\
        fuse_search ArchitecturalDecision [ad_title; ad_decision; ad_rationale] (6 # 10)
          (decisions context) query = []) ->
    searchSimilarContext query st = (Ok {| sr_patterns := []; sr_decisions := [] |}, st).
Proof.
  intros st query [Hnone | (context & Hsome & Hpat & Hdec)];
    unfold searchSimilarContext, bind, getCompressedContext.
  - now rewrite Hnone.
  - rewrite Hsome. simpl. unfold ret. now rewrite Hpat, Hdec.
Qed.

(** ** Insertion-ordered maps *)

Lemma OMap_get_set_eq {V} (k : string) (v : V) (m : OMap.t V) :
  OMap.get k (OMap.set k v m) = Some v.
Proof.
  induction m as [| [k' v'] m IH]; simpl.
  - now rewrite String.eqb_refl.
  - destruct (String.eqb k k') eqn:E; simpl; rewrite E; auto.
Qed.

Lemma OMap_get_set_ne {V} (k k' : string) (v : V) (m : OMap.t V) :
  k <> k' -> OMap.get k' (OMap.set k v m) = OMap.get k' m.
Proof.
  intros Hne. induction m as [| [k0 v0] m IH]; simpl.
  - apply String.eqb_neq in Hne. rewrite String.eqb_sym. now rewrite Hne.
  - destruct (String.eqb k k0) eqn:E; simpl.
    + apply String.eqb_eq in E. subst k0.
      assert (String.eqb k' k = false) as -> by (apply String.eqb_neq; congruence).
      reflexivity.
    + now rewrite IH.
Qed.

(** ** Template registry *)

Lemma set_templates_same (st : store) (dir : OMap.t (file PromptTemplate)) :
  templates st = Some dir -> set_templates (Some dir) st = st.
Proof. destruct st; simpl; intros ->; reflexivity. Qed.

Lemma seedTemplate_step (t : PromptTemplate) (st : store) (dir : OMap.t (file PromptTemplate)) :
  templates st = Some dir ->
  seedTemplate t st = (Ok tt, set_templates (Some (seedStep dir t)) st).
Proof.
  intros Hdir.
  unfold seedTemplate, bind, templateFileExists, gets, seedStep, writeTemplateJson, modify, ret.
  rewrite Hdir. simpl.
  destruct (OMap.has (pt_id t +:+ ".json") dir); simpl.
  - now rewrite set_templates_same.
  - now rewrite Hdir.
Qed.

Lemma for_each_seedTemplate (l : list PromptTemplate) :
  forall (st : store) (dir : OMap.t (file PromptTemplate)),
    templates st = Some dir ->
    for_each l seedTemplate st = (Ok tt, set_templates (Some (fold_left seedStep l dir)) st).
Proof.
  induction l as [| t l IH]; intros st dir Hdir; simpl.
  - unfold ret. now rewrite set_templates_same.
  - unfold bind. rewrite (seedTemplate_step t st dir Hdir).
    rewrite (IH _ (seedStep dir t)) by reflexivity.
    destruct st; reflexivity.
Qed.

Lemma initializePrompts_unfold (st : store) :
  initializePrompts st
  = (Ok tt, set_templates
              (Some (fold_left seedStep getDefaultTemplates (default [] (templates st)))) st).
Proof.
  unfold initializePrompts, bind, ensureTemplatesDir, modify.
  destruct (templates st) as [dir |] eqn:Hdir.
  - now rewrite (for_each_seedTemplate _ st dir Hdir).
  - rewrite (for_each_seedTemplate _ _ []) by reflexivity.
    destruct st; reflexivity.
Qed.

Lemma get_fold_seedStep (l : list PromptTemplate) :
  forall (dir : OMap.t (file PromptTemplate)) (fileName : string),
    OMap.get fileName (fold_left seedStep l dir)
    = match OMap.get fileName dir with
      | Some content => Some content
      | None => Json <$> find (fun t => String.eqb (pt_id t +:+ ".json") fileName) l
      end.
Proof.
  induction l as [| t l IH]; intros dir fileName; simpl.
  - now destruct (OMap.get fileName dir).
  - rewrite IH. unfold seedStep, OMap.has.
    destruct (String.eqb (pt_id t +:+ ".json") fileName) eqn:E.
    + apply String.eqb_eq in E. subst fileName.
      destruct (OMap.get (pt_id t +:+ ".json") dir) eqn:G.
      * now rewrite G.
      * now rewrite OMap_get_set_eq.
    + apply String.eqb_neq in E.
      destruct (OMap.get (pt_id t +:+ ".json") dir) eqn:G; [reflexivity |].
      now rewrite (OMap_get_set_ne _ _ _ _ E).
Qed.

Lemma fold_seedStep_present (l : list PromptTemplate) :
  forall dir : OMap.t (file PromptTemplate),
    (forall t, In t l -> OMap.has (pt_id t +:+ ".json") dir = true) ->
    fold_left seedStep l dir = dir.
Proof.
  induction l as [| t l IH]; intros dir Hall; simpl; [reflexivity |].
  unfold seedStep at 2. rewrite (Hall t) by now left.
  apply IH. intros t' Hin. apply Hall. now right.
Qed.

Lemma fold_seedStep_has (l : list PromptTemplate) (dir : OMap.t (file PromptTemplate)) :
  forall t, In t l -> OMap.has (pt_id t +:+ ".json") (fold_left seedStep l dir) = true.
Proof.
  intros t Hin. unfold OMap.has. rewrite get_fold_seedStep.
  destruct (OMap.get (pt_id t +:+ ".json") dir); [reflexivity |].
  destruct (find (fun t0 => String.eqb (pt_id t0 +:+ ".json") (pt_id t +:+ ".json")) l) eqn:F;
    [reflexivity |].
  apply (find_none _ _ F) in Hin. now rewrite String.eqb_refl in Hin.
Qed.

(** C5. [initializePrompts] succeeds, leaves the content of every file
    that exists in the template store as it is, writes a file that is
    absent only when it is the file of one of the three seed templates,
    with the seed as content, touches nothing else in the store, and run
    again on its own result changes nothing. *)
Theorem initializePrompts_preserves_overrides :
  forall st : store,
    let st' := snd (initializePrompts st) in
    fst (initializePrompts st) = Ok tt /\
    (forall fileName content,
        templateFile st fileName = Some content ->
        templateFile st' fileName = Some content) /\
    (forall fileName,
        templateFile st fileName = None ->
        templateFile st' fileName = Json <$> seedFor fileName) /\
    map pt_id getDefaultTemplates = ["feature-implementation"; "bug-fix"; "refactor"] /\
    initializePrompts st' = (Ok tt, st') /\
    compressed st' = compressed st /\ versions st' = versions st /\
    performance st' = performance st /\ standards st' = standards st.
Proof.
  intros st st'. subst st'. rewrite initializePrompts_unfold.
  cbn [fst snd]. unfold templateFile.
  cbn [templates compressed versions performance standards set_templates].
  repeat split.
  - intros fileName content Hfile. rewrite get_fold_seedStep.
    destruct (templates st) as [dir |]; [| discriminate].
    cbn [default from_option id]. now rewrite Hfile.
  - intros fileName Hfile. rewrite get_fold_seedStep. unfold seedFor.
    destruct (templates st) as [dir |]; cbn [default from_option id];
      [now rewrite Hfile | reflexivity].
  - rewrite initializePrompts_unfold.
    cbn [templates set_templates default from_option id]. f_equal.
    rewrite fold_seedStep_present; [destruct st; reflexivity |].
    intros t Hin. now apply fold_seedStep_has.
Qed.

(** ** Feedback loop *)

Ltac perf_record_facts o :=
  repeat split;
  cbn [from_option totalUses successCount failureCount averageRating lastAnalyzed];
  try reflexivity;
  destruct o; cbn [Outcome_eqb]; lia.

Lemma updateTemplatePerformance_step (st : store) (T : string) (o : Outcome) (now : N) :
  performanceReadable st ->
  inherited T = false ->
  exists st' p',
    updateTemplatePerformance T o now st = (Ok tt, st') /\
    performanceReadable st' /\
    versions st' = versions st /\
    performanceOf st' T = Some p' /\
    totalUses p' = S (from_option totalUses 0 (performanceOf st T)) /\
    successCount p'
    = from_option successCount 0 (performanceOf st T) + (if Outcome_eqb o success then 1 else 0) /\
    failureCount p'
    = from_option failureCount 0 (performanceOf st T) + (if Outcome_eqb o failure then 1 else 0) /\
    averageRating p'
    = (inject_Z (Z.of_nat (successCount p')) / inject_Z (Z.of_nat (totalUses p')))%Q /\
    lastAnalyzed p' = toISOString now.
Proof.
  intros Hread Hown.
  unfold updateTemplatePerformance, bind, modify, performanceReadable, performanceOf in *.
  destruct (performance st) as [[perf | raw] |] eqn:Hperf; [| contradiction |];
    cbn [readJson]; rewrite Hown, andb_false_r.
  - destruct (OMap.get T perf) as [p |];
      (eexists _, _; split; [reflexivity |]);
      cbn [performance versions set_performance]; rewrite OMap_get_set_eq;
      perf_record_facts o.
  - eexists _, _. split; [reflexivity |].
    cbn [performance versions set_performance]. rewrite OMap_get_set_eq.
    cbn [OMap.get]. perf_record_facts o.
Qed.

Lemma recordPromptOutcome_step (st : store) (T : string) (r : OutcomeReport) :
  performanceReadable st ->
  inherited T = false ->
  refersTo st T (or_versionId r) ->
  exists st' p',
    recordPromptOutcome (or_versionId r) (or_outcome r) (or_feedback r) (or_now r) st
    = (Ok tt, st') /\
    performanceReadable st' /\
    (forall versionId, refersTo st T versionId -> refersTo st' T versionId) /\
    performanceOf st' T = Some p' /\
    totalUses p' = S (from_option totalUses 0 (performanceOf st T)) /\
    successCount p'
    = from_option successCount 0 (performanceOf st T)
      + (if Outcome_eqb (or_outcome r) success then 1 else 0) /\
    failureCount p'
    = from_option failureCount 0 (performanceOf st T)
      + (if Outcome_eqb (or_outcome r) failure then 1 else 0) /\
    averageRating p'
    = (inject_Z (Z.of_nat (successCount p')) / inject_Z (Z.of_nat (totalUses p')))%Q /\
    lastAnalyzed p' = toISOString (or_now r).
Proof.
  intros Hread Hown (v & Hv & HT).
  unfold recordPromptOutcome, bind, gets. rewrite Hv.
  unfold lift. cbn [readJson]. unfold modify.
  cbn [pv_templateId]. rewrite HT.
  set (st1 := set_versions _ st).
  destruct (updateTemplatePerformance_step st1 T (or_outcome r) (or_now r))
    as (st' & p' & Hrun & Hread' & Hvers & Hperf & Huses & Hsucc & Hfail & Havg & Hlast).
  { exact Hread. }
  { exact Hown. }
  exists st', p'. rewrite Hrun.
  repeat split; try assumption.
  intros versionId (v' & Hv' & HT').
  unfold refersTo. rewrite Hvers. subst st1. cbn [versions set_versions].
  rewrite lookup_insert. case_decide as Heq.
  - eexists. split; [reflexivity |]. cbn [pv_templateId].
    rewrite <- Heq in Hv'. congruence.
  - exists v'. now split.
Qed.

Lemma recordOutcomes_accounting_from (T : string) (reports : list OutcomeReport) :
  inherited T = false ->
  forall st : store,
    performanceReadable st ->
    Forall (fun r => refersTo st T (or_versionId r)) reports ->
    let st' := snd (recordOutcomes reports st) in
    fst (recordOutcomes reports st) = Ok tt /\
    from_option totalUses 0 (performanceOf st' T)
    = from_option totalUses 0 (performanceOf st T) + length reports /\
    from_option successCount 0 (performanceOf st' T)
    = from_option successCount 0 (performanceOf st T) + countOutcome success reports /\
    from_option failureCount 0 (performanceOf st' T)
    = from_option failureCount 0 (performanceOf st T) + countOutcome failure reports /\
    (forall r0, reports <> [] ->
       exists p, performanceOf st' T = Some p /\
         averageRating p
         = (inject_Z (Z.of_nat (successCount p)) / inject_Z (Z.of_nat (totalUses p)))%Q /\
         lastAnalyzed p = toISOString (or_now (List.last reports r0))).
Proof.
  intros Hown. induction reports as [| r reports IH]; intros st Hread Hall.
  - cbn. repeat split; try lia. intros r0 Hne. now contradiction Hne.
  - apply Forall_cons in Hall as [Hr Hall].
    destruct (recordPromptOutcome_step st T r Hread Hown Hr)
      as (st1 & p1 & Hrun & Hread1 & Hkeep & Hperf1 & Huses & Hsucc & Hfail & Havg & Hlast).
    assert (Hall1 : Forall (fun r => refersTo st1 T (or_versionId r)) reports).
    { eapply Forall_impl; [exact Hall |]. intros r'. apply Hkeep. }
    specialize (IH st1 Hread1 Hall1). cbn zeta in IH.
    destruct IH as (IHok & IHuses & IHsucc & IHfail & IHlast).
    cbn [recordOutcomes]. unfold bind. rewrite Hrun.
    rewrite Hperf1 in IHuses, IHsucc, IHfail. cbn [from_option] in IHuses, IHsucc, IHfail.
    unfold countOutcome in *. cbn [List.filter].
    repeat split.
    + exact IHok.
    + rewrite IHuses, Huses. cbn [length]. lia.
    + rewrite IHsucc, Hsucc. destruct (Outcome_eqb (or_outcome r) success); cbn [length]; lia.
    + rewrite IHfail, Hfail. destruct (Outcome_eqb (or_outcome r) failure); cbn [length]; lia.
    + intros r0 _. destruct reports as [| r' reports'].
      * cbn. unfold ret. cbn. exists p1. repeat split; assumption.
      * apply (IHlast r0). discriminate.
Qed.

(** The accounting of the feedback loop, for a template whose id is not
    the name of a member that every object inherits.  Starting from a store
    whose performance file is readable and has no record for the template,
    after N calls of [recordPromptOutcome] that each name a stored version
    of that template (N at least 1), all calls succeed and the template's
    record has [totalUses] = N, [successCount] and [failureCount] equal to
    the numbers of success and failure outcomes, so their sum is at most N
    with partial outcomes in neither; [averageRating] is
    [successCount / totalUses] and [lastAnalyzed] is the time of the last
    call. *)
Theorem recordPromptOutcome_accounting :
  forall (st : store) (templateId : string) (reports : list OutcomeReport) (r0 : OutcomeReport),
    inherited templateId = false ->
    performanceReadable st ->
    performanceOf st templateId = None ->
    Forall (fun r => refersTo st templateId (or_versionId r)) reports ->
    reports <> [] ->
    fst (recordOutcomes reports st) = Ok tt /\
    exists p,
      performanceOf (snd (recordOutcomes reports st)) templateId = Some p /\
      totalUses p = length reports /\
      successCount p = countOutcome success reports /\
      failureCount p = countOutcome failure reports /\
      successCount p + failureCount p + countOutcome partial reports = length reports /\
      successCount p + failureCount p <= length reports /\
      averageRating p
      = (inject_Z (Z.of_nat (successCount p)) / inject_Z (Z.of_nat (totalUses p)))%Q /\
      lastAnalyzed p = toISOString (or_now (List.last reports r0)).
Proof.
  intros st T reports r0 Hown Hread Hfresh Hall Hne.
  destruct (recordOutcomes_accounting_from T reports Hown st Hread Hall)
    as (Hok & Huses & Hsucc & Hfail & Hlast).
  destruct (Hlast r0 Hne) as (p & Hp & Havg & Htime).
  rewrite Hp, Hfresh in Huses, Hsucc, Hfail. cbn [from_option] in Huses, Hsucc, Hfail.
  split; [exact Hok |]. exists p.
  assert (Hsum : countOutcome success reports + countOutcome failure reports
                 + countOutcome partial reports = length reports).
  { clear. unfold countOutcome. induction reports as [| r reports IH]; [reflexivity |].
    cbn [List.filter length]. destruct (or_outcome r); cbn [Outcome_eqb length]; lia. }
  repeat split; try assumption; lia.
Qed.

(** ** Flagging of underperforming templates *)

Lemma Qltb_lt (a b : Q) : Qltb a b = true <-> (a < b)%Q.
Proof.
  unfold Qltb. rewrite negb_true_iff, <- not_true_iff_false, Qle_bool_iff.
  split; [apply Qnot_le_lt | apply Qlt_not_le].
Qed.

(** The filter of the [prompt:optimize] command keeps exactly the records
    rated below 0.7 and used more than 3 times. *)
Lemma underPerforming_spec (performance : list PromptPerformance) (p : PromptPerformance) :
  In p (underPerforming performance)
  <-> In p performance /\ (averageRating p < 7 # 10)%Q /\ 3 < totalUses p.
Proof.
  unfold underPerforming. rewrite filter_In, andb_true_iff, Qltb_lt, Nat.ltb_lt. tauto.
Qed.

(** [optimizePrompts] reports exactly the records rated below 0.7 and used
    more than 5 times. *)
Lemma optimizePrompts_spec (st : store) (performance reported : list PromptPerformance) :
  analyzePromptPerformance st = (Ok performance, st) ->
  optimizePrompts st = (Ok reported, st) ->
  forall p, In p reported
            <-> In p performance /\ (averageRating p < 7 # 10)%Q /\ 5 < totalUses p.
Proof.
  intros Hperf Hrun p. unfold optimizePrompts, bind in Hrun. rewrite Hperf in Hrun.
  destruct (getTemplates st) as [[ts | e] st'] eqn:Hts; [| discriminate].
  unfold ret in Hrun. injection Hrun as <- _.
  rewrite filter_In, andb_true_iff, Qltb_lt, Nat.ltb_lt. tauto.
Qed.

(** ** Template selection *)

Lemma prefix_toLowerCase (p s : string) :
  String.prefix p s = true -> String.prefix (toLowerCase p) (toLowerCase s) = true.
Proof.
  revert s. induction p as [| c p IH]; intros [| d s]; cbn; try easy.
  destruct (ascii_dec c d) as [-> | Hne]; [| discriminate].
  intros Hp. destruct (ascii_dec (lower_char d) (lower_char d)); [auto | congruence].
Qed.

Lemma includes_toLowerCase (p s : string) :
  includes p s = true -> includes (toLowerCase p) (toLowerCase s) = true.
Proof.
  induction s as [| d s IH]; cbn [includes toLowerCase].
  - apply (prefix_toLowerCase p EmptyString).
  - rewrite !orb_true_iff. intros [Hp | Hi].
    + left. apply (prefix_toLowerCase p (String d s) Hp).
    + right. auto.
Qed.

(** C2, as the code has it.  Over the templates read from the directory:
    a title that contains fix or bug in any case selects the first template
    of category bugfix; failing that rule or such a template, a title that
    contains refactor in any case, or an outcome that contains improve in
    lower case, selects the first template of category refactor; failing
    that rule too (no refactor in the title and no improve in the outcome in
    any case) or such a template, the first template of category feature is
    selected, and the call fails when there is none.  A rule whose category
    has no template hands over to the next rule. *)
Theorem selectBestTemplate_first_match :
  forall (st : store) (ticket : Ticket) (ts : list PromptTemplate),
    getTemplates st = (Ok ts, st) ->
    let bug := titleMentions "fix" ticket || titleMentions "bug" ticket in
    (forall t, bug = true -> firstOf bugfix ts = Some t ->
               selectBestTemplate ticket st = (Ok t, st)) /\
    (forall t, bug = false \/ firstOf bugfix ts = None ->
               titleMentions "refactor" ticket = true
               \/ includes "improve" (outcome ticket) = true ->
               firstOf refactor ts = Some t ->
               selectBestTemplate ticket st = (Ok t, st)) /\
    (bug = false \/ firstOf bugfix ts = None ->
     (titleMentions "refactor" ticket = false
      /\ includes "improve" (toLowerCase (outcome ticket)) = false)
     \/ firstOf refactor ts = None ->
     selectBestTemplate ticket st
     = (match firstOf feature ts with
        | Some t => Ok t
        | None => Err (Error "No prompt template found")
        end, st)).
Proof.
  intros st ticket ts Hts bug. subst bug.
  unfold selectBestTemplate, bind, titleMentions, firstOf. rewrite Hts.
  set (fixbug := includes "fix" (toLowerCase (title ticket))
                 || includes "bug" (toLowerCase (title ticket))).
  set (refa := includes "refactor" (toLowerCase (title ticket))).
  set (bugT := find (fun t => Category_eqb (category t) bugfix) ts).
  set (refT := find (fun t => Category_eqb (category t) refactor) ts).
  set (featT := find (fun t => Category_eqb (category t) feature) ts).
  assert (Hcase : includes "improve" (toLowerCase (outcome ticket)) = false ->
                  includes "improve" (outcome ticket) = false).
  { intros Hlow. destruct (includes "improve" (outcome ticket)) eqn:E; [| reflexivity].
    apply includes_toLowerCase in E. cbn [toLowerCase] in E.
    change (includes "improve" (toLowerCase (outcome ticket)) = true) in E. congruence. }
  repeat split.
  - intros t -> ->. reflexivity.
  - intros t Hbug Href ->.
    assert (Hr : refa || includes "improve" (outcome ticket) = true)
      by (apply orb_true_iff; exact Href).
    rewrite Hr. destruct Hbug as [-> | ->]; [reflexivity |].
    destruct fixbug; reflexivity.
  - intros Hbug Href.
    assert (Hfall :
      (if refa || includes "improve" (outcome ticket)
       then match refT with
            | Some template => ret template
            | None => match featT with
                      | Some featureTemplate => ret featureTemplate
                      | None => throw (Error "No prompt template found")
                      end
            end
       else match featT with
            | Some featureTemplate => ret featureTemplate
            | None => throw (Error "No prompt template found")
            end) st
      = (match featT with
         | Some t => Ok t
         | None => Err (Error "No prompt template found")
         end, st)).
    { destruct Href as [[-> Hlow] | ->].
      - rewrite (Hcase Hlow). cbn [orb]. destruct featT; reflexivity.
      - destruct (refa || includes "improve" (outcome ticket)); destruct featT; reflexivity. }
    destruct Hbug as [-> | ->]; [exact Hfall |].
    destruct fixbug; exact Hfall.
Qed.

(** ** Pattern extraction *)

Lemma get_eraseTimes (k : string) (m : OMap.t CodePattern) :
  OMap.get k (eraseTimes m) = withoutLastSeen <$> OMap.get k m.
Proof.
  induction m as [| [k' v] m IH]; cbn; [reflexivity |].
  destruct (String.eqb k k'); [reflexivity | exact IH].
Qed.

Lemma set_eraseTimes (k : string) (v : CodePattern) (m : OMap.t CodePattern) :
  eraseTimes (OMap.set k v m) = OMap.set k (withoutLastSeen v) (eraseTimes m).
Proof.
  induction m as [| [k' v'] m IH]; cbn; [reflexivity |].
  destruct (String.eqb k k'); cbn; [reflexivity |].
  f_equal. exact IH.
Qed.

Lemma values_eraseTimes (m : OMap.t CodePattern) :
  OMap.values (eraseTimes m) = map withoutLastSeen (OMap.values m).
Proof.
  unfold OMap.values, eraseTimes. rewrite !map_map. reflexivity.
Qed.

Lemma recordPattern_eraseTimes (now1 now2 : N) (file k : string) (f1 f2 : CodePattern)
    (m1 m2 : OMap.t CodePattern) :
  eraseTimes m1 = eraseTimes m2 ->
  withoutLastSeen f1 = withoutLastSeen f2 ->
  eraseTimes (recordPattern now1 file k f1 m1) = eraseTimes (recordPattern now2 file k f2 m2).
Proof.
  intros Hm Hf.
  assert (Hg : withoutLastSeen <$> OMap.get k m1 = withoutLastSeen <$> OMap.get k m2)
    by now rewrite <- !get_eraseTimes, Hm.
  unfold recordPattern.
  destruct (OMap.get k m1) as [e1 |], (OMap.get k m2) as [e2 |]; try discriminate;
    rewrite !set_eraseTimes, Hm.
  - f_equal. injection Hg as Hid Hname Hdesc Hex Hfreq Hfiles.
    unfold withoutLastSeen, setLastSeen. cbn. congruence.
  - now rewrite Hf.
Qed.

(** A visit either leaves the registry alone, for a declaration without a
    name, or records the signature with an entry that counts once and does
    not depend on the clock but for its timestamp. *)
Lemma visit_cases (now1 now2 : N) (file : string) (node : Node) :
  (patternIdOf node = None /\
   forall m, visit now1 file node m = m /\ visit now2 file node m = m)
  \/
  (exists k f1 f2,
      patternIdOf node = Some k /\
      (forall m, visit now1 file node m = recordPattern now1 file k f1 m) /\
      (forall m, visit now2 file node m = recordPattern now2 file k f2 m) /\
      withoutLastSeen f1 = withoutLastSeen f2 /\
      cp_id f1 = k /\ cp_frequency f1 = 1).
Proof.
  destruct node as [n | n | n]; cbn [visit patternIdOf].
  - unfold extractFunctionPattern, functionPatternId. destruct (fd_id n).
    + right. eexists _, _, _. split; [reflexivity |].
      split; [intros m; reflexivity |]. split; [intros m; reflexivity |].
      repeat split.
    + left. split; [reflexivity | intros m; split; reflexivity].
  - unfold extractClassPattern. destruct (cd_id n).
    + right. eexists _, _, _. split; [reflexivity |].
      split; [intros m; reflexivity |]. split; [intros m; reflexivity |].
      repeat split.
    + left. split; [reflexivity | intros m; split; reflexivity].
  - unfold extractImportPattern.
    right. eexists _, _, _. split; [reflexivity |].
    split; [intros m; reflexivity |]. split; [intros m; reflexivity |].
    repeat split.
Qed.

Lemma visit_eraseTimes (now1 now2 : N) (file : string) (node : Node)
    (m1 m2 : OMap.t CodePattern) :
  eraseTimes m1 = eraseTimes m2 ->
  eraseTimes (visit now1 file node m1) = eraseTimes (visit now2 file node m2).
Proof.
  intros Hm.
  destruct (visit_cases now1 now2 file node)
    as [[_ Hskip] | (k & f1 & f2 & _ & H1 & H2 & Hf & _)].
  - destruct (Hskip m1) as [-> _]. destruct (Hskip m2) as [_ ->]. exact Hm.
  - rewrite H1, H2. now apply recordPattern_eraseTimes.
Qed.

Lemma traverse_eraseTimes (clock1 clock2 : Clock) (file : string) (ast : list Node) :
  forall acc1 acc2 : OMap.t CodePattern * nat,
    eraseTimes (fst acc1) = eraseTimes (fst acc2) -> snd acc1 = snd acc2 ->
    eraseTimes (fst (traverse clock1 file ast acc1))
    = eraseTimes (fst (traverse clock2 file ast acc2))
    /\ snd (traverse clock1 file ast acc1) = snd (traverse clock2 file ast acc2).
Proof.
  induction ast as [| node ast IH]; intros acc1 acc2 Hm Hn; cbn [traverse].
  - now split.
  - apply IH; cbn [fst snd].
    + now apply visit_eraseTimes.
    + now rewrite Hn.
Qed.

Lemma extractFiles_eraseTimes (clock1 clock2 : Clock) (files : list (string * string)) :
  forall acc1 acc2 : OMap.t CodePattern * nat,
    eraseTimes (fst acc1) = eraseTimes (fst acc2) -> snd acc1 = snd acc2 ->
    eraseTimes (fst (extractFiles clock1 files acc1))
    = eraseTimes (fst (extractFiles clock2 files acc2))
    /\ snd (extractFiles clock1 files acc1) = snd (extractFiles clock2 files acc2).
Proof.
  induction files as [| [file content] files IH]; intros acc1 acc2 Hm Hn; cbn [extractFiles].
  - now split.
  - destruct (parse content) as [ast |].
    + destruct (traverse_eraseTimes clock1 clock2 file ast acc1 acc2 Hm Hn) as [Hm' Hn'].
      now apply IH.
    + now apply IH.
Qed.

Lemma extractPatterns_clock (clock1 clock2 : Clock) (projectRoot : string) (tree : list Entry) :
  map withoutLastSeen (extractPatterns clock1 projectRoot tree)
  = map withoutLastSeen (extractPatterns clock2 projectRoot tree).
Proof.
  unfold extractPatterns. rewrite <- !values_eraseTimes. f_equal.
  now apply extractFiles_eraseTimes.
Qed.

(** ** Fingerprint *)

Lemma sort_Permutation (l1 l2 : list string) : l1 ≡ₚ l2 -> sort l1 = sort l2.
Proof.
  intros Hperm. unfold sort.
  apply (Sorted_unique String.le); try apply Sorted_merge_sort; try apply _.
  now rewrite !merge_sort_Permutation.
Qed.

(** C8. Two builds of one source tree, whatever the clock shows during
    each, extract the same patterns but for the timestamps, in particular the
    same frequency for every signature; the fingerprint is a function of the
    manifest alone, and two manifests whose dependency names and
    development-dependency names are permutations of each other have the
    same fingerprint, the two lists being sorted before they are joined. *)
Theorem build_deterministic :
  forall (clock1 clock2 : Clock) (projectRoot : string) (tree : list Entry)
         (packageJson packageJson' : PackageJson),
    objectKeys (dependencies packageJson) ≡ₚ objectKeys (dependencies packageJson') ->
    objectKeys (devDependencies packageJson) ≡ₚ objectKeys (devDependencies packageJson') ->
    map withoutLastSeen (extractPatterns clock1 projectRoot tree)
    = map withoutLastSeen (extractPatterns clock2 projectRoot tree)
    /\ signatureFrequencies (extractPatterns clock1 projectRoot tree)
       = signatureFrequencies (extractPatterns clock2 projectRoot tree)
    /\ generateCodebaseFingerprint (Some (Json packageJson))
       = generateCodebaseFingerprint (Some (Json packageJson'))
    /\ generateCodebaseFingerprint (Some (Json packageJson))
       = Ok (join "," (sort (objectKeys (dependencies packageJson))) +:+ "|"
             +:+ join "," (sort (objectKeys (devDependencies packageJson)))).
Proof.
  intros clock1 clock2 projectRoot tree packageJson packageJson' Hdeps Hdev.
  pose proof (extractPatterns_clock clock1 clock2 projectRoot tree) as Hpat.
  repeat split.
  - exact Hpat.
  - unfold signatureFrequencies.
    apply (f_equal (map (fun p => (cp_id p, cp_frequency p)))) in Hpat.
    rewrite !map_map in Hpat. exact Hpat.
  - unfold generateCodebaseFingerprint. cbn [readJson].
    now rewrite (sort_Permutation _ _ Hdeps), (sort_Permutation _ _ Hdev).
Qed.

(** ** Frequencies *)

Lemma lacks_dash_string_of_uint (d : Decimal.uint) :
  lacks "-" (NilEmpty.string_of_uint d) = true.
Proof. induction d; cbn; auto. Qed.

Lemma split_at_dash (d1 : string) :
  forall d2 r1 r2 : string,
    lacks "-" d1 = true -> lacks "-" d2 = true ->
    d1 +:+ String "-" r1 = d2 +:+ String "-" r2 -> d1 = d2 /\ r1 = r2.
Proof.
  induction d1 as [| c d1 IH]; intros [| c' d2] r1 r2 H1 H2 Heq; cbn in *.
  - injection Heq as ->. now split.
  - injection Heq as <- _. discriminate.
  - injection Heq as -> _. discriminate.
  - injection Heq as -> Heq.
    apply andb_true_iff in H1 as [_ H1]. apply andb_true_iff in H2 as [_ H2].
    destruct (IH d2 r1 r2 H1 H2 Heq) as [-> ->]. now split.
Qed.

Lemma of_nat_inj (n n' : nat) : of_nat n = of_nat n' -> n = n'.
Proof.
  unfold of_nat. intros Heq.
  apply (f_equal NilEmpty.uint_of_string) in Heq. rewrite !NilEmpty.usu in Heq.
  injection Heq as Heq. now apply Unsigned.to_uint_inj.
Qed.

Lemma functionPatternId_inj (n n' : nat) (a a' : bool) :
  functionPatternId n a = functionPatternId n' a' -> n = n' /\ a = a'.
Proof.
  unfold functionPatternId. intros Heq.
  apply (String.app_inj "function-") in Heq.
  apply split_at_dash in Heq; try apply lacks_dash_string_of_uint.
  destruct Heq as [Hn Ha]. apply of_nat_inj in Hn.
  split; [exact Hn |]. destruct a, a'; try reflexivity; discriminate.
Qed.

Lemma countsAs_function (n : nat) (a : bool) (node : Node) :
  countsAs (functionPatternId n a) node = isNamedFunction n a node.
Proof.
  unfold countsAs.
  destruct node as [f | c | i]; cbn [patternIdOf isNamedFunction].
  - destruct (fd_id f); [| reflexivity].
    destruct (String.eqb_spec (functionPatternId (length (fd_params f)) (fd_async f))
                (functionPatternId n a)) as [Heq | Hne].
    + apply functionPatternId_inj in Heq as [-> ->].
      now rewrite Nat.eqb_refl, eqb_reflx.
    + symmetry. apply not_true_iff_false. intros Htrue.
      apply andb_true_iff in Htrue as [Hn Ha].
      apply Nat.eqb_eq in Hn. apply eqb_prop in Ha. apply Hne. now rewrite Hn, Ha.
  - destruct (cd_id c); [| reflexivity].
    apply String.eqb_neq. unfold functionPatternId. cbn. discriminate.
  - apply String.eqb_neq. unfold functionPatternId. cbn. discriminate.
Qed.

Lemma recordPattern_frequency (now : N) (file k k' : string) (fresh : CodePattern)
    (m : OMap.t CodePattern) :
  cp_frequency fresh = 1 ->
  registryFrequency k' (recordPattern now file k fresh m)
  = registryFrequency k' m + (if String.eqb k k' then 1 else 0).
Proof.
  intros Hone. unfold registryFrequency, recordPattern.
  destruct (String.eqb_spec k k') as [<- | Hne].
  - destruct (OMap.get k m) as [e |]; rewrite OMap_get_set_eq; cbn; lia.
  - destruct (OMap.get k m) as [e |]; rewrite (OMap_get_set_ne _ _ _ _ Hne); lia.
Qed.

Lemma visit_frequency (now : N) (file k : string) (node : Node) (m : OMap.t CodePattern) :
  registryFrequency k (visit now file node m)
  = registryFrequency k m + (if countsAs k node then 1 else 0).
Proof.
  unfold countsAs.
  destruct (visit_cases now now file node)
    as [[-> Hskip] | (k0 & f1 & f2 & -> & H1 & _ & _ & _ & Hone)].
  - destruct (Hskip m) as [-> _]. lia.
  - rewrite H1. now apply recordPattern_frequency.
Qed.

Lemma traverse_frequency (clock : Clock) (file k : string) (ast : list Node) :
  forall acc : OMap.t CodePattern * nat,
    registryFrequency k (fst (traverse clock file ast acc))
    = registryFrequency k (fst acc) + length (List.filter (countsAs k) ast).
Proof.
  induction ast as [| node ast IH]; intros acc; cbn [traverse List.filter].
  - cbn. lia.
  - rewrite IH. cbn [fst snd]. rewrite visit_frequency.
    destruct (countsAs k node); cbn [length]; lia.
Qed.

Lemma extractFiles_frequency (clock : Clock) (k : string) (files : list (string * string)) :
  forall acc : OMap.t CodePattern * nat,
    registryFrequency k (fst (extractFiles clock files acc))
    = registryFrequency k (fst acc)
      + length (List.filter (countsAs k) (declarationsOf files)).
Proof.
  induction files as [| [file content] files IH]; intros acc;
    cbn [extractFiles declarationsOf flat_map snd].
  - cbn. lia.
  - fold (declarationsOf files). rewrite List.filter_app, length_app.
    destruct (parse content) as [ast |]; rewrite IH; cbn [default from_option id].
    + rewrite traverse_frequency. lia.
    + cbn. lia.
Qed.

Lemma wellKeyed_set (k : string) (v : CodePattern) (m : OMap.t CodePattern) :
  wellKeyed m -> cp_id v = k -> wellKeyed (OMap.set k v m).
Proof.
  unfold wellKeyed. intros Hm Hv.
  induction m as [| [k' v'] m IH]; cbn.
  - now repeat constructor.
  - apply Forall_cons in Hm as [Hhd Htl].
    destruct (String.eqb_spec k k') as [-> | Hne]; constructor; auto.
Qed.

Lemma wellKeyed_get (k : string) (e : CodePattern) (m : OMap.t CodePattern) :
  wellKeyed m -> OMap.get k m = Some e -> cp_id e = k.
Proof.
  unfold wellKeyed. induction m as [| [k' v'] m IH]; cbn; [discriminate |].
  intros Hm Hget. apply Forall_cons in Hm as [Hhd Htl]. cbn in Hhd.
  destruct (String.eqb_spec k k') as [-> | Hne]; [congruence | auto].
Qed.

Lemma wellKeyed_visit (now : N) (file : string) (node : Node) (m : OMap.t CodePattern) :
  wellKeyed m -> wellKeyed (visit now file node m).
Proof.
  intros Hm.
  destruct (visit_cases now now file node)
    as [[_ Hskip] | (k & f1 & f2 & _ & H1 & _ & _ & Hid & _)].
  - now destruct (Hskip m) as [-> _].
  - rewrite H1. unfold recordPattern.
    destruct (OMap.get k m) as [e |] eqn:Hget; apply wellKeyed_set; auto.
    cbn. now apply (wellKeyed_get k e m).
Qed.

Lemma wellKeyed_traverse (clock : Clock) (file : string) (ast : list Node) :
  forall acc : OMap.t CodePattern * nat,
    wellKeyed (fst acc) -> wellKeyed (fst (traverse clock file ast acc)).
Proof.
  induction ast as [| node ast IH]; intros acc Hacc; cbn [traverse]; [exact Hacc |].
  apply IH. cbn [fst]. now apply wellKeyed_visit.
Qed.

Lemma wellKeyed_extractFiles (clock : Clock) (files : list (string * string)) :
  forall acc : OMap.t CodePattern * nat,
    wellKeyed (fst acc) -> wellKeyed (fst (extractFiles clock files acc)).
Proof.
  induction files as [| [file content] files IH]; intros acc Hacc; cbn [extractFiles];
    [exact Hacc |].
  destruct (parse content) as [ast |]; apply IH; [| exact Hacc].
  now apply wellKeyed_traverse.
Qed.

Lemma frequencyOf_values (k : string) (m : OMap.t CodePattern) :
  wellKeyed m -> frequencyOf k (OMap.values m) = registryFrequency k m.
Proof.
  unfold wellKeyed, frequencyOf, registryFrequency, OMap.values.
  induction m as [| [k' v'] m IH]; cbn; [reflexivity |].
  intros Hm. apply Forall_cons in Hm as [Hhd Htl]. cbn in Hhd. rewrite Hhd.
  rewrite (String.eqb_sym k' k). destruct (String.eqb k k'); [reflexivity | auto].
Qed.

(** In every build the frequency recorded for a signature is the number of
    visited declarations that are counted under it. *)
Lemma frequencyOf_extractPatterns (clock : Clock) (projectRoot patternId : string)
    (tree : list Entry) :
  frequencyOf patternId (extractPatterns clock projectRoot tree)
  = length (List.filter (countsAs patternId)
              (declarationsOf (getSourceFiles projectRoot tree))).
Proof.
  unfold extractPatterns.
  rewrite frequencyOf_values by (apply wellKeyed_extractFiles; constructor).
  rewrite extractFiles_frequency. cbn [fst]. unfold registryFrequency at 1.
  cbn [OMap.get from_option]. apply Nat.add_0_l.
Qed.

(** C6, as the code has it.  In every build, the frequency recorded for a
    signature (0 when it has no entry) is the number of declarations counted
    under that signature among the declarations of the source files that
    parse, where a function or class declaration without a name is counted
    under no signature.  For functions: the frequency of the signature of
    functions with n parameters of a given synchrony is the number of
    function declarations that carry a name, have n parameters and that
    synchrony. *)
Theorem function_frequency_counts_named :
  forall (clock : Clock) (projectRoot : string) (tree : list Entry),
    (forall patternId : string,
        frequencyOf patternId (extractPatterns clock projectRoot tree)
        = length (List.filter (countsAs patternId)
                    (declarationsOf (getSourceFiles projectRoot tree))))
    /\
    (forall (n : nat) (isAsync : bool),
        frequencyOf
          ("function-" +:+ of_nat n +:+ "-params-" +:+ (if isAsync then "async" else "sync"))
          (extractPatterns clock projectRoot tree)
        = length (List.filter (isNamedFunction n isAsync)
                    (declarationsOf (getSourceFiles projectRoot tree)))).
Proof.
  intros clock projectRoot tree. split.
  - intros patternId. apply frequencyOf_extractPatterns.
  - intros n isAsync.
    change ("function-" +:+ of_nat n +:+ "-params-" +:+ (if isAsync then "async" else "sync"))
      with (functionPatternId n isAsync).
    rewrite frequencyOf_extractPatterns.
    f_equal. apply filter_ext. intros node. apply countsAs_function.
Qed.

(** ** Placeholder resolution *)

#[local] Arguments String.append !_ _ / : simpl nomatch.

Lemma string_app_assoc (a b c : string) : (a +:+ b) +:+ c = a +:+ (b +:+ c).
Proof. induction a as [| x a IH]; cbn [String.append]; congruence. Qed.

Lemma lacks_app (c : ascii) (a b : string) : lacks c (a +:+ b) = lacks c a && lacks c b.
Proof.
  induction a as [| x a IH]; cbn [String.append lacks]; [reflexivity |].
  now rewrite IH, andb_assoc.
Qed.

Lemma lacks_head (c d : ascii) (s : string) : lacks c (String d s) = true -> d <> c.
Proof.
  cbn [lacks]. intros Hl Heq. subst d. now rewrite Ascii.eqb_refl in Hl.
Qed.

Lemma lacks_calm (s : string) : lacks "{" s = true -> calm s = true.
Proof.
  induction s as [| c s IH]; [reflexivity |].
  cbn [lacks calm]. intros Hl. apply andb_true_iff in Hl as [Hc Hs].
  apply negb_true_iff in Hc. rewrite Hc. now apply IH.
Qed.

Lemma calm_app (a b : string) : calm a = true -> calm b = true -> calm (a +:+ b) = true.
Proof.
  induction a as [| c a IH]; intros Ha Hb; [exact Hb |].
  cbn [calm] in Ha. apply andb_true_iff in Ha as [Hc Ha].
  cbn [String.append calm]. rewrite (IH Ha Hb), andb_true_r.
  destruct (Ascii.eqb c "{"); [| reflexivity].
  destruct a as [| d a']; [discriminate | exact Hc].
Qed.

Lemma calm_includes (s : string) : calm s = true -> includes "{{" s = false.
Proof.
  induction s as [| c s IH]; [reflexivity |].
  cbn [calm includes]. intros Hs. apply andb_true_iff in Hs as [Hc Hs].
  rewrite (IH Hs), orb_false_r. cbn [String.prefix].
  destruct (ascii_dec "{" c) as [<- |]; [| reflexivity].
  cbn in Hc. destruct s as [| d s']; [reflexivity |].
  cbn [String.prefix].
  destruct (ascii_dec "{" d) as [<- |]; [discriminate | reflexivity].
Qed.

Lemma getSubstitution_plain (matched before after repl : string) :
  literal repl = true -> getSubstitution matched before after repl = repl.
Proof.
  induction repl as [| c r IH]; [reflexivity |].
  intros Hl. cbn [literal] in Hl. apply andb_true_iff in Hl as [Hc Hr].
  assert (Hstep : getSubstitution matched before after (String c r)
                  = String c (getSubstitution matched before after r)).
  { destruct c as [[] [] [] [] [] [] [] []]; try reflexivity.
    destruct r as [| d r']; [reflexivity |].
    destruct d as [[] [] [] [] [] [] [] []]; try reflexivity; discriminate Hc. }
  rewrite Hstep. f_equal. now apply IH.
Qed.

Section Replace.

Variables pat v : string.
Hypothesis v_plain : literal v = true.

Lemma replace_from_before (s : string) :
  forall (k : nat) (b1 b2 : string),
    replace_from pat v k b1 s = replace_from pat v k b2 s.
Proof.
  induction s as [| c s IH]; intros k b1 b2; cbn [replace_from]; [reflexivity |].
  destruct k; [| apply IH].
  destruct (String.prefix pat (String c s)).
  - rewrite !(getSubstitution_plain _ _ _ _ v_plain). f_equal. apply IH.
  - f_equal. apply IH.
Qed.

Lemma replace_from_step (b : string) (c : ascii) (s : string) :
  replace_from pat v 0 b (String c s)
  = if String.prefix pat (String c s)
    then v +:+ replace_from pat v (String.length pat - 1) b s
    else String c (replace_from pat v 0 b s).
Proof.
  cbn [replace_from]. destruct (String.prefix pat (String c s)).
  - rewrite (getSubstitution_plain _ _ _ _ v_plain). f_equal. apply replace_from_before.
  - f_equal. apply replace_from_before.
Qed.

Lemma replace_from_skip (p : string) :
  forall rest b : string,
    replace_from pat v (String.length p) b (p +:+ rest) = replace_from pat v 0 b rest.
Proof.
  induction p as [| c p IH]; intros rest b; [reflexivity |].
  cbn [String.length String.append replace_from]. rewrite IH. apply replace_from_before.
Qed.

End Replace.

Lemma prefix_app_self (p rest : string) : String.prefix p (p +:+ rest) = true.
Proof.
  induction p as [| c p IH]; [now destruct rest |].
  cbn [String.append String.prefix]. destruct (ascii_dec c c); [exact IH | congruence].
Qed.

Lemma prefix_other_head (c d : ascii) (p s : string) :
  d <> c -> String.prefix (String c p) (String d s) = false.
Proof.
  intros Hne. cbn [String.prefix]. destruct (ascii_dec c d); [congruence | reflexivity].
Qed.

Lemma prefix_key (K : string) :
  forall n rest : string,
    lacks "}" K = true -> lacks "}" n = true ->
    String.prefix (K +:+ "}}") (n +:+ "}}" +:+ rest) = true -> K = n.
Proof.
  induction K as [| c K IH]; intros [| d n] rest HK Hn Hp.
  - reflexivity.
  - apply lacks_head in Hn. cbn [String.append String.prefix] in Hp.
    destruct (ascii_dec "}" d); [congruence | discriminate].
  - apply lacks_head in HK. cbn [String.append String.prefix] in Hp.
    destruct (ascii_dec c "}"); [congruence | discriminate].
  - cbn [lacks] in HK, Hn. apply andb_true_iff in HK as [_ HK]. apply andb_true_iff in Hn as [_ Hn].
    cbn [String.append String.prefix] in Hp. destruct (ascii_dec c d) as [-> |]; [| discriminate].
    f_equal. now apply (IH n rest).
Qed.

Section ReplaceVariable.

Variables K v : string.
Hypothesis v_plain : literal v = true.
Hypothesis K_closed : lacks "}" K = true.

Lemma replace_text (t : string) :
  forall rest b : string,
    calm t = true ->
    replace_from (placeholder K) v 0 b (t +:+ rest) = t +:+ replace_from (placeholder K) v 0 b rest.
Proof.
  induction t as [| c t IH]; intros rest b Ht; [reflexivity |].
  cbn [calm] in Ht. apply andb_true_iff in Ht as [Hc Ht].
  cbn [String.append]. rewrite (replace_from_step (placeholder K) v v_plain).
  assert (Hno : String.prefix (placeholder K) (String c (t +:+ rest)) = false).
  { unfold placeholder. cbn [String.append String.prefix].
    destruct (ascii_dec "{" c) as [<- |]; [| reflexivity].
    cbn in Hc. destruct t as [| d t']; [discriminate |].
    cbn [String.append String.prefix].
    destruct (ascii_dec "{" d) as [<- |]; [discriminate | reflexivity]. }
  rewrite Hno. f_equal. now apply IH.
Qed.

Lemma replace_match (rest b : string) :
  replace_from (placeholder K) v 0 b ((placeholder K) +:+ rest) = v +:+ replace_from (placeholder K) v 0 b rest.
Proof.
  assert (Hlen : String.length (placeholder K) - 1 = String.length (String "{" (K +:+ "}}")))
    by (unfold placeholder; cbn [String.append String.length]; lia).
  assert (Hstr : (placeholder K) +:+ rest = String "{" (String "{" (K +:+ "}}") +:+ rest))
    by reflexivity.
  pose proof (prefix_app_self (placeholder K) rest) as Hpre.
  rewrite Hstr in *.
  rewrite (replace_from_step (placeholder K) v v_plain), Hpre, Hlen. f_equal.
  apply (replace_from_skip (placeholder K) v v_plain).
Qed.

Lemma replace_other_hole (n rest b : string) :
  lacks "{" n = true -> lacks "}" n = true -> n <> K ->
  replace_from (placeholder K) v 0 b ("{{" +:+ n +:+ "}}" +:+ rest)
  = "{{" +:+ n +:+ "}}" +:+ replace_from (placeholder K) v 0 b rest.
Proof.
  intros Hopen Hclose Hne.
  change ("{{" +:+ n +:+ "}}" +:+ rest) with (String "{" (String "{" (n +:+ "}}" +:+ rest))).
  change ("{{" +:+ n +:+ "}}" +:+ replace_from (placeholder K) v 0 b rest)
    with (String "{" (String "{" (n +:+ "}}" +:+ replace_from (placeholder K) v 0 b rest))).
  assert (H0 : String.prefix (placeholder K) (String "{" (String "{" (n +:+ "}}" +:+ rest))) = false).
  { apply not_true_iff_false. intros Hp. apply Hne. symmetry.
    apply (prefix_key K n rest K_closed Hclose).
    unfold placeholder in Hp. cbn [String.append String.prefix] in Hp.
    do 2 (destruct (ascii_dec "{" "{") as [_ |]; [| congruence]). exact Hp. }
  assert (H1 : String.prefix (placeholder K) (String "{" (n +:+ "}}" +:+ rest)) = false).
  { unfold placeholder. cbn [String.append String.prefix].
    destruct (ascii_dec "{" "{") as [_ |]; [| congruence].
    destruct n as [| d n']; cbn [String.append String.prefix].
    - destruct (ascii_dec "{" "}"); [discriminate | reflexivity].
    - apply lacks_head in Hopen. destruct (ascii_dec "{" d); [congruence | reflexivity]. }
  rewrite (replace_from_step (placeholder K) v v_plain), H0. f_equal.
  rewrite (replace_from_step (placeholder K) v v_plain), H1. f_equal.
  rewrite <- string_app_assoc, replace_text.
  - now rewrite string_app_assoc.
  - apply lacks_calm. rewrite lacks_app, Hopen. reflexivity.
Qed.

Lemma replaceAll_render (segments : list Segment) :
  forallb wellFormed segments = true ->
  replaceAll (placeholder K) v (render segments) = render (map (resolveOne K v) segments).
Proof.
  unfold replaceAll. generalize EmptyString as b.
  induction segments as [| [t | n] segments IH]; intros b Hwf; [reflexivity | |];
    cbn [forallb wellFormed] in Hwf; apply andb_true_iff in Hwf as [Hseg Hwf];
    cbn [render map resolveOne].
  - rewrite replace_text by exact Hseg. f_equal. now apply IH.
  - apply andb_true_iff in Hseg as [Hopen Hclose].
    destruct (String.eqb_spec n K) as [-> | Hne]; cbn [render].
    + change ("{{" +:+ K +:+ "}}" +:+ render segments) with
        (String "{" (String "{" (K +:+ "}}" +:+ render segments))).
      replace (String "{" (String "{" (K +:+ "}}" +:+ render segments)))
        with ((placeholder K) +:+ render segments)
        by (unfold placeholder; cbn [String.append]; now rewrite string_app_assoc).
      rewrite replace_match. f_equal. now apply IH.
    + rewrite replace_other_hole by assumption.
      now rewrite IH.
Qed.

End ReplaceVariable.

(** A placeholder that the body does not have: nothing matches, and the
    replacement text is not looked at. *)
Section ReplaceAbsent.

Variables K v : string.
Hypothesis K_closed : lacks "}" K = true.

Lemma replace_text_any (t : string) :
  forall rest b : string,
    calm t = true ->
    exists b',
      replace_from (placeholder K) v 0 b (t +:+ rest)
      = t +:+ replace_from (placeholder K) v 0 b' rest.
Proof.
  induction t as [| c t IH]; intros rest b Ht; [now exists b |].
  cbn [calm] in Ht. apply andb_true_iff in Ht as [Hc Ht].
  assert (Hno : String.prefix (placeholder K) (String c (t +:+ rest)) = false).
  { unfold placeholder. cbn [String.append String.prefix].
    destruct (ascii_dec "{" c) as [<- |]; [| reflexivity].
    cbn in Hc. destruct t as [| d t']; [discriminate |].
    cbn [String.append String.prefix].
    destruct (ascii_dec "{" d) as [<- |]; [discriminate | reflexivity]. }
  destruct (IH rest (String c b) Ht) as [b' Hrest]. exists b'.
  cbn [String.append replace_from]. now rewrite Hno, Hrest.
Qed.

Lemma replace_other_hole_any (n rest b : string) :
  lacks "{" n = true -> lacks "}" n = true -> n <> K ->
  exists b',
    replace_from (placeholder K) v 0 b ("{{" +:+ n +:+ "}}" +:+ rest)
    = "{{" +:+ n +:+ "}}" +:+ replace_from (placeholder K) v 0 b' rest.
Proof.
  intros Hopen Hclose Hne.
  assert (H0 : String.prefix (placeholder K) (String "{" (String "{" (n +:+ "}}" +:+ rest))) = false).
  { apply not_true_iff_false. intros Hp. apply Hne. symmetry.
    apply (prefix_key K n rest K_closed Hclose).
    unfold placeholder in Hp. cbn [String.append String.prefix] in Hp.
    do 2 (destruct (ascii_dec "{" "{") as [_ |]; [| congruence]). exact Hp. }
  assert (H1 : String.prefix (placeholder K) (String "{" (n +:+ "}}" +:+ rest)) = false).
  { unfold placeholder. cbn [String.append String.prefix].
    destruct (ascii_dec "{" "{") as [_ |]; [| congruence].
    destruct n as [| d n']; cbn [String.append String.prefix].
    - destruct (ascii_dec "{" "}"); [discriminate | reflexivity].
    - apply lacks_head in Hopen. destruct (ascii_dec "{" d); [congruence | reflexivity]. }
  assert (Hcalm : calm (n +:+ "}}") = true)
    by (apply lacks_calm; rewrite lacks_app, Hopen; reflexivity).
  destruct (replace_text_any (n +:+ "}}") rest (String "{" (String "{" b)) Hcalm)
    as [b' Hrest].
  exists b'.
  change ("{{" +:+ n +:+ "}}" +:+ rest) with (String "{" (String "{" (n +:+ "}}" +:+ rest))).
  cbn [replace_from]. rewrite H0. cbn [replace_from]. rewrite H1.
  rewrite <- string_app_assoc, Hrest, string_app_assoc. reflexivity.
Qed.

Lemma replaceAll_absent (segments : list Segment) :
  forallb wellFormed segments = true ->
  mentions K segments = false ->
  forall b, replace_from (placeholder K) v 0 b (render segments) = render segments.
Proof.
  induction segments as [| [t | n] segments IH]; intros Hwf Habsent b; [reflexivity | |];
    cbn [forallb wellFormed] in Hwf; apply andb_true_iff in Hwf as [Hseg Hwf];
    cbn [mentions existsb] in Habsent; cbn [render].
  - destruct (replace_text_any t (render segments) b Hseg) as [b' ->].
    f_equal. now apply IH.
  - apply orb_false_iff in Habsent as [Hn Habsent].
    apply andb_true_iff in Hseg as [Hopen Hclose].
    assert (Hne : n <> K) by (intros ->; rewrite String.eqb_refl in Hn; discriminate).
    destruct (replace_other_hole_any n (render segments) b Hopen Hclose Hne) as [b' ->].
    do 3 f_equal. now apply IH.
Qed.

End ReplaceAbsent.

Lemma or_else_plain (value : string) :
  plainValue value = true ->
  calm (or_else value "Not specified") = true
  /\ literal (or_else value "Not specified") = true.
Proof.
  intros Hv. apply andb_true_iff in Hv as [Hcalm Hdollar].
  destruct value; [split; reflexivity | now split].
Qed.

Lemma wellFormed_resolveOne (K v : string) (segments : list Segment) :
  calm v = true ->
  forallb wellFormed segments = true ->
  forallb wellFormed (map (resolveOne K v) segments) = true.
Proof.
  intros Hv. induction segments as [| [t | n] segments IH]; cbn [map forallb resolveOne];
    [reflexivity | |]; intros Hwf; apply andb_true_iff in Hwf as [Hseg Hwf].
  - now rewrite Hseg, IH.
  - destruct (String.eqb n K); [cbn [wellFormed]; now rewrite Hv, IH | now rewrite Hseg, IH].
Qed.

Lemma resolve_cons (K v : string) (table : list (string * string)) (segment : Segment) :
  resolve table (resolveOne K (or_else v "Not specified") segment)
  = resolve ((K, v) :: table) segment.
Proof.
  destruct segment as [t | n]; cbn [resolveOne resolve OMap.get]; [reflexivity |].
  destruct (String.eqb n K); reflexivity.
Qed.

Lemma plainTokens_head (K v : string) (table : list (string * string))
    (segments : list Segment) :
  plainTokens ((K, v) :: table) segments = true ->
  mentions K segments = true ->
  plainValue v = true.
Proof.
  induction segments as [| [t | n] segments IH]; cbn [plainTokens forallb mentions existsb];
    [discriminate | exact IH |].
  intros Hplain Hm. apply andb_true_iff in Hplain as [Hn Hplain].
  cbn [OMap.get] in Hn. destruct (String.eqb n K); [exact Hn | now apply IH].
Qed.

Lemma plainTokens_resolved (K v v' : string) (table : list (string * string))
    (segments : list Segment) :
  plainTokens ((K, v) :: table) segments = true ->
  plainTokens table (map (resolveOne K v') segments) = true.
Proof.
  induction segments as [| [t | n] segments IH];
    cbn [plainTokens forallb map resolveOne]; [reflexivity | exact IH |].
  intros Hplain. apply andb_true_iff in Hplain as [Hn Hplain].
  cbn [OMap.get] in Hn.
  destruct (String.eqb n K); cbn [forallb]; [now apply IH |].
  apply andb_true_iff. split; [exact Hn | now apply IH].
Qed.

Lemma plainTokens_absent (K v : string) (table : list (string * string))
    (segments : list Segment) :
  mentions K segments = false ->
  plainTokens ((K, v) :: table) segments = plainTokens table segments
  /\ map (resolve ((K, v) :: table)) segments = map (resolve table) segments.
Proof.
  induction segments as [| [t | n] segments IH];
    cbn [plainTokens forallb mentions existsb map resolve]; [now split | |].
  - intros Habsent. destruct (IH Habsent) as [Hp Hr]. split; [exact Hp | now rewrite Hr].
  - intros Habsent. apply orb_false_iff in Habsent as [Hn Habsent].
    destruct (IH Habsent) as [Hp Hr]. cbn [OMap.get]. rewrite Hn.
    split; [now f_equal | now rewrite Hr].
Qed.

Lemma plainValues_plainTokens (table : list (string * string)) (segments : list Segment) :
  plainValues table = true -> plainTokens table segments = true.
Proof.
  intros Hplain. unfold plainTokens. apply forallb_forall. intros [t | n] _; [reflexivity |].
  destruct (OMap.get n table) as [value |] eqn:Hget; [| reflexivity]. cbn [from_option].
  clear - Hplain Hget. induction table as [| [K v] table IHt]; [discriminate |].
  cbn [plainValues forallb snd] in Hplain. apply andb_true_iff in Hplain as [Hv Hplain].
  cbn [OMap.get] in Hget. destruct (String.eqb n K); [congruence | auto].
Qed.

(** The loop of [fillTemplate] on a well-formed body is the resolution of
    its placeholders against the table. *)
Lemma fillWith_render (table : list (string * string)) :
  forall segments : list Segment,
    plainTokens table segments = true ->
    forallb (fun entry => lacks "}" (fst entry)) table = true ->
    forallb wellFormed segments = true ->
    fillWith table (render segments) = render (map (resolve table) segments).
Proof.
  unfold fillWith.
  induction table as [| [K v] table IH]; intros segments Hplain Hkeys Hwf.
  - cbn [fold_left]. f_equal. clear.
    induction segments as [| [t | n] segments IHs]; [reflexivity | |]; cbn; now rewrite <- IHs.
  - cbn [forallb fst] in Hkeys. apply andb_true_iff in Hkeys as [HK Hkeys].
    cbn [fold_left replaceVariable].
    destruct (mentions K segments) eqn:Hm.
    + pose proof (plainTokens_head K v table segments Hplain Hm) as Hv.
      destruct (or_else_plain v Hv) as [Hcalm Hdollar].
      rewrite (replaceAll_render K _ Hdollar HK segments Hwf).
      rewrite IH; [| now apply (plainTokens_resolved K v) | exact Hkeys
                   | now apply wellFormed_resolveOne].
      rewrite map_map. f_equal. apply map_ext. intros segment. apply resolve_cons.
    + unfold replaceAll. rewrite (replaceAll_absent K _ HK segments Hwf Hm).
      destruct (plainTokens_absent K v table segments Hm) as [Hp Hr].
      rewrite Hr. apply IH; [now rewrite <- Hp | exact Hkeys | exact Hwf].
Qed.

Lemma calm_resolved (table : list (string * string)) (segments : list Segment) :
  plainTokens table segments = true ->
  forallb wellFormed segments = true ->
  forallb (isKnownHole table) segments = true ->
  calm (render (map (resolve table) segments)) = true.
Proof.
  induction segments as [| [t | n] segments IH];
    cbn [plainTokens forallb map render resolve wellFormed isKnownHole]; [reflexivity | |];
    intros Hplain Hwf Hknown; apply andb_true_iff in Hwf as [Hseg Hwf];
    apply andb_true_iff in Hknown as [Hn Hknown].
  - apply calm_app; auto.
  - apply andb_true_iff in Hplain as [Hv Hplain].
    unfold OMap.has in Hn. destruct (OMap.get n table) as [value |] eqn:Hget; [| discriminate].
    cbn [render]. apply calm_app; [| now apply IH].
    cbn [from_option] in Hv. now destruct (or_else_plain value Hv).
Qed.

Lemma replacements_keys_closed (data : TemplateData) :
  forallb (fun entry => lacks "}" (fst entry)) (replacements data) = true.
Proof. reflexivity. Qed.

(** For the three seed templates the emitted text has no placeholder left,
    whatever the ticket and the context, as long as the values of the table
    are plain. *)
Lemma fillTemplate_seeds_total (template : PromptTemplate) (data : TemplateData) :
  In template getDefaultTemplates ->
  plainValues (replacements data) = true ->
  includes "{{" (fillTemplate template data) = false.
Proof.
  intros Hin Hplain. apply calm_includes. unfold fillTemplate.
  assert (Hseg : exists segments,
             pt_template template = render segments
             /\ forallb wellFormed segments = true
             /\ forallb (isKnownHole (replacements data)) segments = true).
  { destruct Hin as [<- | [<- | [<- | []]]];
      match goal with
      | |- context [pt_template ?t] => exists (tokenize (pt_template t))
      end; repeat split; vm_compute; reflexivity. }
  destruct Hseg as (segments & -> & Hwf & Hknown).
  pose proof (plainValues_plainTokens _ segments Hplain) as Htokens.
  rewrite fillWith_render by (auto using replacements_keys_closed).
  now apply calm_resolved.
Qed.

(** C1, as the code has it.  Take a template body cut into [{{NAME}}]
    tokens whose names have no brace and pieces of text in which no opening
    brace is followed by another or ends the piece, and let the values that
    the table gives to the tokens of the body be plain: no opening brace of
    a value is followed by another or ends it, and a value holds none of the
    replacement patterns [$$], [$&], [$`], [$'] (other dollar signs are
    allowed, and the values of keys that the body does not use are free).
    Then [fillTemplate] returns the body in which every token whose name is
    one of the keys of the replacement table is replaced by its value, or by
    [Not specified] when that value is empty, and every other token is left
    as it stands; so the text has no [{{] left when every token of the body
    is a key of the table. *)
Theorem fillTemplate_resolves_known_placeholders :
  forall (template : PromptTemplate) (data : TemplateData) (segments : list Segment),
    pt_template template = render segments ->
    forallb wellFormed segments = true ->
    plainTokens (replacements data) segments = true ->
    fillTemplate template data = render (map (resolve (replacements data)) segments)
    /\ (forallb (isKnownHole (replacements data)) segments = true ->
        includes "{{" (fillTemplate template data) = false).
Proof.
  intros template data segments Hbody Hwf Hplain.
  assert (Hfill : fillTemplate template data
                  = render (map (resolve (replacements data)) segments)).
  { unfold fillTemplate. rewrite Hbody.
    apply fillWith_render; auto using replacements_keys_closed. }
  split; [exact Hfill |].
  intros Hknown. rewrite Hfill. apply calm_includes. now apply calm_resolved.
Qed.

(** * Further properties of the code *)

(** ** The registry of patterns *)

Lemma classPatternId_inj (a b : nat) :
  "class-" +:+ of_nat a +:+ "-methods" = "class-" +:+ of_nat b +:+ "-methods" -> a = b.
Proof.
  intros Heq. apply (String.app_inj "class-") in Heq.
  apply (split_at_dash (of_nat a) (of_nat b) "methods" "methods") in Heq;
    try apply lacks_dash_string_of_uint.
  now apply of_nat_inj.
Qed.

Lemma countsAs_class (n : nat) (node : Node) :
  countsAs ("class-" +:+ of_nat n +:+ "-methods") node = isNamedClass n node.
Proof.
  unfold countsAs. destruct node as [f | c | i]; cbn [patternIdOf isNamedClass].
  - destruct (fd_id f); [| reflexivity].
    apply String.eqb_neq. unfold functionPatternId. cbn. discriminate.
  - destruct (cd_id c); [| reflexivity].
    destruct (String.eqb_spec
                ("class-"
                 +:+ of_nat (length (List.filter (isMethodOfKind kind_method) (cd_body c)))
                 +:+ "-methods")
                ("class-" +:+ of_nat n +:+ "-methods")) as [Heq | Hne].
    + apply classPatternId_inj in Heq. rewrite Heq. symmetry. apply Nat.eqb_refl.
    + symmetry. apply Nat.eqb_neq. intros Heq. apply Hne. now rewrite Heq.
  - apply String.eqb_neq. cbn. discriminate.
Qed.

Lemma importPatternId_inj (r r' : bool) (k k' : nat) :
  "import-" +:+ (if r then "relative" else "package") +:+ "-" +:+ of_nat k
  = "import-" +:+ (if r' then "relative" else "package") +:+ "-" +:+ of_nat k' ->
  r = r' /\ k = k'.
Proof.
  intros Heq. apply (String.app_inj "import-") in Heq.
  destruct r, r'; try (cbn in Heq; discriminate).
  - apply (String.app_inj "relative") in Heq. apply (String.app_inj "-") in Heq.
    split; [reflexivity | now apply of_nat_inj].
  - apply (String.app_inj "package") in Heq. apply (String.app_inj "-") in Heq.
    split; [reflexivity | now apply of_nat_inj].
Qed.

Lemma countsAs_import (r : bool) (k : nat) (node : Node) :
  countsAs ("import-" +:+ (if r then "relative" else "package") +:+ "-" +:+ of_nat k) node
  = isImport r k node.
Proof.
  unfold countsAs. destruct node as [f | c | i]; cbn [patternIdOf isImport].
  - destruct (fd_id f); [| reflexivity].
    apply String.eqb_neq. unfold functionPatternId. cbn. discriminate.
  - destruct (cd_id c); [| reflexivity].
    apply String.eqb_neq. cbn. discriminate.
  - set (rel := startsWith (id_source i) "./" || startsWith (id_source i) "../").
    destruct (String.eqb_spec
                ("import-" +:+ (if rel then "relative" else "package") +:+ "-"
                 +:+ of_nat (length (id_specifiers i)))
                ("import-" +:+ (if r then "relative" else "package") +:+ "-" +:+ of_nat k))
      as [Heq | Hne].
    + apply importPatternId_inj in Heq as [-> ->].
      now rewrite eqb_reflx, Nat.eqb_refl.
    + symmetry. apply not_true_iff_false. intros Htrue.
      apply andb_true_iff in Htrue as [Hr Hk].
      apply eqb_prop in Hr. apply Nat.eqb_eq in Hk. apply Hne. now rewrite Hr, Hk.
Qed.

(** X1. In every build the frequency recorded for the signature of classes
    with n methods is the number of class declarations, in the source files
    that parse, that carry a name and have n members that are plain methods
    (constructors, getters and setters are not counted as methods). *)
Theorem class_frequency_counts_named :
  forall (clock : Clock) (projectRoot : string) (tree : list Entry) (n : nat),
    frequencyOf ("class-" +:+ of_nat n +:+ "-methods") (extractPatterns clock projectRoot tree)
    = length (List.filter (isNamedClass n) (declarationsOf (getSourceFiles projectRoot tree))).
Proof.
  intros clock projectRoot tree n. rewrite frequencyOf_extractPatterns.
  f_equal. apply filter_ext. intros node. apply countsAs_class.
Qed.

(** X2. In every build the frequency recorded for the signature of imports
    from a relative path (a source that starts with ./ or ../), or from a
    package, with k specifiers is the number of such import declarations in
    the source files that parse. *)
Theorem import_frequency_counts :
  forall (clock : Clock) (projectRoot : string) (tree : list Entry) (relative : bool) (k : nat),
    frequencyOf
      ("import-" +:+ (if relative then "relative" else "package") +:+ "-" +:+ of_nat k)
      (extractPatterns clock projectRoot tree)
    = length (List.filter (isImport relative k)
                (declarationsOf (getSourceFiles projectRoot tree))).
Proof.
  intros clock projectRoot tree relative k. rewrite frequencyOf_extractPatterns.
  f_equal. apply filter_ext. intros node. apply countsAs_import.
Qed.

Lemma OMap_get_None_keys {V} (k : string) (m : OMap.t V) :
  OMap.get k m = None <-> ~ In k (OMap.keys m).
Proof.
  unfold OMap.keys. induction m as [| [k' v] m IH]; cbn; [tauto |].
  destruct (String.eqb_spec k k') as [-> | Hne].
  - split; [discriminate | intros Hn; contradiction Hn; now left].
  - rewrite IH. split; [intros Hn [Heq | Hin]; [congruence | tauto] | tauto].
Qed.

Lemma OMap_keys_set {V} (k : string) (v : V) (m : OMap.t V) :
  OMap.keys (OMap.set k v m)
  = if OMap.has k m then OMap.keys m else OMap.keys m ++ [k].
Proof.
  unfold OMap.keys, OMap.has. induction m as [| [k' v'] m IH]; cbn; [reflexivity |].
  destruct (String.eqb k k'); cbn; [reflexivity |].
  rewrite IH. now destruct (OMap.get k m).
Qed.

Lemma OMap_keys_set_NoDup {V} (k : string) (v : V) (m : OMap.t V) :
  NoDup (OMap.keys m) -> NoDup (OMap.keys (OMap.set k v m)).
Proof.
  intros Hm. rewrite OMap_keys_set. unfold OMap.has.
  destruct (OMap.get k m) eqn:Hget; [exact Hm |].
  apply OMap_get_None_keys in Hget.
  apply NoDup_app. repeat split; [exact Hm | | apply NoDup_singleton].
  intros x Hx Hk. apply list_elem_of_In in Hx. apply list_elem_of_In in Hk.
  destruct Hk as [<- | []]. contradiction.
Qed.

Lemma values_Forall_set {V} (P : V -> Prop) (k : string) (v : V) (m : OMap.t V) :
  Forall P (OMap.values m) -> P v -> Forall P (OMap.values (OMap.set k v m)).
Proof.
  unfold OMap.values. intros Hm Hv. induction m as [| [k' v'] m IH]; cbn.
  - now repeat constructor.
  - cbn in Hm. apply Forall_cons in Hm as [Hhd Htl].
    destruct (String.eqb k k'); cbn; constructor; auto.
Qed.

Lemma values_Forall_get {V} (P : V -> Prop) (k : string) (e : V) (m : OMap.t V) :
  Forall P (OMap.values m) -> OMap.get k m = Some e -> P e.
Proof.
  unfold OMap.values. induction m as [| [k' v'] m IH]; cbn; [discriminate |].
  intros Hm Hget. apply Forall_cons in Hm as [Hhd Htl].
  destruct (String.eqb k k'); [congruence | auto].
Qed.

Lemma wellKeyed_ids (m : OMap.t CodePattern) :
  wellKeyed m -> map cp_id (OMap.values m) = OMap.keys m.
Proof.
  unfold wellKeyed, OMap.values, OMap.keys.
  induction m as [| [k v] m IH]; cbn; [reflexivity |].
  intros Hm. apply Forall_cons in Hm as [Hhd Htl]. cbn in Hhd. now rewrite Hhd, IH.
Qed.

(** A visit with what it inserts when the signature is new. *)
Lemma visit_fresh (now : N) (file : string) (node : Node) :
  (patternIdOf node = None /\ forall m, visit now file node m = m)
  \/
  (exists k f,
      patternIdOf node = Some k /\
      (forall m, visit now file node m = recordPattern now file k f m) /\
      cp_id f = k /\ cp_frequency f = 1 /\ cp_files f = [file]).
Proof.
  destruct node as [n | n | n]; cbn [visit patternIdOf].
  - unfold extractFunctionPattern, functionPatternId. destruct (fd_id n).
    + right. eexists _, _. split; [reflexivity |].
      split; [intros m; reflexivity |]. repeat split.
    + left. split; [reflexivity | intros m; reflexivity].
  - unfold extractClassPattern. destruct (cd_id n).
    + right. eexists _, _. split; [reflexivity |].
      split; [intros m; reflexivity |]. repeat split.
    + left. split; [reflexivity | intros m; reflexivity].
  - unfold extractImportPattern.
    right. eexists _, _. split; [reflexivity |].
    split; [intros m; reflexivity |]. repeat split.
Qed.

Lemma visit_keys_NoDup (now : N) (file : string) (node : Node) (m : OMap.t CodePattern) :
  NoDup (OMap.keys m) -> NoDup (OMap.keys (visit now file node m)).
Proof.
  intros Hm. destruct (visit_fresh now file node) as [[_ Hskip] | (k & f & _ & Hrec & _)].
  - now rewrite Hskip.
  - rewrite Hrec. unfold recordPattern.
    destruct (OMap.get k m); now apply OMap_keys_set_NoDup.
Qed.

Lemma visit_filesMatchFrequency (now : N) (file : string) (node : Node)
    (m : OMap.t CodePattern) :
  Forall filesMatchFrequency (OMap.values m) ->
  Forall filesMatchFrequency (OMap.values (visit now file node m)).
Proof.
  intros Hm.
  destruct (visit_fresh now file node) as [[_ Hskip] | (k & f & _ & Hrec & _ & Hone & Hfile)].
  - now rewrite Hskip.
  - rewrite Hrec. unfold recordPattern.
    destruct (OMap.get k m) as [e |] eqn:Hget; apply values_Forall_set; try exact Hm.
    + destruct (values_Forall_get _ _ _ _ Hm Hget) as [Hlen Hpos].
      unfold filesMatchFrequency. cbn. rewrite length_app. cbn. lia.
    + unfold filesMatchFrequency. rewrite Hone, Hfile. cbn. lia.
Qed.

(** An invariant of the registry that every visit keeps holds for the
    registry of a whole build. *)
Lemma extractFiles_invariant (I : OMap.t CodePattern -> Prop) (clock : Clock) :
  (forall now file node m, I m -> I (visit now file node m)) ->
  forall (files : list (string * string)) (acc : OMap.t CodePattern * nat),
    I (fst acc) -> I (fst (extractFiles clock files acc)).
Proof.
  intros Hvisit.
  assert (Htrav : forall file ast acc, I (fst acc) -> I (fst (traverse clock file ast acc))).
  { intros file ast. induction ast as [| node ast IH]; intros acc Hacc; cbn [traverse];
      [exact Hacc |]. apply IH. cbn [fst]. now apply Hvisit. }
  induction files as [| [file content] files IH]; intros acc Hacc; cbn [extractFiles];
    [exact Hacc |].
  destruct (parse content) as [ast |]; apply IH; [now apply Htrav | exact Hacc].
Qed.

(** X3. The patterns of a build have pairwise different ids: a build holds
    one entry per signature. *)
Theorem extractPatterns_one_entry_per_signature :
  forall (clock : Clock) (projectRoot : string) (tree : list Entry),
    NoDup (map cp_id (extractPatterns clock projectRoot tree)).
Proof.
  intros clock projectRoot tree. unfold extractPatterns.
  rewrite wellKeyed_ids by (apply wellKeyed_extractFiles; constructor).
  apply (extractFiles_invariant (fun m => NoDup (OMap.keys m))).
  - intros now file node m. apply visit_keys_NoDup.
  - constructor.
Qed.

(** X4. Every pattern of a build has a positive frequency and lists exactly
    as many files as its frequency, one per counted declaration, so a file
    with several declarations of one signature is listed several times. *)
Theorem extractPatterns_files_match_frequency :
  forall (clock : Clock) (projectRoot : string) (tree : list Entry) (p : CodePattern),
    In p (extractPatterns clock projectRoot tree) ->
    length (cp_files p) = cp_frequency p /\ 1 <= cp_frequency p.
Proof.
  intros clock projectRoot tree p Hin.
  assert (Hall : Forall filesMatchFrequency (extractPatterns clock projectRoot tree)).
  { unfold extractPatterns.
    apply (extractFiles_invariant (fun m => Forall filesMatchFrequency (OMap.values m))).
    - intros now file node m. apply visit_filesMatchFrequency.
    - constructor. }
  rewrite Forall_forall in Hall. apply Hall. now apply list_elem_of_In.
Qed.

Lemma filter_length_Permutation {A} (f : A -> bool) (l l' : list A) :
  l ≡ₚ l' -> length (List.filter f l) = length (List.filter f l').
Proof.
  induction 1 as [| x l l' _ IH | x y l | l l' l'' _ IH1 _ IH2]; cbn.
  - reflexivity.
  - destruct (f x); cbn; congruence.
  - destruct (f x), (f y); reflexivity.
  - congruence.
Qed.

Lemma declarationsOf_texts (files : list (string * string)) :
  declarationsOf files = flat_map (fun text => default [] (parse text)) (map snd files).
Proof.
  unfold declarationsOf. induction files as [| [file content] files IH]; cbn; [reflexivity |].
  now rewrite IH.
Qed.

(** X5. The frequencies of a build depend only on the texts of the source
    files as a multiset: two trees whose source files hold the same texts, in
    any order and under any names, give every signature the same frequency,
    whatever the clock shows. *)
Theorem frequencies_independent_of_order :
  forall (clock clock' : Clock) (projectRoot projectRoot' : string)
         (tree tree' : list Entry) (patternId : string),
    map snd (getSourceFiles projectRoot tree) ≡ₚ map snd (getSourceFiles projectRoot' tree') ->
    frequencyOf patternId (extractPatterns clock projectRoot tree)
    = frequencyOf patternId (extractPatterns clock' projectRoot' tree').
Proof.
  intros clock clock' projectRoot projectRoot' tree tree' patternId Hperm.
  rewrite !frequencyOf_extractPatterns, !declarationsOf_texts.
  apply filter_length_Permutation. now apply Permutation_flat_map.
Qed.

Lemma extractFiles_parses (clock : Clock) (files : list (string * string)) :
  forall acc : OMap.t CodePattern * nat,
    extractFiles clock files acc = extractFiles clock (List.filter parses files) acc.
Proof.
  induction files as [| [file content] files IH]; intros acc; cbn [extractFiles List.filter];
    [reflexivity |].
  unfold parses at 1. cbn [snd].
  destruct (parse content) as [ast |] eqn:Hparse; [| apply IH].
  cbn [extractFiles]. rewrite Hparse. apply IH.
Qed.

(** X6. A source file that does not parse contributes nothing to a build:
    two trees that have the same parsing source files in the same order give
    the same patterns, timestamps included. *)
Theorem extractPatterns_skips_unparsable :
  forall (clock : Clock) (projectRoot projectRoot' : string) (tree tree' : list Entry),
    List.filter parses (getSourceFiles projectRoot tree)
    = List.filter parses (getSourceFiles projectRoot' tree') ->
    extractPatterns clock projectRoot tree = extractPatterns clock projectRoot' tree'.
Proof.
  intros clock projectRoot projectRoot' tree tree' Hsame. unfold extractPatterns.
  rewrite (extractFiles_parses clock (getSourceFiles projectRoot tree)).
  rewrite (extractFiles_parses clock (getSourceFiles projectRoot' tree')).
  now rewrite Hsame.
Qed.

(** *** The first declaration of a signature describes its pattern *)

Lemma find_app {A} (f : A -> bool) (l1 l2 : list A) :
  find f (l1 ++ l2) = match find f l1 with Some x => Some x | None => find f l2 end.
Proof. induction l1 as [| x l1 IH]; cbn; [reflexivity |]. now destruct (f x). Qed.

Lemma keeps_refl (e : CodePattern) : keeps e e.
Proof. split; [now repeat split | exists []; now rewrite app_nil_r]. Qed.

Lemma keeps_trans (a b c : CodePattern) : keeps a b -> keeps b c -> keeps a c.
Proof.
  intros [(H1 & H2 & H3 & H4) [r1 Hr1]] [(G1 & G2 & G3 & G4) [r2 Hr2]].
  split; [repeat split; congruence |].
  exists (r1 ++ r2). now rewrite Hr2, Hr1, <- app_assoc.
Qed.

Lemma createdBy_keeps (k file : string) (node : Node) (a b : CodePattern) :
  createdBy k file node a -> keeps a b -> createdBy k file node b.
Proof.
  intros [Hq [r Hr]] [(H1 & H2 & H3 & H4) [r' Hr']]. split.
  - intros now. destruct (Hq now) as (q & Hvisit & G1 & G2 & G3 & G4).
    exists q. split; [exact Hvisit |]. repeat split; congruence.
  - exists (r ++ r'). now rewrite Hr', Hr.
Qed.

Lemma firstVisitSpec_nil (k : string) (o : option CodePattern) : firstVisitSpec k o [] o.
Proof.
  destruct o as [e |]; cbn; [| reflexivity].
  exists e. split; [reflexivity | apply keeps_refl].
Qed.

Lemma firstVisitSpec_app (k : string) (a b c : option CodePattern)
    (v1 v2 : list (string * Node)) :
  firstVisitSpec k a v1 b -> firstVisitSpec k b v2 c -> firstVisitSpec k a (v1 ++ v2) c.
Proof.
  unfold firstVisitSpec. intros H1 H2. destruct a as [e |].
  - destruct H1 as (e1 & -> & Hk1). destruct H2 as (e2 & -> & Hk2).
    exists e2. split; [reflexivity | now apply (keeps_trans e e1 e2)].
  - rewrite find_app. destruct (find (fun v => countsAs k (snd v)) v1) as [[file node] |].
    + destruct H1 as (p & -> & Hp). destruct H2 as (e2 & -> & Hk2).
      exists e2. split; [reflexivity | now apply (createdBy_keeps k file node p e2)].
    + subst b. exact H2.
Qed.

Lemma firstVisitSpec_visit (k : string) (now : N) (file : string) (node : Node)
    (m : OMap.t CodePattern) :
  firstVisitSpec k (OMap.get k m) [(file, node)] (OMap.get k (visit now file node m)).
Proof.
  unfold firstVisitSpec. cbn [find snd]. unfold countsAs.
  destruct (visit_fresh now file node)
    as [[Hnone Hskip] | (k0 & f & Hid & Hrec & Hf & _ & Hfiles)].
  - rewrite Hskip, Hnone. destruct (OMap.get k m) as [e |]; [| reflexivity].
    exists e. split; [reflexivity | apply keeps_refl].
  - rewrite Hrec, Hid. unfold recordPattern.
    destruct (String.eqb_spec k0 k) as [-> | Hne].
    + destruct (OMap.get k m) as [e |] eqn:Hget; rewrite OMap_get_set_eq.
      * eexists. split; [reflexivity |].
        split; [now repeat split | exists [file]; reflexivity].
      * exists f. split; [reflexivity |]. split; [| exists []; exact Hfiles].
        intros now'.
        destruct (visit_cases now now' file node)
          as [[Habs _] | (k1 & f1 & f2 & Hid1 & H1 & H2 & Hsame & _)];
          [congruence |].
        assert (k1 = k) as -> by congruence.
        exists f2. split.
        { rewrite H2. unfold recordPattern. reflexivity. }
        assert (f1 = f) as ->.
        { pose proof (H1 []) as Ha. rewrite Hrec in Ha. unfold recordPattern in Ha.
          cbn in Ha. congruence. }
        injection Hsame as G1 G2 G3 G4 _ _. now repeat split.
    + assert (Hget : OMap.get k
                       (match OMap.get k0 m with
                        | Some existing =>
                            OMap.set k0
                              {| cp_id := cp_id existing; cp_name := cp_name existing;
                                 cp_description := cp_description existing;
                                 cp_example := cp_example existing;
                                 cp_frequency := S (cp_frequency existing);
                                 cp_files := cp_files existing ++ [file];
                                 cp_lastSeen := toISOString now |} m
                        | None => OMap.set k0 f m
                        end) = OMap.get k m).
      { destruct (OMap.get k0 m); now apply OMap_get_set_ne. }
      rewrite Hget. destruct (OMap.get k m) as [e |]; [| reflexivity].
      exists e. split; [reflexivity | apply keeps_refl].
Qed.

Lemma firstVisitSpec_traverse (k : string) (clock : Clock) (file : string) (ast : list Node) :
  forall acc : OMap.t CodePattern * nat,
    firstVisitSpec k (OMap.get k (fst acc)) (map (pair file) ast)
      (OMap.get k (fst (traverse clock file ast acc))).
Proof.
  induction ast as [| node ast IH]; intros acc; cbn [traverse map].
  - apply firstVisitSpec_nil.
  - apply (firstVisitSpec_app k _ _ _ [(file, node)] (map (pair file) ast)
             (firstVisitSpec_visit k (clock (snd acc)) file node (fst acc))).
    apply (IH (visit (clock (snd acc)) file node (fst acc),
               if readsClock node then S (snd acc) else snd acc)).
Qed.

Lemma firstVisitSpec_extractFiles (k : string) (clock : Clock)
    (files : list (string * string)) :
  forall acc : OMap.t CodePattern * nat,
    firstVisitSpec k (OMap.get k (fst acc)) (visitsOf files)
      (OMap.get k (fst (extractFiles clock files acc))).
Proof.
  induction files as [| [file content] files IH]; intros acc;
    cbn [extractFiles visitsOf flat_map fst snd].
  - apply firstVisitSpec_nil.
  - fold (visitsOf files). destruct (parse content) as [ast |]; cbn [default from_option id].
    + apply (firstVisitSpec_app k _ _ _ _ _ (firstVisitSpec_traverse k clock file ast acc)).
      apply IH.
    + cbn [map app]. apply IH.
Qed.

Lemma OMap_get_In_values {V} (k : string) (v : V) (m : OMap.t V) :
  OMap.get k m = Some v -> In v (OMap.values m).
Proof.
  unfold OMap.values. induction m as [| [k' v'] m IH]; cbn; [discriminate |].
  destruct (String.eqb k k'); [intros [= ->]; now left | intros Hget; right; auto].
Qed.

(** X7. The pattern of a signature is described by the first declaration
    visited under it: its name, description and example are those this
    declaration gives a new entry and the file of this declaration is the
    first of its files; the declarations that follow only raise the
    frequency, append their file and renew the timestamp. *)
Theorem pattern_described_by_first_declaration :
  forall (clock : Clock) (projectRoot : string) (tree : list Entry)
         (patternId file : string) (node : Node),
    find (fun v => countsAs patternId (snd v)) (visitsOf (getSourceFiles projectRoot tree))
    = Some (file, node) ->
    exists p,
      In p (extractPatterns clock projectRoot tree) /\
      cp_id p = patternId /\
      (exists rest, cp_files p = file :: rest) /\
      forall now, exists q,
          visit now file node [] = [(patternId, q)] /\
          cp_name p = cp_name q /\ cp_description p = cp_description q
          /\ cp_example p = cp_example q.
Proof.
  intros clock projectRoot tree k file node Hfirst.
  pose proof (firstVisitSpec_extractFiles k clock (getSourceFiles projectRoot tree) ([], 0))
    as Hspec.
  unfold firstVisitSpec in Hspec. cbn [fst OMap.get] in Hspec. rewrite Hfirst in Hspec.
  destruct Hspec as (p & Hget & Hq & Hfiles).
  exists p. split; [| split; [| split; [exact Hfiles |]]].
  - unfold extractPatterns. now apply (OMap_get_In_values k).
  - apply (wellKeyed_get k p) in Hget; [exact Hget |].
    apply wellKeyed_extractFiles. constructor.
  - intros now. destruct (Hq now) as (q & Hvisit & _ & Hname & Hdesc & Hex).
    exists q. now repeat split.
Qed.

(** ** The walk over the source tree *)

Lemma Entry_induction (P : Entry -> Prop) :
  (forall name content, P (File name content)) ->
  (forall name sub, Forall P sub -> P (Directory name sub)) ->
  (forall name, P (Special name)) ->
  forall entry, P entry.
Proof.
  intros Hfile Hdir Hspecial.
  exact (fix go (entry : Entry) : P entry :=
           match entry with
           | File name content => Hfile name content
           | Directory name sub =>
               Hdir name sub
                 ((fix all (l : list Entry) : Forall P l :=
                     match l with
                     | [] => @List.Forall_nil Entry P
                     | e :: l' => @List.Forall_cons Entry P e l' (go e) (all l')
                     end) sub)
           | Special name => Hspecial name
           end).
Qed.

Lemma prefix_weaken (a b s : string) :
  String.prefix (a +:+ b) s = true -> String.prefix a s = true.
Proof.
  revert s. induction a as [| c a IH]; intros s; [now destruct s |].
  destruct s as [| d s]; cbn [String.append String.prefix]; [discriminate |].
  destruct (ascii_dec c d); [apply IH | discriminate].
Qed.

Lemma prefix_app_r (p s t : string) :
  String.prefix p s = true -> String.prefix p (s +:+ t) = true.
Proof.
  revert s. induction p as [| c p IH]; intros s; [now destruct (s +:+ t) |].
  destruct s as [| d s]; cbn [String.append String.prefix]; [discriminate |].
  destruct (ascii_dec c d); [apply IH | discriminate].
Qed.

Lemma rev_app_acc (s acc : string) : String.rev_app s acc = String.rev_app s "" +:+ acc.
Proof.
  revert acc. induction s as [| c s IH]; intros acc; cbn [String.rev_app]; [reflexivity |].
  rewrite (IH (String c acc)), (IH (String c "")).
  now rewrite string_app_assoc.
Qed.

Lemma rev_string_app (a b : string) : String.rev (a +:+ b) = String.rev b +:+ String.rev a.
Proof.
  unfold String.rev. induction a as [| c a IH]; cbn [String.append String.rev_app].
  - induction (String.rev_app b "") as [| d r IHr]; cbn [String.append]; congruence.
  - rewrite rev_app_acc, IH, (rev_app_acc a (String c "")). apply string_app_assoc.
Qed.

Lemma endsWith_app (pre s ext : string) :
  endsWith s ext = true -> endsWith (pre +:+ s) ext = true.
Proof. unfold endsWith. rewrite rev_string_app. apply prefix_app_r. Qed.

Lemma walkEntry_paths (entry : Entry) :
  forall dir path content : string,
    In (path, content) (walkEntry dir entry) ->
    startsWith path (dir +:+ "/") = true
    /\ existsb (fun ext => endsWith path ext) extensions = true.
Proof.
  induction entry as [name text | name sub IH | name] using Entry_induction;
    intros dir path content Hin; cbn [walkEntry] in Hin.
  - destruct (existsb (fun ext => endsWith name ext) extensions) eqn:Hext; [| contradiction].
    destruct Hin as [[= <- <-] | []]. unfold path_join, startsWith. split.
    + rewrite <- string_app_assoc. apply prefix_app_self.
    + apply existsb_exists in Hext as (ext & Hin & Hends).
      apply existsb_exists. exists ext. split; [exact Hin |].
      rewrite <- string_app_assoc. now apply endsWith_app.
  - destruct (negb (startsWith name ".") && negb (String.eqb name "node_modules"));
      [| contradiction].
    apply in_flat_map in Hin as (e & He & Hin).
    rewrite Forall_forall in IH. apply list_elem_of_In in He.
    destruct (IH e He _ _ _ Hin) as [Hstart Hext]. split; [| exact Hext].
    unfold startsWith, path_join in *.
    apply (prefix_weaken (dir +:+ "/") (name +:+ "/")).
    rewrite string_app_assoc. rewrite string_app_assoc in Hstart. exact Hstart.
  - contradiction.
Qed.

(** X8. For a project root given as a normalised path other than the
    file-system root (no segment [.] or [..], no doubled or trailing
    slash), every file that a build reads as source has a path that starts
    with the root and a slash, and a name that ends in .ts, .tsx, .js or
    .jsx. *)
Theorem getSourceFiles_paths :
  forall (projectRoot : string) (tree : list Entry) (path content : string),
    normalRoot projectRoot = true ->
    In (path, content) (getSourceFiles projectRoot tree) ->
    startsWith path (projectRoot +:+ "/") = true
    /\ existsb (fun ext => endsWith path ext) [".ts"; ".tsx"; ".js"; ".jsx"] = true.
Proof.
  intros projectRoot tree path content _ Hin.
  unfold getSourceFiles, walkDir in Hin. apply in_flat_map in Hin as (e & _ & Hin).
  now apply (walkEntry_paths e projectRoot path content).
Qed.

(** ** Prompt generation as a whole *)

(** Among templates of pairwise different categories the first of a
    category is the only one, wherever the listing puts it. *)
Lemma firstOf_Permutation (c : Category) (ts ts' : list PromptTemplate) :
  ts ≡ₚ ts' ->
  NoDup (map category ts) ->
  firstOf c ts = firstOf c ts'.
Proof.
  unfold firstOf. intros Hperm.
  induction Hperm as [| x l l' Hperm IH | x y l | l l' l'' H1 IH1 H2 IH2]; intros Hnd.
  - reflexivity.
  - cbn [map] in Hnd. apply NoDup_cons in Hnd as [_ Hnd]. cbn [find]. now rewrite IH.
  - cbn [map] in Hnd. apply NoDup_cons in Hnd as [Hx _]. cbn [find].
    destruct (Category_eqb (category y) c) eqn:Hy, (Category_eqb (category x) c) eqn:Hxc;
      try reflexivity.
    exfalso. apply Hx. rewrite list_elem_of_In. left.
    destruct (category x), (category y), c; try discriminate; reflexivity.
  - rewrite IH1 by exact Hnd. apply IH2.
    apply NoDup_ListNoDup. apply NoDup_ListNoDup in Hnd.
    eapply Permutation_NoDup; [| exact Hnd]. now apply Permutation_map.
Qed.


Lemma searchSimilarContext_store (query : string) (st : store) :
  snd (searchSimilarContext query st) = st.
Proof.
  unfold searchSimilarContext, bind, getCompressedContext.
  destruct (compressed st) as [[c | raw] |]; reflexivity.
Qed.

Lemma generatePrompt_unfold (ticket : Ticket) (now : N) (st : store)
    (context : CompressedContext) (t : PromptTemplate) :
  compressed st = Some (Json context) ->
  selectBestTemplate ticket st = (Ok t, st) ->
  exists text,
    generatePrompt ticket now st
    = (Ok text,
       set_versions
         (<[pt_id t +:+ "-" +:+ of_N now +:+ ".json" := Json (newVersion (pt_id t) text ticket now)]>
            (versions st)) st).
Proof.
  intros Hctx Hsel.
  unfold generatePrompt, bind, getCompressedContext. rewrite Hctx. cbn [readJson].
  rewrite Hsel.
  unfold searchSimilarContext, bind, getCompressedContext. rewrite Hctx. cbn [readJson].
  unfold ret, loadStandards, bind, gets, ret, savePromptVersion, modify.
  cbn [pv_id]. rewrite string_app_assoc. eexists. reflexivity.
Qed.


Lemma selectBestTemplate_succeeds (ticket : Ticket) (st : store) (ts : list PromptTemplate)
    (featureTemplate : PromptTemplate) :
  getTemplates st = (Ok ts, st) ->
  firstOf feature ts = Some featureTemplate ->
  exists t, selectBestTemplate ticket st = (Ok t, st) /\ In t ts.
Proof.
  intros Hts Hfeat. unfold selectBestTemplate, bind. rewrite Hts. unfold firstOf in Hfeat.
  assert (Hin : forall c t, find (fun t => Category_eqb (category t) c) ts = Some t -> In t ts).
  { intros c t Hf. now apply find_some in Hf. }
  pose proof (Hin _ _ Hfeat) as HinF. rewrite Hfeat.
  destruct (includes "fix" (toLowerCase (title ticket))
            || includes "bug" (toLowerCase (title ticket)));
    destruct (find (fun t => Category_eqb (category t) bugfix) ts) as [tb |] eqn:Hb;
    destruct (includes "refactor" (toLowerCase (title ticket))
              || includes "improve" (outcome ticket));
    destruct (find (fun t => Category_eqb (category t) refactor) ts) as [tr |] eqn:Hr;
    (eexists; split; [reflexivity | eauto]).
Qed.


Lemma getTemplates_after_seeding :
  readTemplates (fold_left seedStep getDefaultTemplates []) = Ok getDefaultTemplates.
Proof. vm_compute. reflexivity. Qed.

(** X11. On a project whose templates directory is absent or empty,
    [initializePrompts] followed by [generatePrompt] succeeds for every
    ticket once a snapshot exists, and the template used is one of the three
    seeds. *)
Theorem generatePrompt_after_initializePrompts :
  forall (ticket : Ticket) (now : N) (st : store) (context : CompressedContext),
    templates st = None \/ templates st = Some [] ->
    compressed st = Some (Json context) ->
    exists t text,
      In t getDefaultTemplates
      /\ selectBestTemplate ticket (snd (initializePrompts st))
         = (Ok t, snd (initializePrompts st))
      /\ fst (generatePrompt ticket now (snd (initializePrompts st))) = Ok text.
Proof.
  intros ticket now st ctx Hfresh Hctx.
  rewrite initializePrompts_unfold. cbn [snd].
  assert (Hdir : default [] (templates st) = []) by (destruct Hfresh as [-> | ->]; reflexivity).
  rewrite Hdir.
  set (st1 := set_templates (Some (fold_left seedStep getDefaultTemplates [])) st).
  assert (Hts : getTemplates st1 = (Ok getDefaultTemplates, st1)).
  { unfold getTemplates. subst st1. cbn [templates set_templates].
    now rewrite getTemplates_after_seeding. }
  assert (Hfeat : exists tf, firstOf feature getDefaultTemplates = Some tf)
    by (eexists; reflexivity).
  destruct Hfeat as [tf Hfeat].
  destruct (selectBestTemplate_succeeds ticket st1 _ tf Hts Hfeat) as (t & Hsel & Hin).
  assert (Hctx1 : compressed st1 = Some (Json ctx)) by exact Hctx.
  destruct (generatePrompt_unfold ticket now st1 ctx t Hctx1 Hsel) as [text Hrun].
  exists t, text. rewrite Hrun. now repeat split.
Qed.

(** ** Outcomes of the calls of the feedback loop *)

Lemma recordPromptOutcome_unfold (versionId : string) (outcome : Outcome) (feedback : string)
    (now : N) (st : store) (v : PromptVersion) :
  versions st !! (versionId +:+ ".json") = Some (Json v) ->
  recordPromptOutcome versionId outcome feedback now st
  = updateTemplatePerformance (pv_templateId v) outcome now
      (set_versions
         (<[versionId +:+ ".json" := Json (withOutcome outcome feedback v)]> (versions st)) st).
Proof.
  intros Hv. unfold recordPromptOutcome, bind, gets. rewrite Hv.
  unfold lift. cbn [readJson]. unfold modify. reflexivity.
Qed.

Lemma updateTemplatePerformance_frame (T : string) (o : Outcome) (now : N) (st : store) :
  let st' := snd (updateTemplatePerformance T o now st) in
  compressed st' = compressed st /\ templates st' = templates st /\
  versions st' = versions st /\ standards st' = standards st /\
  forall T', T' <> T -> performanceOf st' T' = performanceOf st T'.
Proof.
  unfold updateTemplatePerformance, bind, modify, performanceOf.
  destruct (performance st) as [[perf | raw] |] eqn:Hperf; cbn [readJson fst snd].
  - destruct (negb (OMap.has T perf) && inherited T);
      cbn [fst snd compressed templates versions standards performance set_performance];
      repeat split. intros T' Hne. apply OMap_get_set_ne. congruence.
  - rewrite Hperf. now repeat split.
  - destruct (negb (OMap.has T []) && inherited T);
      cbn [fst snd compressed templates versions standards performance set_performance];
      repeat split. intros T' Hne. rewrite OMap_get_set_ne by congruence. reflexivity.
Qed.


(** X13. There is no rollback: when the performance file does not parse,
    [recordPromptOutcome] on a stored version fails with the syntax error of
    that file, the performance file is as before, and the version file has
    already been rewritten with the reported outcome and feedback. *)
Theorem recordPromptOutcome_corrupt_performance :
  forall (versionId : string) (outcome : Outcome) (feedback raw : string) (now : N)
         (st : store) (v : PromptVersion),
    versions st !! (versionId +:+ ".json") = Some (Json v) ->
    performance st = Some (Corrupt raw) ->
    let st' := snd (recordPromptOutcome versionId outcome feedback now st) in
    fst (recordPromptOutcome versionId outcome feedback now st)
    = Err (SyntaxError performancePath) /\
    performance st' = Some (Corrupt raw) /\
    versions st'
    = <[versionId +:+ ".json" := Json (withOutcome outcome feedback v)]> (versions st).
Proof.
  intros versionId outcome feedback raw now st v Hv Hperf.
  rewrite (recordPromptOutcome_unfold _ _ _ _ _ _ Hv).
  unfold updateTemplatePerformance, bind. cbn [performance set_versions].
  rewrite Hperf. cbn [readJson fst snd performance versions set_versions].
  now repeat split.
Qed.

(** X14. Reporting an outcome touches one version file and one performance
    record: every other version file, the record of every other template,
    the snapshot, the templates and the standards are as before, and the
    named version keeps its id, template id, text, creation time and ticket
    id. *)
Theorem recordPromptOutcome_frame :
  forall (versionId : string) (outcome : Outcome) (feedback : string) (now : N)
         (st : store) (v : PromptVersion),
    versions st !! (versionId +:+ ".json") = Some (Json v) ->
    let st' := snd (recordPromptOutcome versionId outcome feedback now st) in
    versions st'
    = <[versionId +:+ ".json" := Json (withOutcome outcome feedback v)]> (versions st) /\
    (forall other, other <> versionId +:+ ".json" -> versions st' !! other = versions st !! other) /\
    (forall T, T <> pv_templateId v -> performanceOf st' T = performanceOf st T) /\
    compressed st' = compressed st /\ templates st' = templates st /\
    standards st' = standards st.
Proof.
  intros versionId outcome feedback now st v Hv.
  rewrite (recordPromptOutcome_unfold _ _ _ _ _ _ Hv).
  set (st1 := set_versions _ st).
  destruct (updateTemplatePerformance_frame (pv_templateId v) outcome now st1)
    as (Hc & Ht & Hvers & Hs & Hperf).
  cbv zeta. rewrite Hvers, Hc, Ht, Hs. subst st1.
  cbn [versions compressed templates standards set_versions].
  repeat split.
  - intros other Hne. now apply lookup_insert_ne.
  - intros T HT. now rewrite (Hperf T HT).
Qed.

(** ** Ratings and the optimisation report *)

Lemma rating_below (s n : nat) :
  0 < n ->
  (inject_Z (Z.of_nat s) / inject_Z (Z.of_nat n) < 7 # 10)%Q <-> 10 * s < 7 * n.
Proof.
  intros Hn. unfold Qlt, Qdiv, Qmult, Qinv, inject_Z. cbn [Qnum Qden].
  destruct (Z.of_nat n) as [| q | q] eqn:Hq; try lia.
  cbn [Qnum Qden]. lia.
Qed.

Lemma performanceOf_values (st : store) (T : string) (p : PromptPerformance) :
  performanceOf st T = Some p ->
  exists perf, performance st = Some (Json perf) /\ In p (OMap.values perf).
Proof.
  unfold performanceOf. destruct (performance st) as [[perf | raw] |]; try discriminate.
  intros Hget. exists perf. split; [reflexivity |]. now apply (OMap_get_In_values T).
Qed.

(** X15. After a non-empty run of reports on the versions of a template that
    had no performance record, and whose id is not the name of a member that
    every object inherits, the [prompt:optimize] command lists the record of
    the template exactly when fewer than seven in ten of the reports were
    successes and there were more than three reports. *)
Theorem command_flags_after_reports :
  forall (st : store) (templateId : string) (reports : list OutcomeReport),
    inherited templateId = false ->
    performanceReadable st ->
    performanceOf st templateId = None ->
    Forall (fun r => refersTo st templateId (or_versionId r)) reports ->
    reports <> [] ->
    let st' := snd (recordOutcomes reports st) in
    exists p flagged,
      performanceOf st' templateId = Some p /\
      promptOptimizeCommand st' = (Ok flagged, st') /\
      (In p flagged
       <-> 10 * countOutcome success reports < 7 * length reports /\ 3 < length reports).
Proof.
  intros st T reports Hown Hread Hnone Hrefs Hne st'.
  destruct (recordOutcomes_accounting_from T reports Hown st Hread Hrefs)
    as (_ & Huses & Hsucc & _ & Hlast).
  fold st' in Huses, Hsucc, Hlast.
  destruct (Hlast {| or_versionId := ""; or_outcome := success; or_feedback := ""; or_now := 0%N |} Hne)
    as (p & Hp & Hrating & _).
  rewrite Hp, Hnone in Huses, Hsucc. cbn [from_option] in Huses, Hsucc.
  destruct (performanceOf_values st' T p Hp) as (perf & Hperf & Hin).
  exists p, (underPerforming (OMap.values perf)). split; [exact Hp |]. split.
  - unfold promptOptimizeCommand, bind, analyzePromptPerformance. rewrite Hperf. reflexivity.
  - rewrite underPerforming_spec, Hrating, Huses, Hsucc.
    assert (Hpos : 0 < length reports) by (destruct reports; [congruence | cbn; lia]).
    rewrite (rating_below _ _ Hpos). cbn [Nat.add]. tauto.
Qed.

(** X16. [optimizePrompts] reads the templates although it reports from the
    performance file alone: without a templates directory it fails with the
    error of the directory listing, where the [prompt:optimize] command, on
    the same store, gives its report. *)
Theorem optimizePrompts_needs_templates :
  forall st : store,
    performanceReadable st ->
    templates st = None ->
    optimizePrompts st = (Err (ENOENT templatesPath), st) /\
    exists flagged, promptOptimizeCommand st = (Ok flagged, st).
Proof.
  intros st Hread Hnone.
  unfold optimizePrompts, promptOptimizeCommand, bind, analyzePromptPerformance, getTemplates.
  unfold performanceReadable in Hread.
  destruct (performance st) as [[perf | raw] |]; cbn [readJson]; try contradiction;
    rewrite Hnone; (split; [reflexivity | eexists; reflexivity]).
Qed.

(** ** Reading the templates directory *)

Lemma readTemplates_corrupt (files : OMap.t (file PromptTemplate)) (name raw : string) :
  In (name, Corrupt raw) files ->
  endsWith name ".json" = true ->
  exists name', In name' (OMap.keys files) /\
                readTemplates files = Err (SyntaxError (path_join templatesPath name')).
Proof.
  intros Hin Hjson. induction files as [| [n f] files IH]; [contradiction |].
  cbn [readTemplates OMap.keys map fst].
  destruct (endsWith n ".json") eqn:Hn.
  - destruct f as [t | raw'].
    + destruct Hin as [Heq | Hin]; [discriminate |].
      destruct (IH Hin) as (name' & Hkey & Hrun).
      exists name'. split; [now right |]. cbn [readJson]. now rewrite Hrun.
    + exists n. split; [now left | reflexivity].
  - destruct Hin as [Heq | Hin]; [injection Heq as -> _; congruence |].
    destruct (IH Hin) as (name' & Hkey & Hrun).
    exists name'. split; [now right | exact Hrun].
Qed.


(** X17. One template file that does not parse blocks every prompt: when a
    [.json] file of the templates directory is corrupt, [generatePrompt]
    fails for every ticket with the syntax error of a file of the
    directory, and writes nothing. *)
Theorem corrupt_template_blocks_prompts :
  forall (st : store) (files : OMap.t (file PromptTemplate)) (name raw : string)
         (ctx : CompressedContext) (ticket : Ticket) (now : N),
    compressed st = Some (Json ctx) ->
    templates st = Some files ->
    In (name, Corrupt raw) files ->
    endsWith name ".json" = true ->
    exists name',
      In name' (OMap.keys files) /\
      generatePrompt ticket now st = (Err (SyntaxError (path_join templatesPath name')), st).
Proof.
  intros st files name raw ctx ticket now Hctx Hfiles Hin Hjson.
  destruct (readTemplates_corrupt files name raw Hin Hjson) as (name' & Hkey & Hrun).
  exists name'. split; [exact Hkey |].
  unfold generatePrompt, bind, getCompressedContext. rewrite Hctx. cbn [readJson].
  unfold selectBestTemplate, bind, getTemplates. rewrite Hfiles, Hrun. reflexivity.
Qed.

(** X18. Only the files named [*.json] count as templates: the templates
    read from a directory are those read from its [.json] files, so that
    other files, readable or not, change nothing. *)
Theorem getTemplates_reads_json_files_only :
  forall (st : store) (files : OMap.t (file PromptTemplate)),
    fst (getTemplates
           (set_templates
              (Some (List.filter (fun entry => endsWith (fst entry) ".json") files)) st))
    = fst (getTemplates (set_templates (Some files) st)).
Proof.
  intros st files. unfold getTemplates. cbn [templates set_templates fst].
  induction files as [| [n f] files IH]; [reflexivity |].
  cbn [List.filter fst readTemplates].
  destruct (endsWith n ".json") eqn:Hn; [| exact IH].
  cbn [readTemplates]. rewrite Hn, IH. reflexivity.
Qed.


(** X20. A snapshot that does not parse is not taken for a missing one:
    reading it, searching it and generating a prompt all fail with the
    syntax error of [compressed.json], and the store is untouched. *)
Theorem corrupt_context_is_an_error :
  forall (st : store) (raw query : string) (ticket : Ticket) (now : N),
    compressed st = Some (Corrupt raw) ->
    getCompressedContext st = (Err (SyntaxError compressedPath), st) /\
    searchSimilarContext query st = (Err (SyntaxError compressedPath), st) /\
    generatePrompt ticket now st = (Err (SyntaxError compressedPath), st).
Proof.
  intros st raw query ticket now Hctx.
  unfold generatePrompt, searchSimilarContext, bind, getCompressedContext.
  rewrite Hctx. cbn [readJson]. now repeat split.
Qed.

(** ** The files of the patterns *)

Section FirstOccurrences.

Variable arr : list string.

Lemma indexOf_app (x : string) (pre suf : list string) :
  indexOf x (pre ++ x :: suf) = Some (length pre) <-> ~ In x pre.
Proof.
  induction pre as [| y pre IH]; cbn [indexOf app length In].
  - rewrite String.eqb_refl. tauto.
  - destruct (String.eqb_spec x y) as [-> | Hne].
    + split; [discriminate | intros H; exfalso; apply H; now left].
    + destruct (indexOf x (pre ++ x :: suf)) as [i |] eqn:Hi; cbn [option_map].
      * split.
        -- intros [= ->]. intros [Heq | Hin]; [congruence |]. now apply IH.
        -- intros Hnot. f_equal. f_equal.
           assert (Some i = Some (length pre)) as [= ->]; [| reflexivity].
           apply IH. tauto.
      * split; [discriminate |]. intros Hnot. exfalso.
        assert (None = Some (length pre)); [apply IH; tauto | discriminate].
Qed.

Lemma filter_index_first (suf : list string) :
  forall pre : list string,
    arr = pre ++ suf ->
    NoDup (filter_index (firstAt arr) (length pre) suf) /\
    forall f, In f (filter_index (firstAt arr) (length pre) suf) <-> In f suf /\ ~ In f pre.
Proof.
  set (first := firstAt arr).
  induction suf as [| x suf IH]; intros pre Harr; cbn [filter_index].
  - split; [constructor | cbn [In]; tauto].
  - assert (Harr' : arr = (pre ++ [x]) ++ suf) by now rewrite <- app_assoc.
    destruct (IH (pre ++ [x]) Harr') as [Hnd Hin].
    rewrite length_app, Nat.add_comm in Hnd, Hin. cbn [length Nat.add] in Hnd, Hin.
    assert (Hfirst : first x (length pre) = true <-> ~ In x pre).
    { unfold first, firstAt. rewrite Harr, <- (indexOf_app x pre suf).
      destruct (indexOf x (pre ++ x :: suf)) as [i |]; [| split; discriminate].
      rewrite Nat.eqb_eq. split; congruence. }
    destruct (first x (length pre)) eqn:Hx.
    + assert (Hnot : ~ In x pre) by now apply Hfirst.
      split.
      * constructor; [| exact Hnd]. rewrite list_elem_of_In, Hin, in_app_iff. cbn [In]. tauto.
      * intros f. cbn [In]. rewrite Hin, in_app_iff. cbn [In].
        destruct (String.eqb_spec x f) as [-> | Hne]; [tauto |].
        split; [tauto |]. intros [[Heq | Hs] Hp]; [congruence | tauto].
    + assert (Hyes : In x pre).
      { destruct (in_dec string_dec x pre) as [Hyes | Hno]; [exact Hyes |].
        apply Hfirst in Hno. congruence. }
      split; [exact Hnd |].
      intros f. rewrite Hin, in_app_iff. cbn [In].
      split; [tauto |]. intros [[<- | Hs] Hp]; [contradiction |].
      split; [exact Hs |]. intros [Hpre | [<- | []]]; contradiction.
Qed.

End FirstOccurrences.

Lemma relevantFiles_spec (ps : list CodePattern) :
  NoDup (relevantFiles ps) /\
  forall f, In f (relevantFiles ps) <-> exists p, In p ps /\ In f (cp_files p).
Proof.
  change (relevantFiles ps)
    with (filter_index (firstAt (flat_map cp_files ps)) 0 (flat_map cp_files ps)).
  destruct (filter_index_first (flat_map cp_files ps) (flat_map cp_files ps) [] eq_refl)
    as [Hnd Hin].
  cbn [length] in Hnd, Hin. split; [exact Hnd |].
  intros f. rewrite Hin, in_flat_map. cbn [In]. tauto.
Qed.

(** X21. The files section of a prompt lists at most ten files of the
    patterns, each once however many patterns name it, and leaves a file
    out only when ten are listed. *)
Theorem getRelevantFiles_lists_each_file_once :
  forall ps : list CodePattern,
    exists files,
      getRelevantFiles ps = join LF (map (fun file => "- " +:+ file) files) /\
      NoDup files /\
      length files <= 10 /\
      (forall f, In f files -> exists p, In p ps /\ In f (cp_files p)) /\
      (length files < 10 -> forall p f, In p ps -> In f (cp_files p) -> In f files).
Proof.
  intros ps. destruct (relevantFiles_spec ps) as [Hnd Hin].
  exists (take 10 (relevantFiles ps)).
  split; [reflexivity |]. split; [| split; [| split]].
  - rewrite <- (take_drop 10 (relevantFiles ps)) in Hnd.
    apply NoDup_app in Hnd. apply Hnd.
  - rewrite length_take. lia.
  - intros f Hf. apply Hin. apply list_elem_of_In. apply list_elem_of_In in Hf.
    now apply (subseteq_take 10).
  - intros Hlen p f Hp Hf. rewrite length_take in Hlen.
    rewrite take_ge by lia. apply Hin. now exists p.
Qed.

(** ** The standards of a prompt *)

Lemma loadStandardsFrom_legacy (file file' : string -> option (result string)) :
  (forall name, name <> "coding-standards.md" -> file' name = file name) ->
  is_Some (file "development-best-practices.md") \/ is_Some (file "code-style-guide.md") ->
  loadStandardsFrom file' = loadStandardsFrom file.
Proof.
  intros Hsame Hmodular. unfold loadStandardsFrom.
  rewrite (Hsame "development-best-practices.md"), (Hsame "code-style-guide.md"),
    (Hsame "testing-standards.md"), (Hsame "tech-stack.md") by discriminate.
  assert (Htruthy : forall a b, truthy ((a +:+ LF +:+ LF) +:+ b) = true)
    by (intros a b; destruct a; reflexivity).
  destruct (file "development-best-practices.md") as [[practices | e1] |];
    cbn [contentOf]; [| reflexivity |].
  - destruct (file "code-style-guide.md") as [[style | e2] |]; cbn [contentOf from_option];
      [| reflexivity |]; rewrite Htruthy; reflexivity.
  - destruct Hmodular as [[x Hx] | [x Hx]]; [discriminate |].
    destruct (file "code-style-guide.md") as [[style | e2] |]; cbn [contentOf from_option];
      [| reflexivity | discriminate].
    assert (Hs : truthy ("" +:+ style +:+ LF +:+ LF) = true) by (destruct style; reflexivity).
    rewrite Hs. reflexivity.
Qed.

(** X22. [loadStandards] never fails and leaves the store as it was.  Its
    coding standards are empty only when a standards file that exists could
    not be read: a read that throws is caught and leaves the fields not yet
    filled empty, so that an unreadable modular file empties all three.
    The single file [coding-standards.md] is a fallback only: as soon as
    one of the two modular files exists, neither its content nor whether it
    can be read plays a part. *)
Theorem loadStandards_coding :
  forall (st : store),
    exists s,
      loadStandards st = (Ok s, st) /\
      (truthy (coding s) = false ->
       exists name e,
         In name ["development-best-practices.md"; "code-style-guide.md"; "coding-standards.md"]
         /\ standards st !! name = Some (Err e)) /\
      (forall name e,
          In name ["development-best-practices.md"; "code-style-guide.md"] ->
          standards st !! name = Some (Err e) ->
          s = {| coding := ""; testing := ""; techstack := "" |}) /\
      (is_Some (standards st !! "development-best-practices.md")
       \/ is_Some (standards st !! "code-style-guide.md") ->
       forall legacy,
         fst (loadStandards
                {| compressed := compressed st; templates := templates st;
                   versions := versions st; performance := performance st;
                   standards := <["coding-standards.md" := legacy]> (standards st) |})
         = Ok s).
Proof.
  intros st. unfold loadStandards, gets. eexists. split; [reflexivity |].
  split; [| split].
  - unfold loadStandardsFrom.
    destruct (standards st !! "development-best-practices.md") as [[practices | e1] |] eqn:H1;
      cbn [contentOf]; try (intros _; exists "development-best-practices.md", e1;
                            split; [now left | exact H1]);
      (destruct (standards st !! "code-style-guide.md") as [[style | e2] |] eqn:H2;
       cbn [contentOf]; try (intros _; exists "code-style-guide.md", e2;
                             split; [right; now left | exact H2]));
      cbn [from_option];
      match goal with
      | |- context [if truthy ?c then _ else _] => destruct (truthy c) eqn:Hc
      end;
      try (destruct (standards st !! "coding-standards.md") as [[legacy | e3] |] eqn:H3;
           cbn [contentOf from_option];
           try (intros _; exists "coding-standards.md", e3;
                split; [right; right; now left | exact H3]));
      repeat match goal with
             | |- context [contentOf ?x] => destruct (contentOf x)
             end;
      cbn [coding from_option]; unfold or_else;
      try rewrite Hc;
      try match goal with
          | |- context [if truthy ?c then _ else _] => destruct (truthy c) eqn:Hc'
          end;
      intros Hempty; cbn [truthy] in *; congruence.
  - intros name e [<- | [<- | []]] Hname; unfold loadStandardsFrom; rewrite ?Hname;
      cbn [contentOf]; [reflexivity |].
    destruct (standards st !! "development-best-practices.md") as [[practices | e1] |];
      reflexivity.
  - intros Hmodular legacy. cbn [fst standards]. f_equal.
    apply loadStandardsFrom_legacy; [| exact Hmodular].
    intros name Hne. now apply lookup_insert_ne.
Qed.

(** ** The summary and the order of the patterns *)

Lemma insertByFrequency_Permutation (p : CodePattern) (l : list CodePattern) :
  insertByFrequency p l ≡ₚ p :: l.
Proof.
  induction l as [| q l IH]; cbn [insertByFrequency]; [reflexivity |].
  destruct (cp_frequency p <? cp_frequency q)%nat; [| reflexivity].
  rewrite IH. apply perm_swap.
Qed.

Lemma sortByFrequency_Permutation (l : list CodePattern) : sortByFrequency l ≡ₚ l.
Proof.
  induction l as [| p l IH]; [reflexivity |].
  cbn [sortByFrequency fold_right]. rewrite insertByFrequency_Permutation.
  now constructor.
Qed.

Lemma insertByFrequency_sorted (p : CodePattern) (l : list CodePattern) :
  byFrequency l -> byFrequency (insertByFrequency p l).
Proof.
  unfold byFrequency. induction l as [| q l IH]; intros Hs; cbn [insertByFrequency].
  - repeat constructor.
  - apply StronglySorted_inv in Hs as [Hs Hq].
    destruct (Nat.ltb_spec (cp_frequency p) (cp_frequency q)) as [Hlt | Hge].
    + constructor; [now apply IH |].
      rewrite insertByFrequency_Permutation. constructor; [lia | exact Hq].
    + constructor; [now constructor |].
      constructor; [lia |]. eapply Forall_impl; [exact Hq |]. cbn. intros; lia.
Qed.

Lemma sortByFrequency_sorted (l : list CodePattern) : byFrequency (sortByFrequency l).
Proof.
  induction l as [| p l IH]; [constructor |].
  cbn [sortByFrequency fold_right]. now apply insertByFrequency_sorted.
Qed.

Lemma insertByFrequency_stable (k : nat) (p : CodePattern) (l : list CodePattern) :
  ofFrequency k (insertByFrequency p l) = ofFrequency k (p :: l).
Proof.
  unfold ofFrequency. induction l as [| q l IH]; [reflexivity |].
  cbn [insertByFrequency].
  destruct (Nat.ltb_spec (cp_frequency p) (cp_frequency q)) as [Hlt | Hge]; [| reflexivity].
  cbn [List.filter] in *. rewrite IH.
  destruct (Nat.eqb_spec (cp_frequency q) k) as [Hq | Hq];
    destruct (Nat.eqb_spec (cp_frequency p) k) as [Hp | Hp]; try reflexivity; lia.
Qed.

Lemma sortByFrequency_stable (k : nat) (l : list CodePattern) :
  ofFrequency k (sortByFrequency l) = ofFrequency k l.
Proof.
  induction l as [| p l IH]; [reflexivity |].
  cbn [sortByFrequency fold_right]. rewrite insertByFrequency_stable.
  unfold ofFrequency in *. cbn [List.filter]. fold (sortByFrequency l). now rewrite IH.
Qed.

(** X23. The summary names the most frequent patterns: the array that
    [generateSummary] leaves behind is the given one rearranged, the summary
    describes its first five entries (all of them when there are fewer), no
    pattern left out is more frequent than a pattern named, and the text
    lists the titles of the first three decisions whatever the pitfalls
    are. *)
Theorem generateSummary_names_most_frequent :
  forall (patterns : list CodePattern) (decisions : list ArchitecturalDecision)
         (pitfalls : list CommonPitfall),
    exists top rest,
      snd (generateSummary patterns decisions pitfalls) = top ++ rest /\
      top ++ rest ≡ₚ patterns /\
      length top = min 5 (length patterns) /\
      (forall p q, In p top -> In q rest -> cp_frequency q <= cp_frequency p) /\
      fst (generateSummary patterns decisions pitfalls)
      = "This codebase primarily uses: "
        +:+ join ", "
              (map (fun p => cp_name p +:+ " (used " +:+ of_nat (cp_frequency p) +:+ " times)")
                   top)
        +:+ ". Key architectural decisions: "
        +:+ join ", " (map ad_title (take 3 decisions))
        +:+ ". Watch out for common pitfalls in AI-generated code.".
Proof.
  intros ps ds pfs. unfold generateSummary. cbn [fst snd].
  exists (take 5 (sortByFrequency ps)), (drop 5 (sortByFrequency ps)).
  rewrite take_drop. split; [reflexivity |]. split; [apply sortByFrequency_Permutation |].
  split; [rewrite length_take; now rewrite (Permutation_length (sortByFrequency_Permutation ps)) |].
  split; [| reflexivity].
  intros p q Hp Hq.
  pose proof (sortByFrequency_sorted ps) as Hs. unfold byFrequency in Hs.
  rewrite <- (take_drop 5 (sortByFrequency ps)) in Hs.
  apply (StronglySorted_app_1_elem_of _ _ _ p q Hs); now apply list_elem_of_In.
Qed.

(** ** Decision records *)

Lemma prefix_md_app (name : string) :
  String.prefix ".md" name = false ->
  name <> EmptyString ->
  String.prefix ".md" (name +:+ ".md") = false.
Proof.
  intros Hp Hne. revert Hp.
  destruct name as [| a [| b [| c name]]]; [congruence | | |];
    cbn [String.append String.prefix];
    repeat (match goal with
            | |- context [ascii_dec ?x ?y] => destruct (ascii_dec x y)
            end; try discriminate; try reflexivity).
  destruct name; discriminate.
Qed.

Lemma replace_first_suffix (name : string) :
  forall before : string,
    includes ".md" name = false ->
    replace_first ".md" "" before (name +:+ ".md") = name.
Proof.
  induction name as [| a name IH]; intros before Hinc.
  - reflexivity.
  - cbn [includes] in Hinc. apply orb_false_iff in Hinc as [Hp Hinc].
    assert (Hp' : String.prefix ".md" (String a name +:+ ".md") = false)
      by (apply prefix_md_app; [exact Hp | discriminate]).
    change (String a name +:+ ".md") with (String a (name +:+ ".md")) in *.
    cbn [replace_first]. rewrite Hp'. f_equal. now apply IH.
Qed.

Lemma splitLines_line (line rest : string) :
  lacks (ascii_of_nat 10) line = true ->
  splitLines (line +:+ LF +:+ rest) = line :: splitLines rest.
Proof.
  induction line as [| a line IH]; intros Hl.
  - cbn. destruct (splitLines rest) as [| l ls] eqn:Hrest; [| reflexivity].
    destruct rest as [| c rest]; [discriminate |]. cbn in Hrest.
    destruct (splitLines rest); [discriminate |]. destruct (Ascii.eqb c _); discriminate.
  - cbn [lacks] in Hl. apply andb_true_iff in Hl as [Ha Hl].
    change (String a line +:+ LF +:+ rest) with (String a (line +:+ LF +:+ rest)).
    cbn [splitLines]. rewrite (IH Hl). apply negb_true_iff in Ha. now rewrite Ha.
Qed.

Lemma length_substringTo (n : nat) (s : string) :
  String.length (substringTo n s) = min n (String.length s).
Proof.
  revert s. induction n as [| n IH]; intros [| c s]; cbn; try reflexivity. now rewrite IH.
Qed.

Lemma length_string_app (a b : string) :
  String.length (a +:+ b) = String.length a + String.length b.
Proof. induction a as [| c a IH]; cbn; [reflexivity | now rewrite IH]. Qed.

Lemma substring_split (n : nat) (s : string) :
  s = substringTo n s +:+ substringFrom n s.
Proof.
  revert s. induction n as [| n IH]; intros [| c s]; cbn; try reflexivity.
  now rewrite <- IH.
Qed.

(** X24. Every Markdown file of a decision directory gives a decision,
    since [parseArchitecturalDecision] never returns [null].  Its excerpt is
    the first 200 characters of the text (the whole text when it is
    shorter) followed by three dots, its title is never empty for a named
    file, a first line [# T] of the text gives the title [T], and the id of
    [name.md] is [name] when [name] holds no [.md] of its own. *)
Theorem parseArchitecturalDecision_fields :
  forall (content filename : string) (now : N),
    exists d,
      parseArchitecturalDecision content filename now = Some d /\
      (exists excerpt rest,
          content = excerpt +:+ rest /\
          String.length excerpt = min 200 (String.length content) /\
          ad_decision d = excerpt +:+ "...") /\
      (truthy filename = true -> truthy (ad_title d) = true) /\
      (forall heading rest,
          content = "# " +:+ heading +:+ LF +:+ rest ->
          lacks (ascii_of_nat 10) heading = true ->
          truthy heading = true ->
          ad_title d = heading) /\
      (forall name,
          filename = name +:+ ".md" -> includes ".md" name = false -> ad_id d = name).
Proof.
  intros content filename now. eexists. split; [reflexivity |].
  cbn [ad_decision ad_title ad_id]. split; [| split; [| split]].
  - exists (substringTo 200 content), (substringFrom 200 content).
    split; [apply substring_split |]. split; [apply length_substringTo | reflexivity].
  - intros Hf. unfold or_else.
    match goal with |- truthy (if truthy ?a then _ else _) = true =>
      destruct (truthy a) eqn:Ha; [exact Ha | exact Hf] end.
  - intros heading rest -> Hl Hh.
    change ("# " +:+ heading +:+ LF +:+ rest) with (("# " +:+ heading) +:+ LF +:+ rest).
    rewrite splitLines_line by exact Hl.
    cbn [find]. unfold startsWith. cbn [String.prefix String.append].
    destruct (ascii_dec "#" "#"); [| congruence]. destruct (ascii_dec " " " "); [| congruence].
    destruct heading as [| h heading]; [discriminate |].
    cbn [String.prefix substringFrom]. reflexivity.
  - intros name -> Hinc. unfold replace. now apply replace_first_suffix.
Qed.

(** ** [buildContext] *)

Lemma buildContext_inv (clock : Clock) (projectRoot : string) (project : Project)
    (ws ws' : Workspace) (context : CompressedContext) :
  buildContext clock projectRoot project ws = (Ok context, ws') ->
  exists decisions n fingerprint,
    extractDecisions clock
      (readingsOfExtractPatterns clock projectRoot (pj_entries project)) project
    = Ok (decisions, n) /\
    generateCodebaseFingerprint (pj_packageJson project) = Ok fingerprint /\
    context
    = {| patterns := sortByFrequency (extractPatterns clock projectRoot (pj_entries project));
         decisions := decisions;
         pitfalls := loadPitfalls (pitfallsMd ws);
         summary :=
           fst (generateSummary (extractPatterns clock projectRoot (pj_entries project))
                  decisions (loadPitfalls (pitfallsMd ws)));
         lastUpdated := toISOString (clock n);
         codebaseFingerprint := fingerprint |} /\
    ws' = saveDecisionsToMarkdown decisions
            (savePatternsToMarkdown
               (sortByFrequency (extractPatterns clock projectRoot (pj_entries project)))
               (writeCompressed context ws)).
Proof.
  unfold buildContext.
  destruct (extractDecisions _ _ _) as [[ds n] | e]; [| discriminate].
  unfold generateSummary.
  destruct (generateCodebaseFingerprint _) as [fp | e]; [| discriminate].
  intros [= <- <-]. exists ds, n, fp. now repeat split.
Qed.

(** X25. The snapshot does not keep the patterns in the order in which
    [extractPatterns] found them: as [generateSummary] sorts the array it is
    given, [compressed.json] and [patterns.md] hold the patterns by
    descending frequency, patterns of equal frequency in the order of
    extraction. *)
Theorem buildContext_stores_patterns_by_frequency :
  forall (clock : Clock) (projectRoot : string) (project : Project) (ws ws' : Workspace)
         (context : CompressedContext),
    buildContext clock projectRoot project ws = (Ok context, ws') ->
    patterns context ≡ₚ extractPatterns clock projectRoot (pj_entries project) /\
    byFrequency (patterns context) /\
    (forall k,
        ofFrequency k (patterns context)
        = ofFrequency k (extractPatterns clock projectRoot (pj_entries project))) /\
    compressed (sherpa ws') = Some (Json context) /\
    patternsMd ws' = Some (patternsMarkdown (patterns context)).
Proof.
  intros clock root project ws ws' context Hrun.
  destruct (buildContext_inv _ _ _ _ _ _ Hrun) as (ds & n & fp & _ & _ & Hctx & ->).
  assert (Hp : patterns context
               = sortByFrequency (extractPatterns clock root (pj_entries project)))
    by (rewrite Hctx; reflexivity).
  rewrite Hp.
  split; [apply sortByFrequency_Permutation |].
  split; [apply sortByFrequency_sorted |].
  split; [intros k; apply sortByFrequency_stable |].
  split; reflexivity.
Qed.

Lemma generatePrompt_seeded (ticket : Ticket) (now : N) (st : store)
    (context : CompressedContext) :
  default [] (templates st) = [] ->
  compressed st = Some (Json context) ->
  exists text, fst (generatePrompt ticket now (snd (initializePrompts st))) = Ok text.
Proof.
  intros Hdir Hctx. rewrite initializePrompts_unfold. cbn [snd]. rewrite Hdir.
  set (st1 := set_templates (Some (fold_left seedStep getDefaultTemplates [])) st).
  assert (Hts : getTemplates st1 = (Ok getDefaultTemplates, st1)).
  { unfold getTemplates. subst st1. cbn [templates set_templates].
    now rewrite getTemplates_after_seeding. }
  assert (Hfeat : exists tf, firstOf feature getDefaultTemplates = Some tf)
    by (eexists; reflexivity).
  destruct Hfeat as [tf Hfeat].
  destruct (selectBestTemplate_succeeds ticket st1 _ tf Hts Hfeat) as (t & Hsel & _).
  assert (Hctx1 : compressed st1 = Some (Json context)) by exact Hctx.
  destruct (generatePrompt_unfold ticket now st1 context t Hctx1 Hsel) as [text Hrun].
  exists text. now rewrite Hrun.
Qed.

(** X26. A snapshot that was built is the snapshot that is read:
    after a successful [buildContext], [getCompressedContext] returns the
    context that was returned, the templates, versions, performance records
    and standards are untouched, [pitfalls.md] is neither read nor written,
    and on a workspace without templates [initializePrompts] and then
    [generatePrompt] succeed for every ticket. *)
Theorem buildContext_then_generatePrompt :
  forall (clock : Clock) (projectRoot : string) (project : Project) (ws ws' : Workspace)
         (context : CompressedContext),
    buildContext clock projectRoot project ws = (Ok context, ws') ->
    getCompressedContext (sherpa ws') = (Ok (Some context), sherpa ws') /\
    templates (sherpa ws') = templates (sherpa ws) /\
    versions (sherpa ws') = versions (sherpa ws) /\
    performance (sherpa ws') = performance (sherpa ws) /\
    standards (sherpa ws') = standards (sherpa ws) /\
    pitfallsMd ws' = pitfallsMd ws /\
    map pf_id (pitfalls context) = ["over-abstraction"; "missing-error-handling"] /\
    (default [] (templates (sherpa ws)) = [] ->
     forall ticket now,
       exists text,
         fst (generatePrompt ticket now (snd (initializePrompts (sherpa ws')))) = Ok text).
Proof.
  intros clock root project ws ws' context Hrun.
  destruct (buildContext_inv _ _ _ _ _ _ Hrun) as (ds & n & fp & _ & _ & Hctx & ->).
  cbn [sherpa saveDecisionsToMarkdown savePatternsToMarkdown writeCompressed pitfallsMd
       templates versions performance standards set_compressed].
  split; [reflexivity |]. do 5 (split; [reflexivity |]).
  split; [rewrite Hctx; cbn [pitfalls]; now destruct (pitfallsMd ws) |].
  intros Hdir ticket now.
  apply (generatePrompt_seeded ticket now _ context); [exact Hdir | reflexivity].
Qed.

Lemma readAdrPaths_unlistable (clock : Clock) (e : error) (paths : list (option AdrDir)) :
  forall acc,
    In (Some (Unlistable e)) paths ->
    exists e', readAdrPaths clock paths acc = Err e'.
Proof.
  induction paths as [| [[e0 | files] |] paths IH]; intros acc Hin; cbn [readAdrPaths].
  - contradiction.
  - now exists e0.
  - destruct Hin as [Heq | Hin]; [discriminate |].
    destruct (readDecisionFiles clock files acc) as [acc' | e']; [now apply IH | now exists e'].
  - destruct Hin as [Heq | Hin]; [discriminate | now apply IH].
Qed.

(** X27. Everything is read before anything is written.  When one of the
    four places of decision records exists but cannot be listed, as the
    regular file [.adr-dir] of adr-tools, or when [package.json] does not
    parse, [buildContext] fails and leaves the workspace as it was. *)
Theorem buildContext_fails_on_unreadable_project :
  forall (clock : Clock) (projectRoot : string) (project : Project) (ws : Workspace),
    (exists e, In (Some (Unlistable e)) (adrPaths project))
    \/ (exists raw, pj_packageJson project = Some (Corrupt raw)) ->
    exists e, buildContext clock projectRoot project ws = (Err e, ws).
Proof.
  intros clock root project ws Hbad. unfold buildContext, extractDecisions.
  set (n := readingsOfExtractPatterns clock root (pj_entries project)).
  destruct Hbad as [[e Hin] | [raw Hraw]].
  - destruct (readAdrPaths_unlistable clock e _ ([], n) Hin) as [e' He'].
    rewrite He'. now exists e'.
  - destruct (readAdrPaths clock (adrPaths project) ([], n)) as [[ds n'] | e'];
      [| now exists e'].
    rewrite Hraw. cbn [extractImplicitDecisions readJson]. now eexists.
Qed.

Lemma readDecisionFiles_readable (clock : Clock) (files : list (string * result string)) :
  forall acc,
    Forall (fun entry => endsWith (fst entry) ".md" = true ->
                         exists content, snd entry = Ok content) files ->
    exists ds n,
      readDecisionFiles clock files acc = Ok (fst acc ++ ds, n) /\
      map ad_files ds
      = map (fun file => [file]) (List.filter (fun file => endsWith file ".md") (map fst files)).
Proof.
  induction files as [| [file read] files IH]; intros acc Hall;
    cbn [readDecisionFiles map fst List.filter].
  - exists [], (snd acc). rewrite app_nil_r. now destruct acc.
  - apply Forall_cons in Hall as [Hhead Hall]. cbn [fst snd] in Hhead.
    destruct (endsWith file ".md"); [| now apply IH].
    destruct (Hhead eq_refl) as [content ->]. cbn [parseArchitecturalDecision].
    match goal with |- context [readDecisionFiles clock files (fst acc ++ [?d], ?m)] =>
      destruct (IH (fst acc ++ [d], m) Hall) as (ds & n & Hrun & Hfiles);
      exists (d :: ds), n end.
    rewrite Hrun. cbn [fst map ad_files]. rewrite <- app_assoc, Hfiles. now split.
Qed.

Lemma readAdrPaths_readable (clock : Clock) (paths : list (option AdrDir)) :
  forall acc,
    Forall (fun found =>
              forall dir, found = Some dir ->
                exists files,
                  dir = Listing files /\
                  Forall (fun entry => endsWith (fst entry) ".md" = true ->
                                       exists content, snd entry = Ok content) files) paths ->
    exists ds n,
      readAdrPaths clock paths acc = Ok (fst acc ++ ds, n) /\
      map ad_files ds = map (fun file => [file]) (flat_map markdownFiles paths).
Proof.
  induction paths as [| found paths IH]; intros acc Hall; cbn [readAdrPaths flat_map].
  - exists [], (snd acc). rewrite app_nil_r. now destruct acc.
  - apply Forall_cons in Hall as [Hhead Hall].
    destruct found as [dir |]; [| now apply IH].
    destruct (Hhead dir eq_refl) as (files & -> & Hfiles).
    destruct (readDecisionFiles_readable clock files acc Hfiles) as (ds1 & n1 & -> & Hds1).
    destruct (IH (fst acc ++ ds1, n1) Hall) as (ds2 & n2 & -> & Hds2).
    exists (ds1 ++ ds2), n2. cbn [fst markdownFiles].
    rewrite <- app_assoc, !map_app, Hds1, Hds2. now split.
Qed.

(** X28. Conversely, [buildContext] succeeds on every project whose places
    of decision records, where they exist, are directories whose Markdown
    files can be read, and whose [package.json], if there is one, parses.
    Its decisions are then one for each Markdown file of those directories,
    in the order of the places and of their listings, followed by those for
    React and TypeScript that [package.json] stands for; they are what
    [decisions.md] is written from. *)
Theorem buildContext_succeeds_on_readable_project :
  forall (clock : Clock) (projectRoot : string) (project : Project) (ws : Workspace),
    Forall (fun found =>
              forall dir, found = Some dir ->
                exists files,
                  dir = Listing files /\
                  Forall (fun entry => endsWith (fst entry) ".md" = true ->
                                       exists content, snd entry = Ok content) files)
           (adrPaths project) ->
    (forall raw, pj_packageJson project <> Some (Corrupt raw)) ->
    exists context ws' documented implicit,
      buildContext clock projectRoot project ws = (Ok context, ws') /\
      decisions context = documented ++ implicit /\
      map ad_files documented
      = map (fun file => [file]) (flat_map markdownFiles (adrPaths project)) /\
      map ad_id implicit = implicitIds (pj_packageJson project) /\
      decisionsMd ws' = Some (decisionsMarkdown (decisions context)).
Proof.
  intros clock root project ws Hadr Hpkg. unfold buildContext, extractDecisions.
  set (n := readingsOfExtractPatterns clock root (pj_entries project)).
  destruct (readAdrPaths_readable clock _ ([], n) Hadr) as (ds & n' & -> & Hds).
  cbn [fst app].
  unfold generateSummary, generateCodebaseFingerprint, extractImplicitDecisions, implicitIds.
  destruct (pj_packageJson project) as [[pkg | raw] |]; cbn [readJson].
  - destruct (dependsOn "react" _), (dependsOn "typescript" _); cbn [fst snd app];
      do 2 eexists; exists ds; eexists;
      (split; [reflexivity |]); cbn [decisions];
      (split; [reflexivity |]); (split; [exact Hds |]); (split; reflexivity).
  - now destruct (Hpkg raw).
  - do 2 eexists. exists ds, []. split; [reflexivity |]. cbn [decisions].
    split; [reflexivity |]. split; [exact Hds |]. split; reflexivity.
Qed.

(** ** Builds under different clocks *)

Lemma readDecisionFiles_clock (clock1 clock2 : Clock) (files : list (string * result string)) :
  forall acc1 acc2,
    sameDecisions acc1 acc2 ->
    agree sameDecisions (readDecisionFiles clock1 files acc1)
      (readDecisionFiles clock2 files acc2).
Proof.
  unfold sameDecisions.
  induction files as [| [file read] files IH]; intros acc1 acc2 Hacc; cbn [readDecisionFiles].
  - exact Hacc.
  - destruct (endsWith file ".md"); [| now apply IH].
    destruct read as [content | e]; [| reflexivity].
    cbn [parseArchitecturalDecision]. apply IH. cbn [fst].
    rewrite !map_app, Hacc. reflexivity.
Qed.

Lemma readAdrPaths_clock (clock1 clock2 : Clock) (paths : list (option AdrDir)) :
  forall acc1 acc2,
    sameDecisions acc1 acc2 ->
    agree sameDecisions (readAdrPaths clock1 paths acc1) (readAdrPaths clock2 paths acc2).
Proof.
  induction paths as [| [[e | files] |] paths IH]; intros acc1 acc2 Hacc; cbn [readAdrPaths].
  - exact Hacc.
  - reflexivity.
  - pose proof (readDecisionFiles_clock clock1 clock2 files acc1 acc2 Hacc) as Hfiles.
    destruct (readDecisionFiles clock1 files acc1) as [r1 | e1],
             (readDecisionFiles clock2 files acc2) as [r2 | e2];
      cbn [agree] in Hfiles; try contradiction; [now apply IH | exact Hfiles].
  - now apply IH.
Qed.

Lemma extractImplicitDecisions_clock (clock1 clock2 : Clock) (n1 n2 : nat)
    (packageJson : option (file PackageJson)) :
  agree sameDecisions (extractImplicitDecisions clock1 n1 packageJson)
    (extractImplicitDecisions clock2 n2 packageJson).
Proof.
  unfold extractImplicitDecisions, sameDecisions.
  destruct packageJson as [[pkg | raw] |]; cbn [readJson agree]; try reflexivity.
  destruct (dependsOn "react" _), (dependsOn "typescript" _); reflexivity.
Qed.

Lemma extractDecisions_clock (clock1 clock2 : Clock) (n1 n2 : nat) (project : Project) :
  agree sameDecisions (extractDecisions clock1 n1 project) (extractDecisions clock2 n2 project).
Proof.
  unfold extractDecisions.
  pose proof (readAdrPaths_clock clock1 clock2 (adrPaths project) ([], n1) ([], n2) eq_refl)
    as Hadr.
  destruct (readAdrPaths clock1 _ _) as [[ds1 m1] | e1],
           (readAdrPaths clock2 _ _) as [[ds2 m2] | e2];
    cbn [agree] in Hadr; try contradiction; [| exact Hadr].
  pose proof (extractImplicitDecisions_clock clock1 clock2 m1 m2 (pj_packageJson project))
    as Himp.
  destruct (extractImplicitDecisions clock1 _ _) as [[is1 k1] | e1],
           (extractImplicitDecisions clock2 _ _) as [[is2 k2] | e2];
    cbn [agree] in Himp; try contradiction; [| exact Himp].
  unfold sameDecisions in *. cbn [agree fst] in *. now rewrite !map_app, Hadr, Himp.
Qed.

Lemma insertByFrequency_withoutLastSeen (p1 p2 : CodePattern) (l1 : list CodePattern) :
  forall l2,
    withoutLastSeen p1 = withoutLastSeen p2 ->
    map withoutLastSeen l1 = map withoutLastSeen l2 ->
    map withoutLastSeen (insertByFrequency p1 l1)
    = map withoutLastSeen (insertByFrequency p2 l2).
Proof.
  intros l2 Hp. revert l2.
  assert (Hfp : cp_frequency p1 = cp_frequency p2)
    by exact (f_equal cp_frequency Hp).
  induction l1 as [| q1 l1 IH]; intros [| q2 l2] Hl; try discriminate;
    cbn [insertByFrequency map].
  - now rewrite Hp.
  - cbn [map] in Hl.
    assert (Hq : withoutLastSeen q1 = withoutLastSeen q2) by congruence.
    assert (Hl' : map withoutLastSeen l1 = map withoutLastSeen l2) by congruence.
    clear Hl. rename Hl' into Hl.
    assert (Hfq : cp_frequency q1 = cp_frequency q2) by exact (f_equal cp_frequency Hq).
    rewrite Hfp, Hfq.
    destruct (cp_frequency p2 <? cp_frequency q2)%nat; cbn [map].
    + now rewrite Hq, (IH l2 Hl).
    + now rewrite Hp, Hq, Hl.
Qed.

Lemma sortByFrequency_withoutLastSeen (l1 : list CodePattern) :
  forall l2,
    map withoutLastSeen l1 = map withoutLastSeen l2 ->
    map withoutLastSeen (sortByFrequency l1) = map withoutLastSeen (sortByFrequency l2).
Proof.
  induction l1 as [| p1 l1 IH]; intros [| p2 l2] Hl; try discriminate; [reflexivity |].
  cbn [map] in Hl.
  assert (Hp : withoutLastSeen p1 = withoutLastSeen p2) by congruence.
  assert (Hl' : map withoutLastSeen l1 = map withoutLastSeen l2) by congruence.
  cbn [sortByFrequency fold_right].
  apply insertByFrequency_withoutLastSeen; [exact Hp | now apply IH].
Qed.

Lemma generateSummary_clock (ps1 ps2 : list CodePattern)
    (ds1 ds2 : list ArchitecturalDecision) (pf1 pf2 : list CommonPitfall) :
  map withoutLastSeen ps1 = map withoutLastSeen ps2 ->
  map withoutDate ds1 = map withoutDate ds2 ->
  fst (generateSummary ps1 ds1 pf1) = fst (generateSummary ps2 ds2 pf2).
Proof.
  intros Hps Hds. unfold generateSummary. cbn [fst].
  set (describe := fun p => cp_name p +:+ " (used " +:+ of_nat (cp_frequency p) +:+ " times)").
  assert (Htop : map describe (take 5 (sortByFrequency ps1))
                 = map describe (take 5 (sortByFrequency ps2))).
  { rewrite <- !firstn_map. f_equal.
    assert (Hd : forall l, map describe l = map describe (map withoutLastSeen l))
      by (intros l; rewrite map_map; reflexivity).
    rewrite (Hd (sortByFrequency ps1)), (Hd (sortByFrequency ps2)).
    f_equal. now apply sortByFrequency_withoutLastSeen. }
  assert (Hkey : map ad_title (take 3 ds1) = map ad_title (take 3 ds2)).
  { rewrite <- !firstn_map. f_equal.
    assert (Hd : forall l, map ad_title l = map ad_title (map withoutDate l))
      by (intros l; rewrite map_map; reflexivity).
    rewrite (Hd ds1), (Hd ds2). now f_equal. }
  now rewrite Htop, Hkey.
Qed.

(** X29. A build depends on the clock, and on what the workspace held
    before, through its timestamps only: two runs of [buildContext] on one
    project fail with the same error or succeed with contexts that have the
    same patterns up to [lastSeen], the same decisions up to their dates,
    the same pitfalls, the same summary and the same fingerprint. *)
Theorem buildContext_deterministic :
  forall (clock1 clock2 : Clock) (projectRoot : string) (project : Project)
         (ws1 ws2 : Workspace),
    agree (fun c1 c2 => withoutTimes c1 = withoutTimes c2)
      (fst (buildContext clock1 projectRoot project ws1))
      (fst (buildContext clock2 projectRoot project ws2)).
Proof.
  intros clock1 clock2 root project ws1 ws2. unfold buildContext.
  pose proof (extractDecisions_clock clock1 clock2
                (readingsOfExtractPatterns clock1 root (pj_entries project))
                (readingsOfExtractPatterns clock2 root (pj_entries project)) project) as Hds.
  destruct (extractDecisions clock1 _ _) as [[ds1 m1] | e1],
           (extractDecisions clock2 _ _) as [[ds2 m2] | e2];
    cbn [agree] in Hds; try contradiction; [| exact Hds].
  unfold sameDecisions in Hds. cbn [fst] in Hds.
  pose proof (extractPatterns_clock clock1 clock2 root (pj_entries project)) as Hps.
  pose proof (generateSummary_clock _ _ ds1 ds2 (loadPitfalls (pitfallsMd ws1))
                (loadPitfalls (pitfallsMd ws2)) Hps Hds) as Hsum.
  unfold generateSummary in *. cbn [fst] in Hsum.
  destruct (generateCodebaseFingerprint (pj_packageJson project)) as [fp | e];
    cbn [fst agree]; [| reflexivity].
  unfold withoutTimes.
  cbn [patterns decisions pitfalls summary lastUpdated codebaseFingerprint].
  rewrite Hsum, Hds, (sortByFrequency_withoutLastSeen _ _ Hps).
  now destruct (pitfallsMd ws1), (pitfallsMd ws2).
Qed.

(** ** Templates without placeholders *)

Lemma replace_from_plain (pat repl : string) (s : string) :
  forall before,
    lacks "{" s = true ->
    replace_from ("{" +:+ pat) repl 0 before s = s.
Proof.
  induction s as [| c s IH]; intros before Hl; [reflexivity |].
  cbn [lacks] in Hl. apply andb_true_iff in Hl as [Hc Hl].
  cbn [replace_from String.append String.prefix].
  destruct (ascii_dec "{" c) as [<- | Hne]; [discriminate |].
  now rewrite IH.
Qed.

(** X30. A template whose text holds no opening brace is emitted as it
    stands, whatever the ticket, the context and the standards are: the
    replacements touch placeholders only. *)
Theorem fillTemplate_plain_text :
  forall (template : PromptTemplate) (data : TemplateData),
    lacks "{" (pt_template template) = true ->
    fillTemplate template data = pt_template template.
Proof.
  intros template data Hl. unfold fillTemplate, fillWith.
  induction (replacements data) as [| [variable value] table IH]; [reflexivity |].
  cbn [fold_left replaceVariable]. unfold replaceAll, placeholder.
  change ("{{" +:+ variable +:+ "}}") with ("{" +:+ ("{" +:+ variable +:+ "}}")).
  now rewrite replace_from_plain.
Qed.

(** ** Templates named after an inherited member *)

Lemma updateTemplatePerformance_inherited (st : store) (T : string) (o : Outcome) (now : N) :
  inherited T = true ->
  performanceReadable st ->
  performanceOf st T = None ->
  exists st',
    updateTemplatePerformance T o now st = (Ok tt, st') /\
    performanceReadable st' /\
    versions st' = versions st /\
    forall T', performanceOf st' T' = performanceOf st T'.
Proof.
  intros Hinh Hread Hnone.
  unfold updateTemplatePerformance, bind, modify, performanceReadable, performanceOf in *.
  destruct (performance st) as [[perf | raw] |] eqn:Hperf; [| contradiction |];
    cbn [readJson]; unfold OMap.has.
  - rewrite Hnone, Hinh. cbn [negb andb]. eexists. split; [reflexivity |].
    cbn [performance versions set_performance]. now repeat split.
  - cbn [OMap.get negb andb]. rewrite Hinh. eexists. split; [reflexivity |].
    cbn [performance versions set_performance]. now repeat split.
Qed.

(** For a template whose id is the name of an inherited member and that
    has no record, no number of reports creates one. *)
Lemma recordOutcomes_inherited (T : string) (reports : list OutcomeReport) :
  inherited T = true ->
  forall st : store,
    performanceReadable st ->
    performanceOf st T = None ->
    Forall (fun r => refersTo st T (or_versionId r)) reports ->
    fst (recordOutcomes reports st) = Ok tt /\
    performanceOf (snd (recordOutcomes reports st)) T = None.
Proof.
  intros Hinh. induction reports as [| r reports IH]; intros st Hread Hnone Hall.
  - now split.
  - apply Forall_cons in Hall as [(v & Hv & HT) Hall].
    cbn [recordOutcomes]. unfold bind.
    rewrite (recordPromptOutcome_unfold _ _ _ _ _ _ Hv), HT.
    set (st1 := set_versions _ st).
    destruct (updateTemplatePerformance_inherited st1 T (or_outcome r) (or_now r) Hinh Hread Hnone)
      as (st2 & Hrun & Hread2 & Hvers & Hsame).
    rewrite Hrun. apply IH; [exact Hread2 | now rewrite Hsame |].
    eapply Forall_impl; [exact Hall |]. intros r' (v' & Hv' & HT').
    unfold refersTo. rewrite Hvers. subst st1. cbn [versions set_versions].
    rewrite lookup_insert. case_decide as Heq.
    + eexists. split; [reflexivity |]. cbn [pv_templateId withOutcome].
      rewrite <- Heq in Hv'. congruence.
    + exists v'. now split.
Qed.

End Properties.

(** * The properties on the example project *)


Lemma generatePrompt_missing_context_witness :
  compressed empty_store = None /\
  generatePrompt (TP := demo_env) (demo_ticket "Add search" "Users can search") 1700%N
    empty_store
  = (Err (Error "No context found. Run `sherpa context:build` first."), empty_store).
Proof.
  split; [reflexivity |].
  apply (generatePrompt_missing_context (TP := demo_env) empty_store).
  reflexivity.
Defined.

Lemma searchSimilarContext_empty_is_ok_witness :
  searchSimilarContext (TP := demo_env) "zzz-no-match-qqq" demo_store
  = (Ok {| sr_patterns := []; sr_decisions := [] |}, demo_store).
Proof.
  apply (searchSimilarContext_empty_is_ok (TP := demo_env) demo_store "zzz-no-match-qqq").
  right. exists demo_context. repeat split; reflexivity.
Defined.

Lemma initializePrompts_preserves_overrides_witness :
  templateFile (snd (initializePrompts custom_store)) "feature-implementation.json"
  = Some (Json custom_template).
Proof.
  apply (initializePrompts_preserves_overrides custom_store).
  reflexivity.
Defined.

Lemma recordPromptOutcome_accounting_witness :
  exists p,
    performanceOf reported_store "bug-fix" = Some p /\
    totalUses p = 4 /\ successCount p = 1 /\ failureCount p = 2 /\
    (averageRating p == 1 # 4)%Q /\ lastAnalyzed p = "1803".
Proof.
  destruct (recordPromptOutcome_accounting (TP := demo_env) prompted_store "bug-fix"
              demo_reports
              {| or_versionId := ""; or_outcome := partial; or_feedback := ""; or_now := 0%N |})
    as (_ & p & Hp & Huses & Hsucc & Hfail & _ & _ & Havg & Hlast).
  - reflexivity.
  - exact I.
  - reflexivity.
  - repeat constructor; eexists; split; reflexivity.
  - discriminate.
  - exists p. repeat split; try assumption.
    rewrite Havg, Hsucc, Huses. reflexivity.
Defined.

(** C4. The two places that flag underperforming templates disagree on the
    usage floor.  For the record of the bug-fix template after four reported
    outcomes (rated 1/4, used 4 times) the [prompt:optimize] command flags the
    template, and [optimizePrompts] of the prompt manager, whose floor is 5
    instead of 3, reports nothing. *)
Theorem optimizePrompts_floor_differs :
  let p := {| pp_templateId := "bug-fix"; totalUses := 4; successCount := 1;
              failureCount := 2; averageRating := 1 # 4; commonIssues := [];
              lastAnalyzed := "1803" |} in
  performanceOf reported_store "bug-fix" = Some p /\
  (averageRating p < 7 # 10)%Q /\ 3 < totalUses p /\
  promptOptimizeCommand reported_store = (Ok [p], reported_store) /\
  optimizePrompts reported_store = (Ok [], reported_store).
Proof.
  cbv zeta. split; [vm_compute; reflexivity |].
  split; [reflexivity |].
  split; [cbn; lia |].
  split; vm_compute; reflexivity.
Qed.

Lemma selectBestTemplate_first_match_witness :
  selectBestTemplate (demo_ticket "Fix login bug" "Users can log in") demo_store
  = (Ok {| pt_id := "bug-fix"; pt_name := "Bug Fix"; category := bugfix;
           pt_template := pt_template (nth 1 getDefaultTemplates custom_template);
           variables := variables (nth 1 getDefaultTemplates custom_template);
           successRate := 0; usageCount := 0; lastUsed := ""; aiModel := Some "any" |},
     demo_store).
Proof.
  destruct (selectBestTemplate_first_match demo_store
              (demo_ticket "Fix login bug" "Users can log in") getDefaultTemplates)
    as (Hbug & _ & _).
  - vm_compute. reflexivity.
  - apply Hbug; vm_compute; reflexivity.
Defined.

(** Scenario B, second half: the title [Add search] selects the
    feature-implementation template of a seeded project. *)
Example selectBestTemplate_add_search :
  exists t,
    selectBestTemplate (demo_ticket "Add search" "Users can search") demo_store
    = (Ok t, demo_store) /\ pt_id t = "feature-implementation".
Proof. eexists. split; reflexivity. Qed.

(** C2 fails as stated: with the bug-fix template removed, a title that
    contains both fix and refactor selects the refactor template, where the
    specification names the feature template as the stand-in. *)
Lemma selectBestTemplate_fallback_counterexample :
  exists ts t,
    getTemplates no_bugfix_store = (Ok ts, no_bugfix_store) /\
    selectBestTemplate (demo_ticket "Fix refactor script" "Script runs") no_bugfix_store
    = (Ok t, no_bugfix_store) /\
    pt_id t = "refactor" /\
    (exists t', spec_selectTemplate ts (demo_ticket "Fix refactor script" "Script runs") = Some t'
                /\ pt_id t' = "feature-implementation") /\
    spec_selectTemplate ts (demo_ticket "Fix refactor script" "Script runs") <> Some t.
Proof.
  eexists _, _. split; [reflexivity |]. split; [reflexivity |]. split; [reflexivity |].
  split; [eexists; split; reflexivity |]. discriminate.
Qed.

(** The outcome text is compared as it is written: [Improve] with a capital
    does not select the refactor template, the lower-case word does. *)
Example selectBestTemplate_outcome_case :
  (exists t, selectBestTemplate (demo_ticket "Tidy the parser" "Improve readability") demo_store
             = (Ok t, demo_store) /\ pt_id t = "feature-implementation") /\
  (exists t, selectBestTemplate (demo_ticket "Tidy the parser" "We improve readability") demo_store
             = (Ok t, demo_store) /\ pt_id t = "refactor").
Proof. split; eexists; split; reflexivity. Qed.

Lemma build_deterministic_witness :
  signatureFrequencies (extractPatterns (TP := demo_env) demo_clock "/repo" demo_tree)
  = signatureFrequencies
      (extractPatterns (TP := demo_env) late_clock "/repo" demo_tree)
  /\ generateCodebaseFingerprint
       (Some (Json {| dependencies := Some [("react", "^18.2.0"); ("axios", "^1.6.0")];
                      devDependencies := Some [("vitest", "^1.0.0"); ("typescript", "^5.3.0")] |}))
     = generateCodebaseFingerprint
         (Some (Json {| dependencies := Some [("axios", "^1.6.0"); ("react", "^18.2.0")];
                        devDependencies := Some [("typescript", "^5.3.0"); ("vitest", "^1.0.0")] |})).
Proof.
  destruct (build_deterministic (TP := demo_env) demo_clock late_clock
              "/repo" demo_tree
              {| dependencies := Some [("react", "^18.2.0"); ("axios", "^1.6.0")];
                 devDependencies := Some [("vitest", "^1.0.0"); ("typescript", "^5.3.0")] |}
              {| dependencies := Some [("axios", "^1.6.0"); ("react", "^18.2.0")];
                 devDependencies := Some [("typescript", "^5.3.0"); ("vitest", "^1.0.0")] |})
    as (_ & Hfreq & Hfp & _).
  - cbn. apply perm_swap.
  - cbn. apply perm_swap.
  - split; assumption.
Defined.

(** Scenario A: three synchronous functions of two parameters and one
    asynchronous function of one parameter, all named. *)
Example extractPatterns_scenario_A :
  signatureFrequencies (extractPatterns (TP := demo_env) demo_clock "/repo" demo_tree)
  = [("function-2-params-sync", 3); ("function-1-params-async", 1)].
Proof. vm_compute. reflexivity. Qed.

(** C6 fails as stated: a module whose only declaration is an unnamed
    default-export function of two parameters parses, holds one declaration
    that matches the signature of synchronous functions with two parameters,
    and the build records no pattern at all. *)
Lemma anonymous_function_counterexample :
  length (List.filter (isFunction 2 false)
            (declarationsOf (TP := demo_env) (getSourceFiles "/repo" anonymous_tree))) = 1
  /\ extractPatterns (TP := demo_env) demo_clock "/repo" anonymous_tree = []
  /\ frequencyOf "function-2-params-sync"
       (extractPatterns (TP := demo_env) demo_clock "/repo" anonymous_tree) = 0.
Proof. repeat split; vm_compute; reflexivity. Qed.

Lemma fillTemplate_resolves_known_placeholders_witness :
  includes "{{" (fillTemplate bugfix_seed (demo_data "Fix the $5 fee bug")) = false.
Proof.
  destruct (fillTemplate_resolves_known_placeholders bugfix_seed
              (demo_data "Fix the $5 fee bug") (tokenize (pt_template bugfix_seed)))
    as [_ Hnone].
  - vm_compute. reflexivity.
  - vm_compute. reflexivity.
  - vm_compute. reflexivity.
  - apply Hnone. vm_compute. reflexivity.
Defined.

(** C1 fails as stated: the prompt generated from a template of the
    operator's own keeps the placeholder that is not in the table. *)
Lemma generatePrompt_unknown_placeholder_counterexample :
  fst (generatePrompt (TP := demo_env) (demo_ticket "Add search" "Users can search") 1700%N
         annotated_store)
  = Ok "Task: Add search. Reviewer: {{REVIEWER_NOTE}}"
  /\ includes "{{" "Task: Add search. Reviewer: {{REVIEWER_NOTE}}" = true.
Proof. split; vm_compute; reflexivity. Qed.

(** A dollar sequence in a value is read as a replacement pattern: with the
    seed feature template, the title [Support $& in search] puts the
    placeholder back into the text. *)
Example fillTemplate_dollar_pattern :
  includes "**Feature**: Support {{FEATURE_NAME}} in search"
    (fillTemplate feature_seed (demo_data "Support $& in search")) = true.
Proof. vm_compute. reflexivity. Qed.

(** A value that ends in an opening brace can complete a placeholder with
    the text that follows it: the title [Escape {] before the text
    [{EXPECTED_OUTCOME}}] makes a placeholder that a later turn of the loop
    replaces, where the body itself has none at that place. *)
Example fillTemplate_brace_at_end :
  let data := demo_data "Escape {" in
  let segments := [Hole "FEATURE_NAME"; Text "{EXPECTED_OUTCOME}}"] in
  pt_template brace_template = render segments /\
  forallb wellFormed segments = true /\
  render (map (resolve (replacements data)) segments) = "Escape {{EXPECTED_OUTCOME}}" /\
  fillTemplate brace_template data = "Escape Users can log in".
Proof. cbv zeta. repeat split; vm_compute; reflexivity. Qed.

Lemma extractPatterns_files_match_frequency_witness :
  length (cp_files (setLastSeen "1702" (demo_pattern_at "/repo/src/math.ts"))) = 3.
Proof.
  apply (extractPatterns_files_match_frequency (TP := demo_env) demo_clock "/repo" demo_tree).
  vm_compute. left. reflexivity.
Defined.

Lemma frequencies_independent_of_order_witness :
  frequencyOf "function-2-params-sync" (extractPatterns (TP := demo_env) demo_clock "/repo" clean_tree)
  = frequencyOf "function-2-params-sync"
      (extractPatterns (TP := demo_env) late_clock "/other" renamed_tree).
Proof.
  apply (frequencies_independent_of_order (TP := demo_env)).
  vm_compute. apply perm_swap.
Defined.

Lemma extractPatterns_skips_unparsable_witness :
  extractPatterns (TP := demo_env) demo_clock "/repo" demo_tree
  = extractPatterns (TP := demo_env) demo_clock "/repo" clean_tree.
Proof.
  apply (extractPatterns_skips_unparsable (TP := demo_env)).
  vm_compute. reflexivity.
Defined.

Lemma pattern_described_by_first_declaration_witness :
  exists p,
    In p (extractPatterns (TP := demo_env) demo_clock "/repo" demo_tree) /\
    cp_id p = "function-2-params-sync" /\
    (exists rest, cp_files p = "/repo/src/math.ts" :: rest) /\
    forall now, exists q,
        visit (TP := demo_env) now "/repo/src/math.ts" (named_function "add" ["a"; "b"] false) []
        = [("function-2-params-sync", q)] /\
        cp_name p = cp_name q /\ cp_description p = cp_description q
        /\ cp_example p = cp_example q.
Proof.
  apply (pattern_described_by_first_declaration (TP := demo_env) demo_clock "/repo" demo_tree).
  vm_compute. reflexivity.
Defined.

Lemma getSourceFiles_paths_witness :
  startsWith "/repo/src/load.ts" ("/repo" +:+ "/") = true
  /\ existsb (fun ext => endsWith "/repo/src/load.ts" ext) [".ts"; ".tsx"; ".js"; ".jsx"] = true.
Proof.
  apply (getSourceFiles_paths "/repo" demo_tree "/repo/src/load.ts" load_ts).
  - reflexivity.
  - vm_compute. right. left. reflexivity.
Defined.


Lemma generatePrompt_after_initializePrompts_witness :
  exists t text,
    In t getDefaultTemplates
    /\ selectBestTemplate (demo_ticket "Refactor the parser" "Parser is smaller")
         (snd (initializePrompts (set_compressed (Some (Json demo_context)) empty_store)))
       = (Ok t, snd (initializePrompts (set_compressed (Some (Json demo_context)) empty_store)))
    /\ fst (generatePrompt (TP := demo_env) (demo_ticket "Refactor the parser" "Parser is smaller")
              1700%N
              (snd (initializePrompts (set_compressed (Some (Json demo_context)) empty_store))))
       = Ok text.
Proof.
  apply (generatePrompt_after_initializePrompts (TP := demo_env)
           (demo_ticket "Refactor the parser" "Parser is smaller") 1700%N
           (set_compressed (Some (Json demo_context)) empty_store) demo_context).
  - left. reflexivity.
  - reflexivity.
Defined.


Lemma recordPromptOutcome_corrupt_performance_witness :
  fst (recordPromptOutcome (TP := demo_env) "bug-fix-1700" failure "missed a case" 1800%N
         (set_performance (Some (Corrupt "{ not json")) prompted_store))
  = Err (SyntaxError performancePath).
Proof.
  eapply (recordPromptOutcome_corrupt_performance (TP := demo_env) "bug-fix-1700" failure
            "missed a case" "{ not json" 1800%N
            (set_performance (Some (Corrupt "{ not json")) prompted_store)).
  - vm_compute. reflexivity.
  - reflexivity.
Defined.

Lemma recordPromptOutcome_frame_witness :
  compressed (snd (recordPromptOutcome (TP := demo_env) "bug-fix-1700" failure "missed a case"
                     1800%N prompted_store))
  = compressed prompted_store.
Proof.
  eapply (recordPromptOutcome_frame (TP := demo_env) "bug-fix-1700" failure "missed a case"
            1800%N prompted_store).
  vm_compute. reflexivity.
Defined.

Lemma command_flags_after_reports_witness :
  exists p flagged,
    performanceOf (snd (recordOutcomes (TP := demo_env) demo_reports prompted_store)) "bug-fix"
    = Some p /\
    promptOptimizeCommand (snd (recordOutcomes (TP := demo_env) demo_reports prompted_store))
    = (Ok flagged, snd (recordOutcomes (TP := demo_env) demo_reports prompted_store)) /\
    (In p flagged
     <-> 10 * countOutcome success demo_reports < 7 * length demo_reports
         /\ 3 < length demo_reports).
Proof.
  apply (command_flags_after_reports (TP := demo_env) prompted_store "bug-fix" demo_reports).
  - reflexivity.
  - exact I.
  - reflexivity.
  - repeat constructor; eexists; (split; [vm_compute; reflexivity | reflexivity]).
  - discriminate.
Defined.

Lemma optimizePrompts_needs_templates_witness :
  optimizePrompts empty_store = (Err (ENOENT templatesPath), empty_store) /\
  exists flagged, promptOptimizeCommand empty_store = (Ok flagged, empty_store).
Proof.
  apply (optimizePrompts_needs_templates empty_store); [exact I | reflexivity].
Defined.

Lemma parseArchitecturalDecision_fields_witness :
  exists d,
    parseArchitecturalDecision (TP := demo_env)
      ("# Use Postgres" +:+ LF +:+ "We store the data in Postgres.") "0001-use-postgres.md"
      1700%N = Some d /\
    ad_title d = "Use Postgres" /\ ad_id d = "0001-use-postgres".
Proof.
  destruct (parseArchitecturalDecision_fields (TP := demo_env)
              ("# Use Postgres" +:+ LF +:+ "We store the data in Postgres.")
              "0001-use-postgres.md" 1700%N)
    as (d & Hd & _ & _ & Htitle & Hid).
  exists d. split; [exact Hd |]. split.
  - apply (Htitle "Use Postgres" "We store the data in Postgres."); reflexivity.
  - apply (Hid "0001-use-postgres"); reflexivity.
Defined.

Lemma buildContext_stores_patterns_by_frequency_witness :
  byFrequency
    (patterns (match fst (buildContext (TP := demo_env) demo_clock "/app" demo_project
                            empty_workspace) with
               | Ok context => context
               | Err _ => demo_context
               end)).
Proof.
  eapply (buildContext_stores_patterns_by_frequency (TP := demo_env) demo_clock "/app"
            demo_project empty_workspace).
  vm_compute. reflexivity.
Defined.

Lemma buildContext_then_generatePrompt_witness :
  getCompressedContext
    (sherpa (snd (buildContext (TP := demo_env) demo_clock "/app" demo_project empty_workspace)))
  = (Ok (Some (match fst (buildContext (TP := demo_env) demo_clock "/app" demo_project
                                 empty_workspace) with
               | Ok context => context
               | Err _ => demo_context
               end)),
     sherpa (snd (buildContext (TP := demo_env) demo_clock "/app" demo_project empty_workspace))).
Proof.
  eapply (buildContext_then_generatePrompt (TP := demo_env) demo_clock "/app" demo_project
            empty_workspace).
  vm_compute. reflexivity.
Defined.

Lemma buildContext_fails_on_unreadable_project_witness :
  exists e,
    buildContext (TP := demo_env) demo_clock "/app" adr_tools_project empty_workspace
    = (Err e, empty_workspace).
Proof.
  apply (buildContext_fails_on_unreadable_project (TP := demo_env)).
  left. eexists. right. right. left. reflexivity.
Defined.

Lemma buildContext_succeeds_on_readable_project_witness :
  exists context ws' documented implicit,
    buildContext (TP := demo_env) demo_clock "/app" demo_project empty_workspace
    = (Ok context, ws') /\
    decisions context = documented ++ implicit /\
    map ad_files documented = [["0001-use-postgres.md"]] /\
    map ad_id implicit = ["tech-stack-react"; "tech-stack-typescript"] /\
    decisionsMd ws' = Some (decisionsMarkdown (decisions context)).
Proof.
  apply (buildContext_succeeds_on_readable_project (TP := demo_env)).
  - repeat constructor; intros dir [= <-]; eexists; (split; [reflexivity |]);
      repeat constructor; cbn [fst snd]; intros _; eexists; reflexivity.
  - discriminate.
Defined.

Lemma corrupt_template_blocks_prompts_witness :
  exists name',
    generatePrompt (TP := demo_env) (demo_ticket "Add export" "Users can export") 1700%N
      broken_store
    = (Err (SyntaxError (path_join templatesPath name')), broken_store).
Proof.
  destruct (corrupt_template_blocks_prompts (TP := demo_env) broken_store broken_templates
              "bug-fix.json" "{ not json" demo_context
              (demo_ticket "Add export" "Users can export") 1700%N)
    as (name' & _ & Hrun).
  - reflexivity.
  - reflexivity.
  - vm_compute. right. left. reflexivity.
  - reflexivity.
  - exists name'. exact Hrun.
Defined.


Lemma corrupt_context_is_an_error_witness :
  generatePrompt (TP := demo_env) (demo_ticket "Fix login bug" "Users can log in") 1700%N
    (set_compressed (Some (Corrupt "{ not json")) demo_store)
  = (Err (SyntaxError compressedPath), set_compressed (Some (Corrupt "{ not json")) demo_store).
Proof.
  apply (corrupt_context_is_an_error (TP := demo_env)
           (set_compressed (Some (Corrupt "{ not json")) demo_store) "{ not json" "login").
  reflexivity.
Defined.

Lemma fillTemplate_plain_text_witness :
  fillTemplate notes_template (demo_data "Add export")
  = "Write the release notes for this sprint.".
Proof.
  apply (fillTemplate_plain_text notes_template (demo_data "Add export")).
  reflexivity.
Defined.

(** C3. The accounting misses a template whose id is the name of a member
    that every object inherits.  In a seeded project whose operator has
    edited the feature template and given it the id [constructor] (an edit
    that [initializePrompts] keeps), a prompt is generated and its version
    stored; the report of its outcome raises no error, and yet the
    performance file is written without a record: where the specification wants
    [totalUses] to be 1, the template has no record at all and the analysis
    lists nothing. *)
Theorem recordPromptOutcome_inherited_member :
  let ticket := demo_ticket "Add search" "Users can search" in
  let st1 := snd (generatePrompt (TP := demo_env) ticket 1700%N constructor_store) in
  let st2 :=
    snd (recordPromptOutcome (TP := demo_env) "constructor-1700" success "worked" 1800%N st1) in
  initializePrompts constructor_store = (Ok tt, constructor_store) /\
  fst (generatePrompt (TP := demo_env) ticket 1700%N constructor_store)
  = Ok "Implement Add search." /\
  refersTo st1 "constructor" "constructor-1700" /\
  fst (recordPromptOutcome (TP := demo_env) "constructor-1700" success "worked" 1800%N st1)
  = Ok tt /\
  performance st2 = Some (Json []) /\
  performanceOf st2 "constructor" = None /\
  analyzePromptPerformance st2 = (Ok [], st2).
Proof.
  cbv zeta. split; [vm_compute; reflexivity |].
  split; [vm_compute; reflexivity |].
  split; [eexists; split; vm_compute; reflexivity |].
  repeat split; vm_compute; reflexivity.
Qed.

